(** * AARR: the aerodynamics engine and the simulation manager

    A shallow embedding of [src/physics/aerodynamics.py] and
    [src/physics/simulation.py], and of the mesh and the primitive shapes of
    [src/geometry/mesh_loader.py].

    The Python code computes on binary64 numbers (Python [float], numpy
    [float64]).  The embedding is written once over an interface [Scalar] of
    the arithmetic the code uses, and read at two instances:

    - [binary64]: Rocq's primitive floats, which are IEEE 754 binary64 like
      the Python numbers, with the four functions the code takes from the C
      mathematics library ([sin], [cos], [pow], [atan2]) as a parameter
      [Libm];
    - [exact]: real numbers extended with one non-finite element, where no
      operation rounds or overflows and a non-finite value arises only from
      an undefined operation (division by zero, square root of a negative).

    Python exceptions are results of type [py]; the manager object is threaded
    explicitly, so that a call that raises still hands back the manager as the
    raise left it. *)

From Stdlib Require Import ZArith QArith Floats Reals Lra Lia List Bool.
Import ListNotations.

Set Implicit Arguments.

(* ================================================================== *)
(** ** Numbers *)

(** What the code asks of its numbers.  [lit] reads a decimal literal of the
    source, [ltb]/[leb]/[eqb] are Python's [<], [<=], [==]. *)
Class Scalar (T : Type) : Type := {
  lit : Q -> T;
  pi : T;
  inf : T;
  add : T -> T -> T;
  sub : T -> T -> T;
  mul : T -> T -> T;
  div : T -> T -> T;
  opp : T -> T;
  abs : T -> T;
  sqrt : T -> T;
  sin : T -> T;
  cos : T -> T;
  pow : T -> T -> T;
  arctan2 : T -> T -> T;
  ltb : T -> T -> bool;
  leb : T -> T -> bool;
  eqb : T -> T -> bool;
  is_inf : T -> bool;
  is_nan : T -> bool
}.

Declare Scope num_scope.
Delimit Scope num_scope with num.
Notation "# q" := (lit q%Q) (at level 1, format "# q") : num_scope.
Infix "+" := add : num_scope.
Infix "-" := sub : num_scope.
Infix "*" := mul : num_scope.
Infix "/" := div : num_scope.
Notation "- x" := (opp x) : num_scope.
Infix "<?" := ltb : num_scope.
Infix "<=?" := leb : num_scope.
Infix "=?" := eqb : num_scope.
Notation "x >? y" := (ltb y x) (at level 70) : num_scope.
Notation "x >=? y" := (leb y x) (at level 70) : num_scope.

(** *** binary64 *)

(** The C mathematics library behind [math.sin], [np.cos], [**] and
    [np.arctan2].  Its results are not fixed bit for bit by any standard, so
    the functions are a parameter of the binary64 reading. *)
Record Libm : Type := {
  libm_sin : float -> float;
  libm_cos : float -> float;
  libm_pow : float -> float -> float;
  libm_atan2 : float -> float -> float
}.

(** An integer of magnitude below 2^53 as the binary64 number it is. *)
Definition float_of_Z (z : Z) : float :=
  match z with
  | Z0 => PrimFloat.of_uint63 (Uint63.of_Z 0)
  | Zpos _ => PrimFloat.of_uint63 (Uint63.of_Z z)
  | Zneg p => PrimFloat.opp (PrimFloat.of_uint63 (Uint63.of_Z (Zpos p)))
  end.

(** A decimal literal [n/d] is the binary64 number nearest to it: numerator
    and denominator are exact, and one division rounds once. *)
Definition float_lit (q : Q) : float :=
  PrimFloat.div (float_of_Z (Qnum q)) (float_of_Z (Zpos (Qden q))).

(** [math.pi], [np.pi]. *)
Definition float_pi : float := 0x1.921fb54442d18p+1%float.

Definition binary64 (L : Libm) : Scalar float := {|
  lit := float_lit;
  pi := float_pi;
  inf := PrimFloat.infinity;
  add := PrimFloat.add;
  sub := PrimFloat.sub;
  mul := PrimFloat.mul;
  div := PrimFloat.div;
  opp := PrimFloat.opp;
  abs := PrimFloat.abs;
  sqrt := PrimFloat.sqrt;
  sin := libm_sin L;
  cos := libm_cos L;
  pow := libm_pow L;
  arctan2 := libm_atan2 L;
  ltb := PrimFloat.ltb;
  leb := PrimFloat.leb;
  eqb := PrimFloat.eqb;
  is_inf := PrimFloat.is_infinity;
  is_nan := PrimFloat.is_nan
|}.

(** A small mathematics library that lets the binary64 reading run on
    concrete inputs: it answers where the result is known exactly (ISO C,
    Annex F: sin 0, cos 0, pow(x, 0), pow(1, y), atan2(0, x) for positive x),
    multiplies for the exponents 1, 2 and 3, and answers NaN elsewhere. *)
Definition libm_small : Libm := {|
  libm_sin := fun x => if PrimFloat.eqb x 0%float then x else PrimFloat.nan;
  libm_cos := fun x => if PrimFloat.eqb x 0%float then 1%float else PrimFloat.nan;
  libm_pow := fun x y =>
    if PrimFloat.eqb y 0%float then 1%float
    else if PrimFloat.eqb x 1%float then 1%float
    else if PrimFloat.eqb y 1%float then x
    else if PrimFloat.eqb y 2%float then PrimFloat.mul x x
    else if PrimFloat.eqb y 3%float then PrimFloat.mul (PrimFloat.mul x x) x
    else PrimFloat.nan;
  libm_atan2 := fun y x =>
    if PrimFloat.eqb y 0%float && PrimFloat.ltb 0%float x then y else PrimFloat.nan
|}.

(** A mathematics library that answers within the range of each function on
    every input: it answers as [libm_small] where that knows the result, and
    a value of the range where that answers NaN (0 for a sine and for an
    angle, 1 for a cosine and for a power).  It shows that the conditions of
    [Ranged] below can be met. *)
Definition libm_coarse : Libm := {|
  libm_sin := fun x => if PrimFloat.eqb x 0%float then x else 0%float;
  libm_cos := fun _ => 1%float;
  libm_pow := fun x y =>
    if PrimFloat.eqb y 0%float then 1%float
    else if PrimFloat.eqb x 1%float then 1%float
    else if PrimFloat.eqb y 1%float then x
    else if PrimFloat.eqb y 2%float then PrimFloat.mul x x
    else if PrimFloat.eqb y 3%float then PrimFloat.mul (PrimFloat.mul x x) x
    else 1%float;
  libm_atan2 := fun y x =>
    if PrimFloat.eqb y 0%float && PrimFloat.ltb 0%float x then y else 0%float
|}.

(** What the C mathematics library is taken to guarantee: results within the
    range of the function.  Sines and cosines of a finite number lie between
    -1 and 1; the angle [atan2] answers is at most pi in magnitude; a square
    is not negative, and is at most 2^260 when the base is at most 2^128 in
    magnitude; a power of a base from 1 on to an exponent between 0 and 1
    lies between 0 and the base. *)
Record Ranged (L : Libm) : Prop := {
  sin_range : forall t,
    PrimFloat.is_nan t = false -> PrimFloat.is_infinity t = false ->
    PrimFloat.leb (PrimFloat.abs (libm_sin L t)) 1 = true;
  cos_range : forall t,
    PrimFloat.is_nan t = false -> PrimFloat.is_infinity t = false ->
    PrimFloat.leb (PrimFloat.abs (libm_cos L t)) 1 = true;
  atan2_range : forall y x,
    PrimFloat.is_nan y = false -> PrimFloat.is_nan x = false ->
    PrimFloat.leb (PrimFloat.abs (libm_atan2 L y x)) 4 = true;
  pow_square_sign : forall x,
    PrimFloat.is_nan x = false -> PrimFloat.leb 0 (libm_pow L x 2) = true;
  pow_square_range : forall x,
    PrimFloat.leb (PrimFloat.abs x) 0x1p+128 = true ->
    PrimFloat.leb (libm_pow L x 2) 0x1p+260 = true;
  pow_root_range : forall x y,
    PrimFloat.leb 1 x = true ->
    PrimFloat.leb 0 y = true -> PrimFloat.leb y 1 = true ->
    PrimFloat.leb 0 (libm_pow L x y) = true
    /\ PrimFloat.leb (libm_pow L x y) x = true
}.

(** The sign and the magnitude of a binary64 number, read off its sign bit,
    mantissa and exponent.  [nonneg x]: [x] is a zero, a positive number or
    plus infinity (what [0 <= x] answers).  [below k x]: [x] is a zero or a
    finite number of magnitude below [2 ^ k].  [above k x]: [x] is an
    infinity or a finite number of magnitude at least [2 ^ (k - 1)]. *)
Definition nonneg (x : spec_float) : bool :=
  match x with
  | S754_zero _ => true
  | S754_infinity s | S754_finite s _ _ => negb s
  | S754_nan => false
  end.

Definition below (k : Z) (x : spec_float) : bool :=
  match x with
  | S754_zero _ => true
  | S754_finite _ m e => (Z.pos (digits2_pos m) + e <=? k)%Z
  | _ => false
  end.

Definition above (k : Z) (x : spec_float) : bool :=
  match x with
  | S754_finite _ m e => (k <=? Z.pos (digits2_pos m) + e)%Z
  | S754_infinity _ => true
  | _ => false
  end.

(** *** Exact arithmetic *)

(** A real number, or the one non-finite value (NaN and the infinities of
    binary64 taken together). *)
Inductive exact : Type :=
| Finite (r : R)
| NonFinite.

Definition exact_lift1 (f : R -> R) (a : exact) : exact :=
  match a with
  | Finite x => Finite (f x)
  | NonFinite => NonFinite
  end.

Definition exact_lift2 (f : R -> R -> R) (a b : exact) : exact :=
  match a, b with
  | Finite x, Finite y => Finite (f x y)
  | _, _ => NonFinite
  end.

Definition exact_test (t : R -> R -> bool) (a b : exact) : bool :=
  match a, b with
  | Finite x, Finite y => t x y
  | _, _ => false
  end.

Definition Rltb (x y : R) : bool := if Rlt_dec x y then true else false.
Definition Rleb (x y : R) : bool := if Rle_dec x y then true else false.
Definition Reqb (x y : R) : bool := if Req_dec_T x y then true else false.

Definition exact_div (a b : exact) : exact :=
  match a, b with
  | Finite x, Finite y => if Reqb y 0 then NonFinite else Finite (x / y)
  | _, _ => NonFinite
  end.

Definition exact_sqrt (a : exact) : exact :=
  match a with
  | Finite x => if Rltb x 0 then NonFinite else Finite (R_sqrt.sqrt x)
  | NonFinite => NonFinite
  end.

(** [x ** y] over the reals: the exponential for a positive base; for a zero
    base 0, 1 or undefined by the sign of the exponent; for a negative base
    the integer power when the exponent is an integer, undefined otherwise. *)
Definition exact_pow (a b : exact) : exact :=
  match a, b with
  | Finite x, Finite y =>
      if Rltb 0 x then Finite (Rpower x y)
      else if Reqb x 0 then
        (if Rltb 0 y then Finite 0 else if Reqb y 0 then Finite 1 else NonFinite)
      else if Reqb y (IZR (Int_part y)) then Finite (powerRZ x (Int_part y))
      else NonFinite
  | _, _ => NonFinite
  end.

(** The angle of the point [(x, y)], in (-pi, pi]; 0 at the origin. *)
Definition Ratan2 (y x : R) : R :=
  if Rltb 0 x then atan (y / x)
  else if Rltb x 0 then (if Rltb y 0 then atan (y / x) - PI else atan (y / x) + PI)
  else if Rltb 0 y then PI / 2
  else if Rltb y 0 then - PI / 2
  else 0.

#[export] Instance exact_scalar : Scalar exact := {|
  lit := fun q => Finite (Q2R q);
  pi := Finite PI;
  inf := NonFinite;
  add := exact_lift2 Rplus;
  sub := exact_lift2 Rminus;
  mul := exact_lift2 Rmult;
  div := exact_div;
  opp := exact_lift1 Ropp;
  abs := exact_lift1 Rabs;
  sqrt := exact_sqrt;
  sin := exact_lift1 Rtrigo_def.sin;
  cos := exact_lift1 Rtrigo_def.cos;
  pow := exact_pow;
  arctan2 := exact_lift2 Ratan2;
  ltb := exact_test Rltb;
  leb := exact_test Rleb;
  eqb := exact_test Reqb;
  is_inf := fun _ => false;
  is_nan := fun a => match a with Finite _ => false | NonFinite => true end
|}.

(* ================================================================== *)
(** ** Python exceptions *)

Inductive PyExc : Type :=
| ZeroDivisionError
| ValueError
| OverflowError.

(** The outcome of a call: it returns a value or raises. *)
Inductive py (A : Type) : Type :=
| Returned (a : A)
| Raised (e : PyExc).
Arguments Returned {A} a.
Arguments Raised {A} e.

Definition bind {A B : Type} (c : py A) (k : A -> py B) : py B :=
  match c with
  | Returned a => k a
  | Raised e => Raised e
  end.

Notation "x <- c ;; k" := (bind c (fun x => k))
  (at level 61, c at next level, right associativity).

(** Python's [int(x)] of a float: the integer part, towards zero.  It raises
    [ValueError] on a NaN and [OverflowError] on an infinity. *)
Class Truncating (T : Type) : Type := {
  py_int : T -> py Z
}.

(** The integer part of a binary64 number, from its mantissa and exponent. *)
Definition float_int (x : float) : py Z :=
  match Prim2SF x with
  | S754_zero _ => Returned 0%Z
  | S754_infinity _ => Raised OverflowError
  | S754_nan => Raised ValueError
  | S754_finite negative m e =>
      let magnitude :=
        match e with
        | Zneg k => Z.shiftr (Zpos m) (Zpos k)
        | _ => Z.shiftl (Zpos m) e
        end in
      Returned (if negative then (- magnitude)%Z else magnitude)
  end.

#[export] Instance binary64_int : Truncating float := {| py_int := float_int |}.

Section Embedding.

Context {T : Type} {S : Scalar T}.
Local Open Scope num_scope.

(** A Python [float] divided by a Python [float]. *)
Definition py_div (x y : T) : py T :=
  if y =? #0 then Raised ZeroDivisionError else Returned (x / y).

(** A Python [float] raised to a power: [float_pow] raises [OverflowError]
    when the C library's result overflows.  (Its other special cases, a zero
    base with a negative exponent and a negative base with a fractional one,
    do not arise: the source raises Python floats to the literals 2 and 3,
    and to 0.687 a base that is at least 1.) *)
Definition py_pow (x y : T) : py T :=
  let r := pow x y in
  if is_inf r && negb (is_inf x) && negb (is_inf y)
  then Raised OverflowError else Returned r.

(** The two kinds of number that reach the coefficient models: a Python
    [float], and a numpy scalar ([np.float64], what [np.linalg.norm] returns
    and what arithmetic with one returns).  They hold the same binary64
    numbers and differ in what raises: where the division and the power of a
    Python [float] raise, those of a numpy scalar answer an infinity or a NaN
    (and warn). *)
Inductive FloatKind : Type :=
| python_float
| numpy_float64.

(** [x / y] where [y] is of the given kind. *)
Definition kind_div (kind : FloatKind) (x y : T) : py T :=
  match kind with
  | python_float => py_div x y
  | numpy_float64 => Returned (x / y)
  end.

(** [x ** y] where [x] is of the given kind. *)
Definition kind_pow (kind : FloatKind) (x y : T) : py T :=
  match kind with
  | python_float => py_pow x y
  | numpy_float64 => Returned (pow x y)
  end.

(** [math.sin] raises [ValueError] on an infinite argument. *)
Definition math_sin (x : T) : py T :=
  if is_inf x then Raised ValueError else Returned (sin x).

(** [math.radians], [np.radians]: multiplication by pi/180. *)
Definition radians (x : T) : T := x * (pi / #180).

(** Python's [max(a, b)]: the first argument unless the second is greater. *)
Definition py_max (a b : T) : T := if b >? a then b else a.

(** [np.maximum]: the first argument when it is a NaN or not below the second. *)
Definition np_maximum (a b : T) : T :=
  if is_nan a || (a >=? b) then a else b.

(** [np.isfinite] *)
Definition is_finite (x : T) : bool := negb (is_nan x || is_inf x).

(** An array without NaN or infinite entries. *)
Definition no_nan_or_inf (a : list (list T)) : Prop :=
  Forall (Forall (fun entry => is_finite entry = true)) a.

(* ------------------------------------------------------------------ *)
(** *** Arrays of three numbers *)

Record Vec3 : Type := mkVec3 { vx : T; vy : T; vz : T }.

(** [np.zeros(3)] *)
Definition zeros3 : Vec3 := mkVec3 #0 #0 #0.

Definition vadd (a b : Vec3) : Vec3 :=
  mkVec3 (vx a + vx b) (vy a + vy b) (vz a + vz b).
Definition vsub (a b : Vec3) : Vec3 :=
  mkVec3 (vx a - vx b) (vy a - vy b) (vz a - vz b).
(** array * scalar *)
Definition vscale (a : Vec3) (k : T) : Vec3 :=
  mkVec3 (vx a * k) (vy a * k) (vz a * k).
(** scalar * array *)
Definition scalev (k : T) (a : Vec3) : Vec3 :=
  mkVec3 (k * vx a) (k * vy a) (k * vz a).
(** array / scalar *)
Definition vdiv (a : Vec3) (k : T) : Vec3 :=
  mkVec3 (vx a / k) (vy a / k) (vz a / k).

(** [np.linalg.norm] of a vector: the square root of its dot product with
    itself. *)
Definition norm3 (a : Vec3) : T :=
  sqrt (vx a * vx a + vy a * vy a + vz a * vz a).
(** [np.linalg.norm(velocity[:2])] *)
Definition norm2 (a : Vec3) : T :=
  sqrt (vx a * vx a + vy a * vy a).


(* ================================================================== *)
(** ** aerodynamics.py *)

Inductive ObjectType : Type :=
| JET | SPHERE | CYLINDER | CUBE | AIRFOIL | CUSTOM.

Record AirProperties : Type := {
  density : T;
  viscosity : T;
  temperature : T;
  pressure : T;
  speed_of_sound : T
}.

(** The dataclass defaults. *)
Definition default_air : AirProperties := {|
  density := #1.225;
  viscosity := #1.81e-5;
  temperature := #288.15;
  pressure := #101325;
  speed_of_sound := #343
|}.

(** The fields the physics reads; [mesh] and [mesh_file] are never read by
    it. *)
Record ObjectGeometry : Type := {
  length : T;
  width : T;
  height : T;
  frontal_area : T;
  surface_area : T;
  volume : T;
  object_type : ObjectType
}.

(** The ['coefficients'] entry of a force dictionary. *)
Record Coefficients : Type := {
  cd : T;
  cl : T;
  reynolds : T;
  mach : T
}.

(** The dictionary [calculate_forces] returns: four arrays, and the
    ['coefficients'] entry when the dictionary has one. *)
Record ForceBundle : Type := {
  drag : Vec3;
  lift : Vec3;
  side_force : Vec3;
  total : Vec3;
  coefficients : option Coefficients
}.

(** [forces] is [None] for the empty dictionary the state starts with;
    [moments] stays the empty dictionary throughout and is left out. *)
Record SimulationState : Type := {
  position : Vec3;
  velocity : Vec3;
  acceleration : Vec3;
  angular_velocity : Vec3;
  time : T;
  forces : option ForceBundle
}.

Record AerodynamicsEngine : Type := {
  air_props : AirProperties;
  grid_size : nat * nat
}.

Definition new_engine : AerodynamicsEngine :=
  {| air_props := default_air; grid_size := (100, 100)%nat |}.

Section Engine.

Variable self : AerodynamicsEngine.

Definition calculate_reynolds_number (velocity characteristic_length : T) : T :=
  (density (air_props self) * velocity * characteristic_length)
  / viscosity (air_props self).

Definition calculate_mach_number (velocity : T) : T :=
  velocity / speed_of_sound (air_props self).

(** [reynolds_kind] and [mach_kind] tell what kind of number the caller
    passes for [reynolds] and [mach]; [angle_rad] is a Python float whatever
    [angle] is, because [math.radians] returns one. *)
Definition get_drag_coefficient
    (reynolds_kind mach_kind : FloatKind)
    (obj_type : ObjectType) (reynolds mach angle : T) : py T :=
  let angle_rad := radians angle in
  match obj_type with
  | JET =>
      let base_cd := #0.02 in
      sq <- py_pow angle_rad #2 ;;
      let induced_drag := #0.1 * sq in
      wave_drag <-
        (if mach >? #0.8
         then (w <- kind_pow mach_kind (mach - #0.8) #2 ;; Returned (#0.05 * w))
         else Returned #0) ;;
      Returned (base_cd + induced_drag + wave_drag)
  | SPHERE =>
      if reynolds <? #1 then kind_div reynolds_kind #24 reynolds
      else if reynolds <? #1000
      then
        q <- kind_div reynolds_kind #24 reynolds ;;
        p <- kind_pow reynolds_kind reynolds #0.687 ;;
        Returned (q * (#1 + #0.15 * p))
      else Returned #0.44
  | CYLINDER =>
      if reynolds <? #1 then kind_div reynolds_kind (#8 * pi) reynolds
      else if reynolds <? #40 then Returned #1.0
      else if reynolds <? #1000 then Returned #1.2
      else Returned #0.3
  | CUBE =>
      s <- math_sin (#2 * angle_rad) ;;
      Returned (#1.05 + #0.2 * abs s)
  | AIRFOIL =>
      let base_cd := #0.01 in
      sq <- py_pow angle_rad #2 ;;
      let induced_drag := #0.05 * sq in
      Returned (base_cd + induced_drag)
  | CUSTOM => Returned #0.5
  end.

Definition calculate_lift_coefficient
    (obj_type : ObjectType) (angle reynolds : T) : py T :=
  let angle_rad := radians angle in
  match obj_type with
  | JET =>
      s <- math_sin (#2 * angle_rad) ;;
      Returned (#0.8 * s * (#1 - abs angle_rad / pi))
  | AIRFOIL =>
      Returned (#2 * pi * angle_rad * (#1 - abs angle_rad / (pi / #4)))
  | _ =>
      s <- math_sin (#2 * angle_rad) ;;
      Returned (#0.1 * s)
  end.

Definition calculate_forces
    (geometry : ObjectGeometry) (velocity : Vec3) (angle : T)
    (wind_velocity : Vec3) : py ForceBundle :=
  let relative_velocity := vsub velocity wind_velocity in
  let speed := norm3 relative_velocity in
  if speed <? #1e-6 then
    Returned {| drag := zeros3; lift := zeros3; side_force := zeros3;
                total := zeros3; coefficients := None |}
  else
    let velocity_unit := vdiv relative_velocity speed in
    let reynolds := calculate_reynolds_number speed (length geometry) in
    let mach := calculate_mach_number speed in
    cd <- get_drag_coefficient numpy_float64 numpy_float64
            (object_type geometry) reynolds mach angle ;;
    cl <- calculate_lift_coefficient (object_type geometry) angle reynolds ;;
    let q := #0.5 * density (air_props self) * pow speed #2 in
    let drag_magnitude := cd * frontal_area geometry * q in
    let drag_force := scalev (- drag_magnitude) velocity_unit in
    let lift_magnitude := cl * frontal_area geometry * q in
    let lift_direction :=
      if abs (vx velocity_unit) >? #0.1
      then mkVec3 #0 #1 #0 else mkVec3 #1 #0 #0 in
    let lift_force := scalev lift_magnitude lift_direction in
    let side_force := zeros3 in
    let total_force := vadd (vadd drag_force lift_force) side_force in
    Returned {| drag := drag_force; lift := lift_force;
                side_force := side_force; total := total_force;
                coefficients :=
                  Some {| cd := cd; cl := cl;
                          reynolds := reynolds; mach := mach |} |}.

(* ------------------------------------------------------------------ *)
(** *** The flow field *)

(** A Python [int] as a number. *)
Definition of_nat (n : nat) : T := lit (Qmake (Z.of_nat n) 1).

(** [np.linspace(start, stop, num)]: [num - 1] equal steps, computed from the
    step width (or from the index ratio when the step width rounds to zero),
    and the last sample set to [stop] itself. *)
Definition linspace (start stop : T) (num : nat) : list T :=
  let div_ := of_nat (num - 1) in
  let delta := stop - start in
  match num with
  | O => []
  | 1%nat => [#0 * delta + start]
  | _ =>
      let step := delta / div_ in
      let sample (i : nat) :=
        if step =? #0 then of_nat i / div_ * delta + start
        else of_nat i * step + start in
      map sample (seq 0 (num - 1)) ++ [stop]
  end.

(** A two-dimensional array is the list of its rows.  [grid f x y] is the
    array whose entry in row [j], column [i] is [f x[i] y[j]]: what an
    elementwise numpy expression over [np.meshgrid(x, y)] computes. *)
Definition grid {A : Type} (f : T -> T -> A) (x y : list T) : list (list A) :=
  map (fun yj => map (fun xi => f xi yj) x) y.

(** The square of an array entry ([array ** 2] is numpy's [square]). *)
Definition square (a : T) : T := a * a.

Record FlowField : Type := {
  ff_x : list (list T);
  ff_y : list (list T);
  ff_u : list (list T);
  ff_v : list (list T);
  ff_pressure : list (list T);
  ff_velocity_magnitude : list (list T);
  ff_streamlines_x : list (list T);
  ff_streamlines_y : list (list T)
}.

(** [np.argmin]: the first index whose entry is not [>=] the running minimum
    takes over; the scan stops at a NaN.  An empty array raises. *)
Fixpoint argmin_scan (best_i : nat) (best : T) (i : nat) (l : list T) : nat :=
  match l with
  | [] => best_i
  | a :: l' =>
      if a >=? best then argmin_scan best_i best (Datatypes.S i) l'
      else if is_nan a then i
      else argmin_scan i a (Datatypes.S i) l'
  end.

Definition argmin (l : list T) : py nat :=
  match l with
  | [] => Raised ValueError
  | a :: l' => Returned (if is_nan a then O else argmin_scan O a 1 l')
  end.

(** The loop of [_trace_streamline]; [steps] counts down from [max_steps].
    Whatever raises inside the [try] ends the loop. *)
Fixpoint trace_loop (steps : nat) (x_grid y_grid : list T)
    (u v : list (list T)) (max_x current_x current_y : T)
    (sx sy : list T) : list T * list T :=
  match steps with
  | O => (sx, sy)
  | Datatypes.S steps' =>
      if (current_x >? max_x) || (current_x <? - max_x) then (sx, sy)
      else
        match argmin (map (fun g => abs (g - current_x)) x_grid),
              argmin (map (fun g => abs (g - current_y)) y_grid) with
        | Returned i, Returned j =>
            if (i <? List.length (hd [] u))%nat && (j <? List.length u)%nat
            then
              let vel_x := nth i (nth j u []) #0 in
              let vel_y := nth i (nth j v []) #0 in
              let current_x := current_x + vel_x * #0.01 in
              let current_y := current_y + vel_y * #0.01 in
              trace_loop steps' x_grid y_grid u v max_x current_x current_y
                         (sx ++ [current_x]) (sy ++ [current_y])
            else (sx, sy)
        | _, _ => (sx, sy)
        end
  end.

Definition _trace_streamline (x_grid y_grid : list T) (u v : list (list T))
    (start_x start_y max_x : T) : list T * list T :=
  trace_loop 1000 x_grid y_grid u v max_x start_x start_y [start_x] [start_y].

(** The entries of the arrays of [generate_flow_field] at the grid point
    [(x, y)], for freestream speed [speed] and obstacle radius [obj_radius]. *)
Definition clamped_radius (obj_radius x y : T) : T :=
  np_maximum (sqrt (square (x - #0) + square (y - #0))) obj_radius.

Definition theta_at (x y : T) : T := arctan2 (y - #0) (x - #0).

Definition u_at (speed obj_radius x y : T) : T :=
  speed * (#1 - square (obj_radius / clamped_radius obj_radius x y)
                * cos (#2 * theta_at x y)).

Definition v_at (speed obj_radius x y : T) : T :=
  - speed * square (obj_radius / clamped_radius obj_radius x y)
  * sin (#2 * theta_at x y).

Definition velocity_magnitude_at (speed obj_radius x y : T) : T :=
  sqrt (square (u_at speed obj_radius x y) + square (v_at speed obj_radius x y)).

Definition pressure_at (speed obj_radius x y : T) : T :=
  pressure (air_props self)
  + #0.5 * density (air_props self)
    * (pow speed #2 - square (velocity_magnitude_at speed obj_radius x y)).

Definition generate_flow_field
    (geometry : ObjectGeometry) (velocity : Vec3) (angle : T)
    (domain_size : T * T) : FlowField :=
  let (x_max, y_max) := domain_size in
  let x := linspace (- x_max / #2) (x_max / #2) (fst (grid_size self)) in
  let y := linspace (- y_max / #2) (y_max / #2) (snd (grid_size self)) in
  let speed := norm2 velocity in
  let obj_radius := py_max (width geometry) (height geometry) / #2 in
  let u := grid (u_at speed obj_radius) x y in
  let v := grid (v_at speed obj_radius) x y in
  let traced :=
    map (fun start_y => _trace_streamline x y u v (- x_max / #2) start_y x_max)
        (filter (fun start_y => abs start_y >? obj_radius * #1.5)
                (linspace (- y_max / #3) (y_max / #3) 10)) in
  {| ff_x := grid (fun xi _ => xi) x y;
     ff_y := grid (fun _ yj => yj) x y;
     ff_u := u;
     ff_v := v;
     ff_pressure := grid (pressure_at speed obj_radius) x y;
     ff_velocity_magnitude := grid (velocity_magnitude_at speed obj_radius) x y;
     ff_streamlines_x := map fst traced;
     ff_streamlines_y := map snd traced |}.

Record Efficiency : Type := {
  lift_to_drag_ratio : T;
  drag_area : T;
  fineness_ratio : T;
  drag_coefficient : T;
  lift_coefficient : T
}.

(** The geometry's fields are Python floats, so the fineness ratio is a
    Python division. *)
Definition calculate_aerodynamic_efficiency
    (forces : ForceBundle) (geometry : ObjectGeometry) : py Efficiency :=
  let drag_force := norm3 (drag forces) in
  let lift_force := norm3 (lift forces) in
  let lift_to_drag :=
    if drag_force >? #1e-6 then lift_force / drag_force else inf in
  let drag_area := frontal_area geometry in
  fineness_ratio <-
    py_div (length geometry) (py_max (width geometry) (height geometry)) ;;
  Returned {|
    lift_to_drag_ratio := lift_to_drag;
    drag_area := drag_area;
    fineness_ratio := fineness_ratio;
    drag_coefficient :=
      match coefficients forces with Some c => cd c | None => #0 end;
    lift_coefficient :=
      match coefficients forces with Some c => cl c | None => #0 end
  |}.

End Engine.

(* ================================================================== *)
(** ** simulation.py *)

Record SimulationParameters : Type := {
  dt : T;
  max_time : T;
  wind_velocity : Vec3;
  wind_angle : T;
  object_angle : T;
  gravity : Vec3;
  air_density : T;
  enable_turbulence : bool;
  turbulence_intensity : T
}.

Definition default_parameters : SimulationParameters := {|
  dt := #0.001;
  max_time := #10.0;
  wind_velocity := mkVec3 #10.0 #0.0 #0.0;
  wind_angle := #0.0;
  object_angle := #0.0;
  gravity := mkVec3 #0.0 (- #9.81) #0.0;
  air_density := #1.225;
  enable_turbulence := false;
  turbulence_intensity := #0.1
|}.

Record SimulationResults : Type := {
  time_history : list T;
  position_history : list Vec3;
  velocity_history : list Vec3;
  acceleration_history : list Vec3;
  force_history : list ForceBundle;
  flow_fields : list FlowField;
  efficiency_metrics : list Efficiency
}.

(** [SimulationResults()] *)
Definition empty_results : SimulationResults := {|
  time_history := [];
  position_history := [];
  velocity_history := [];
  acceleration_history := [];
  force_history := [];
  flow_fields := [];
  efficiency_metrics := []
|}.

(** What [get_current_data] hands to a callback. *)
Record CurrentData : Type := {
  data_time : T;
  data_state : SimulationState;
  data_parameters : SimulationParameters;
  data_geometry : option ObjectGeometry;
  data_is_running : bool;
  data_is_paused : bool
}.

(** A registered callback observes the data; it returns or raises. *)
Definition Callback : Type := CurrentData -> py unit.

Record SimulationManager : Type := {
  engine : AerodynamicsEngine;
  is_running : bool;
  is_paused : bool;
  current_time : T;
  results : SimulationResults;
  parameters : SimulationParameters;
  state : SimulationState;
  geometry : option ObjectGeometry;
  callbacks : list Callback
}.

(** [SimulationManager()] *)
Definition new_manager : SimulationManager := {|
  engine := new_engine;
  is_running := false;
  is_paused := false;
  current_time := #0.0;
  results := empty_results;
  parameters := default_parameters;
  state := {| position := mkVec3 #0.0 #0.0 #0.0;
              velocity := mkVec3 #0.0 #0.0 #0.0;
              acceleration := mkVec3 #0.0 #0.0 #0.0;
              angular_velocity := mkVec3 #0.0 #0.0 #0.0;
              time := #0.0;
              forces := None |};
  geometry := None;
  callbacks := []
|}.

Definition with_geometry (self : SimulationManager) (g : option ObjectGeometry)
  : SimulationManager :=
  {| engine := engine self; is_running := is_running self;
     is_paused := is_paused self; current_time := current_time self;
     results := results self; parameters := parameters self;
     state := state self; geometry := g; callbacks := callbacks self |}.

Definition with_results (self : SimulationManager) (r : SimulationResults)
  : SimulationManager :=
  {| engine := engine self; is_running := is_running self;
     is_paused := is_paused self; current_time := current_time self;
     results := r; parameters := parameters self;
     state := state self; geometry := geometry self;
     callbacks := callbacks self |}.

(** The derived properties of [set_object_geometry]; [width], [height] and
    [length] are Python floats. *)
Definition derived_properties (obj_type : ObjectType) (length width height : T)
  : py (T * T * T) :=
  match obj_type with
  | JET =>
      let frontal_area := pi * (width / #2) * (height / #2) in
      let surface_area := #2 * pi * (width / #2) * length in
      let volume := frontal_area * length * #0.7 in
      Returned (frontal_area, surface_area, volume)
  | SPHERE =>
      let radius := width / #2 in
      r2 <- py_pow radius #2 ;;
      r3 <- py_pow radius #3 ;;
      Returned (pi * r2, #4 * pi * r2, #4 / #3 * pi * r3)
  | CYLINDER =>
      let radius := width / #2 in
      r2 <- py_pow radius #2 ;;
      Returned (pi * r2, #2 * pi * radius * (radius + length), pi * r2 * length)
  | _ =>
      Returned (width * height,
                #2 * (width * height + width * length + height * length),
                width * height * length)
  end.

Definition set_object_geometry (self : SimulationManager)
    (obj_type : ObjectType) (length width height : T)
  : py unit * SimulationManager :=
  match derived_properties obj_type length width height with
  | Raised e => (Raised e, self)
  | Returned (frontal_area, surface_area, volume) =>
      (Returned tt,
       with_geometry self
         (Some {| length := length; width := width; height := height;
                  frontal_area := frontal_area; surface_area := surface_area;
                  volume := volume; object_type := obj_type |}))
  end.

(** [set_parameters] assigns the parameters that its keyword arguments name
    and leaves the others; [kwargs] is given as the update it makes. *)
Definition set_parameters (self : SimulationManager)
    (kwargs : SimulationParameters -> SimulationParameters)
  : SimulationManager :=
  {| engine := engine self; is_running := is_running self;
     is_paused := is_paused self; current_time := current_time self;
     results := results self; parameters := kwargs (parameters self);
     state := state self; geometry := geometry self;
     callbacks := callbacks self |}.

Definition reset_simulation (self : SimulationManager) : SimulationManager := {|
  engine := engine self;
  is_running := false;
  is_paused := false;
  current_time := #0.0;
  results := empty_results;
  parameters := parameters self;
  state := {| position := mkVec3 #0.0 #0.0 #0.0;
              velocity := wind_velocity (parameters self);
              acceleration := mkVec3 #0.0 #0.0 #0.0;
              angular_velocity := mkVec3 #0.0 #0.0 #0.0;
              time := #0.0;
              forces := None |};
  geometry := geometry self;
  callbacks := callbacks self
|}.

Definition get_current_data (self : SimulationManager) : CurrentData := {|
  data_time := current_time self;
  data_state := state self;
  data_parameters := parameters self;
  data_geometry := geometry self;
  data_is_running := is_running self;
  data_is_paused := is_paused self
|}.

(** The callback loop at the end of a step: every callback is called, and an
    exception it raises is caught and printed.  The result is what is
    printed. *)
Definition call_callbacks (self : SimulationManager) : list PyExc :=
  flat_map (fun callback =>
              match callback (get_current_data self) with
              | Returned _ => []
              | Raised e => [e]
              end)
           (callbacks self).

(** The wind of one step.  [random_normal scale] stands for the call
    [np.random.normal(0, scale, 3)], the one place where the step consults
    the random generator: its answer is the environment's. *)
Definition step_wind (random_normal : T -> py Vec3)
    (p : SimulationParameters) : py Vec3 :=
  let wind_angle_rad := radians (wind_angle p) in
  let wind_speed := norm3 (wind_velocity p) in
  let wind_velocity :=
    mkVec3 (wind_speed * cos wind_angle_rad)
           (wind_speed * sin wind_angle_rad)
           #0.0 in
  if enable_turbulence p then
    turbulence <- random_normal (turbulence_intensity p) ;;
    Returned (vadd wind_velocity (vscale turbulence wind_speed))
  else Returned wind_velocity.

(** The five appends of "Store results". *)
Definition record_step (r : SimulationResults) (t : T) (st : SimulationState)
    (f : ForceBundle) : SimulationResults := {|
  time_history := time_history r ++ [t];
  position_history := position_history r ++ [position st];
  velocity_history := velocity_history r ++ [velocity st];
  acceleration_history := acceleration_history r ++ [acceleration st];
  force_history := force_history r ++ [f];
  flow_fields := flow_fields r;
  efficiency_metrics := efficiency_metrics r
|}.

Definition append_flow_field (r : SimulationResults) (ff : FlowField)
  : SimulationResults := {|
  time_history := time_history r;
  position_history := position_history r;
  velocity_history := velocity_history r;
  acceleration_history := acceleration_history r;
  force_history := force_history r;
  flow_fields := flow_fields r ++ [ff];
  efficiency_metrics := efficiency_metrics r
|}.

Definition append_efficiency (r : SimulationResults) (e : Efficiency)
  : SimulationResults := {|
  time_history := time_history r;
  position_history := position_history r;
  velocity_history := velocity_history r;
  acceleration_history := acceleration_history r;
  force_history := force_history r;
  flow_fields := flow_fields r;
  efficiency_metrics := efficiency_metrics r ++ [e]
|}.

(** The state after the integration of one step under [f]. *)
Definition integrate (st : SimulationState) (p : SimulationParameters)
    (f : ForceBundle) (t : T) : SimulationState :=
  let total_force := vadd (total f) (gravity p) in
  let acceleration := total_force in
  let velocity := vadd (velocity st) (vscale acceleration (dt p)) in
  let position := vadd (position st) (vscale velocity (dt p)) in
  {| position := position; velocity := velocity;
     acceleration := acceleration;
     angular_velocity := angular_velocity st;
     time := t; forces := Some f |}.

(** [step_simulation]: the outcome of the call and the manager after it.  A
    raise leaves the assignments made before it in place. *)
Definition step_simulation (random_normal : T -> py Vec3)
    (self : SimulationManager) : py bool * SimulationManager :=
  match geometry self with
  | None => (Returned false, self)
  | Some geometry =>
      if current_time self >=? max_time (parameters self)
      then (Returned false, self)
      else
        match
          wind_velocity <- step_wind random_normal (parameters self) ;;
          calculate_forces (engine self) geometry (velocity (state self))
                           (object_angle (parameters self)) wind_velocity
        with
        | Raised e => (Raised e, self)
        | Returned forces =>
            let current_time := current_time self + dt (parameters self) in
            let state := integrate (state self) (parameters self) forces
                                   current_time in
            let stepped := {|
              engine := engine self; is_running := is_running self;
              is_paused := is_paused self; current_time := current_time;
              results := record_step (results self) current_time state forces;
              parameters := parameters self; state := state;
              geometry := Some geometry; callbacks := callbacks self |} in
            if (List.length (time_history (results stepped)) mod 10 =? 0)%nat
            then
              let flow_field :=
                generate_flow_field (engine self) geometry (velocity state)
                  (object_angle (parameters self)) (#20.0, #10.0) in
              let snapped :=
                with_results stepped
                  (append_flow_field (results stepped) flow_field) in
              match calculate_aerodynamic_efficiency forces geometry with
              | Raised e => (Raised e, snapped)
              | Returned efficiency =>
                  let self' :=
                    with_results snapped
                      (append_efficiency (results snapped) efficiency) in
                  let printed := call_callbacks self' in
                  (Returned true, self')
              end
            else
              let printed := call_callbacks stepped in
              (Returned true, stepped)
        end
  end.

(** A caller's loop [while sim.step_simulation(): pass]; the [k]-th call
    draws from [random_normal k].  [None] when [fuel] calls did not end it. *)
Fixpoint step_until_false (fuel : nat) (random_normal : nat -> T -> py Vec3)
    (self : SimulationManager) : option (py unit * SimulationManager) :=
  match fuel with
  | O => None
  | Datatypes.S fuel' =>
      match step_simulation (random_normal O) self with
      | (Returned true, self') =>
          step_until_false fuel' (fun k => random_normal (Datatypes.S k)) self'
      | (Returned false, self') => Some (Returned tt, self')
      | (Raised e, self') => Some (Raised e, self')
      end
  end.

(** The loop of the repository's drivers,
    [while steps < max_steps and sim.step_simulation(): steps += 1]. *)
Fixpoint step_at_most (max_steps : nat) (random_normal : nat -> T -> py Vec3)
    (self : SimulationManager) : py nat * SimulationManager :=
  match max_steps with
  | O => (Returned O, self)
  | Datatypes.S n =>
      match step_simulation (random_normal O) self with
      | (Returned true, self') =>
          match step_at_most n (fun k => random_normal (Datatypes.S k)) self' with
          | (Returned steps, self'') => (Returned (Datatypes.S steps), self'')
          | (Raised e, self'') => (Raised e, self'')
          end
      | (Returned false, self') => (Returned O, self')
      | (Raised e, self') => (Raised e, self')
      end
  end.

(** A caller's sequence of calls on one manager. *)
Inductive Call : Type :=
| CallStep (random_normal : T -> py Vec3)
| CallReset.

(** The calls in order; a raise ends the sequence, as an uncaught exception
    ends the caller. *)
Fixpoint run_calls (calls : list Call) (self : SimulationManager)
  : py unit * SimulationManager :=
  match calls with
  | [] => (Returned tt, self)
  | CallStep random_normal :: rest =>
      match step_simulation random_normal self with
      | (Returned _, self') => run_calls rest self'
      | (Raised e, self') => (Raised e, self')
      end
  | CallReset :: rest => run_calls rest (reset_simulation self)
  end.

(** Two managers that a run cannot tell apart: they may differ in their
    callbacks and in their running and paused flags. *)
Definition agree (a b : SimulationManager) : Prop :=
  engine a = engine b
  /\ parameters a = parameters b
  /\ geometry a = geometry b
  /\ state a = state b
  /\ current_time a = current_time b
  /\ results a = results b.

(** The clock after [n] additions of [dt]. *)
Fixpoint clock (dt : T) (n : nat) (t : T) : T :=
  match n with
  | O => t
  | Datatypes.S k => clock dt k (t + dt)
  end.

(** For the geometry and the parameters of this manager, neither the force
    resolver nor the efficiency metrics raise, and the random generator
    answers whenever it is consulted. *)
Definition never_raises (random_normal : nat -> T -> py Vec3)
    (self : SimulationManager) (g : ObjectGeometry) : Prop :=
  (forall velocity wind, exists f,
      calculate_forces (engine self) g velocity
        (object_angle (parameters self)) wind = Returned f)
  /\ (forall f, exists e, calculate_aerodynamic_efficiency f g = Returned e)
  /\ (enable_turbulence (parameters self) = true ->
      forall k, exists turbulence,
        random_normal k (turbulence_intensity (parameters self))
        = Returned turbulence).

(** The length invariant of the results log. *)
Definition log_invariant (r : SimulationResults) : Prop :=
  List.length (position_history r) = List.length (time_history r)
  /\ List.length (velocity_history r) = List.length (time_history r)
  /\ List.length (acceleration_history r) = List.length (time_history r)
  /\ List.length (force_history r) = List.length (time_history r)
  /\ List.length (flow_fields r) = (List.length (time_history r) / 10)%nat
  /\ List.length (efficiency_metrics r) = (List.length (time_history r) / 10)%nat.

(** An array of [rows] rows of [cols] entries each. *)
Definition has_shape {A : Type} (rows cols : nat) (a : list (list A)) : Prop :=
  List.length a = rows /\ Forall (fun row => List.length row = cols) a.

(** [set_parameters(air_density=rho)] as an update of the parameters. *)
Definition with_air_density (rho : T) (p : SimulationParameters)
  : SimulationParameters :=
  {| dt := dt p; max_time := max_time p; wind_velocity := wind_velocity p;
     wind_angle := wind_angle p; object_angle := object_angle p;
     gravity := gravity p; air_density := rho;
     enable_turbulence := enable_turbulence p;
     turbulence_intensity := turbulence_intensity p |}.

(* ------------------------------------------------------------------ *)
(** *** The other methods of the manager and of its results *)

(** [a_list[-1]]: the last entry, or [IndexError] on an empty list. *)
Inductive LookupExc : Type :=
| IndexError.

Definition last_entry {A : Type} (l : list A) : LookupExc + A :=
  match rev l with
  | [] => inl IndexError
  | a :: _ => inr a
  end.

(** [a_list[-1] if a_list else None] *)
Definition last_or_none {A : Type} (l : list A) : option A :=
  match rev l with
  | [] => None
  | a :: _ => Some a
  end.

(** The dictionary of [SimulationResults.get_latest_data]. *)
Record LatestData : Type := {
  latest_time : T;
  latest_position : Vec3;
  latest_velocity : Vec3;
  latest_acceleration : Vec3;
  latest_forces : ForceBundle;
  latest_flow_field : option FlowField;
  latest_efficiency : option Efficiency
}.

(** [get_latest_data]: [inr None] is the empty dictionary that an empty time
    history gives, [inl IndexError] the exception of a [[-1]] on an empty
    sequence. *)
Definition get_latest_data (self : SimulationResults)
  : LookupExc + option LatestData :=
  match time_history self with
  | [] => inr None
  | _ :: _ =>
      match last_entry (time_history self),
            last_entry (position_history self),
            last_entry (velocity_history self),
            last_entry (acceleration_history self),
            last_entry (force_history self) with
      | inr t, inr p, inr v, inr a, inr f =>
          inr (Some {| latest_time := t; latest_position := p;
                       latest_velocity := v; latest_acceleration := a;
                       latest_forces := f;
                       latest_flow_field := last_or_none (flow_fields self);
                       latest_efficiency :=
                         last_or_none (efficiency_metrics self) |})
      | _, _, _, _, _ => inl IndexError
      end
  end.

Definition with_flags (self : SimulationManager) (running paused : bool)
  : SimulationManager :=
  {| engine := engine self; is_running := running; is_paused := paused;
     current_time := current_time self; results := results self;
     parameters := parameters self; state := state self;
     geometry := geometry self; callbacks := callbacks self |}.

Definition add_callback (self : SimulationManager) (callback : Callback)
  : SimulationManager :=
  {| engine := engine self; is_running := is_running self;
     is_paused := is_paused self; current_time := current_time self;
     results := results self; parameters := parameters self;
     state := state self; geometry := geometry self;
     callbacks := callbacks self ++ [callback] |}.

Definition pause_simulation (self : SimulationManager) : SimulationManager :=
  with_flags self (is_running self) true.

Definition resume_simulation (self : SimulationManager) : SimulationManager :=
  with_flags self (is_running self) false.

Definition stop_simulation (self : SimulationManager) : SimulationManager :=
  with_flags self false false.

(** The [while] loop of [run_simulation], as one thread runs it: nothing but
    the loop itself touches the manager between two iterations.  [fuel]
    bounds the iterations, and [None] says that they did not end the loop;
    the [k]-th step draws from [random_normal k].  [time.sleep] is left
    out. *)
Fixpoint run_loop (fuel : nat) (random_normal : nat -> T -> py Vec3)
    (step_count max_steps : Z) (self : SimulationManager)
  : option (py unit * SimulationManager) :=
  match fuel with
  | O => None
  | Datatypes.S fuel' =>
      if (step_count <? max_steps)%Z then
        if negb (is_running self) then Some (Returned tt, self)
        else if negb (is_paused self) then
          match step_simulation (random_normal O) self with
          | (Returned true, self') =>
              run_loop fuel' (fun k => random_normal (Datatypes.S k))
                       (step_count + 1)%Z max_steps self'
          | (Returned false, self') => Some (Returned tt, self')
          | (Raised e, self') => Some (Raised e, self')
          end
        else run_loop fuel' random_normal step_count max_steps self
      else Some (Returned tt, self)
  end.

Context {I : Truncating T}.

(** [steps if steps else int(max_time / dt)]: an absent and a zero [steps]
    both give the quotient, a division of Python floats. *)
Definition max_steps_of (steps : option Z) (p : SimulationParameters) : py Z :=
  match steps with
  | Some (Zpos _ as n) | Some (Zneg _ as n) => Returned n
  | _ => q <- py_div (max_time p) (dt p) ;; py_int q
  end.

(** [run_simulation(steps)]: an exception leaves [is_running] as the raise
    found it. *)
Definition run_simulation (fuel : nat) (random_normal : nat -> T -> py Vec3)
    (steps : option Z) (self : SimulationManager)
  : option (py unit * SimulationManager) :=
  match geometry self with
  | None => Some (Raised ValueError, self)
  | Some _ =>
      let started := with_flags self true (is_paused self) in
      match max_steps_of steps (parameters self) with
      | Raised e => Some (Raised e, started)
      | Returned max_steps =>
          match run_loop fuel random_normal 0 max_steps started with
          | Some (Returned _, self') =>
              Some (Returned tt, with_flags self' false (is_paused self'))
          | Some (Raised e, self') => Some (Raised e, self')
          | None => None
          end
      end
  end.

(* ================================================================== *)
(** ** mesh_loader.py: the mesh and the primitive shapes *)

(** The vertices and the triangles of a mesh; a triangle is a row of vertex
    indices.  The normals, the texture coordinates and the name are read by
    none of the functions below. *)
Record Mesh : Type := {
  vertices : list Vec3;
  faces : list (list Z)
}.

(** [np.minimum]: the first argument when it is a NaN or not above the
    second. *)
Definition np_minimum (a b : T) : T :=
  if is_nan a || (a <=? b) then a else b.

(** [np.min(vertices, axis=0)] and [np.max(vertices, axis=0)] of a mesh that
    has a first vertex. *)
Definition np_min_rows (first : Vec3) (rest : list Vec3) : Vec3 :=
  fold_left (fun low v => mkVec3 (np_minimum (vx low) (vx v))
                                  (np_minimum (vy low) (vy v))
                                  (np_minimum (vz low) (vz v)))
            rest first.

Definition np_max_rows (first : Vec3) (rest : list Vec3) : Vec3 :=
  fold_left (fun high v => mkVec3 (np_maximum (vx high) (vx v))
                                   (np_maximum (vy high) (vy v))
                                   (np_maximum (vz high) (vz v)))
            rest first.

Definition get_bounds (self : Mesh) : Vec3 * Vec3 :=
  match vertices self with
  | [] => (zeros3, zeros3)
  | first :: rest => (np_min_rows first rest, np_max_rows first rest)
  end.

Definition get_dimensions (self : Mesh) : Vec3 :=
  let (min_bounds, max_bounds) := get_bounds self in
  vsub max_bounds min_bounds.

Definition get_center (self : Mesh) : Vec3 :=
  let (min_bounds, max_bounds) := get_bounds self in
  vdiv (vadd min_bounds max_bounds) #2.

(** [np.prod] of the three dimensions. *)
Definition get_volume (self : Mesh) : T :=
  let dimensions := get_dimensions self in
  vx dimensions * vy dimensions * vz dimensions.

(** A Python [int] as a number, and [range(n)]. *)
Definition of_int (z : Z) : T := lit (Qmake z 1).

Definition py_range (n : Z) : list Z := map Z.of_nat (seq 0 (Z.to_nat n)).

Definition _create_cube (size : T) : Mesh :=
  let s := size / #2 in
  {| vertices :=
       [mkVec3 (- s) (- s) (- s); mkVec3 s (- s) (- s);
        mkVec3 s s (- s); mkVec3 (- s) s (- s);
        mkVec3 (- s) (- s) s; mkVec3 s (- s) s;
        mkVec3 s s s; mkVec3 (- s) s s];
     faces :=
       [[0; 1; 2]; [0; 2; 3];
        [4; 7; 6]; [4; 6; 5];
        [0; 4; 5]; [0; 5; 1];
        [2; 6; 7]; [2; 7; 3];
        [0; 3; 7]; [0; 7; 4];
        [1; 5; 6]; [1; 6; 2]]%Z |}.

(** The point of a circle of the given radius at height [y], at the [i]-th
    of [subdivisions] angles.  The quotient is taken inside loops over
    [range(subdivisions)] only, where [subdivisions] is not zero. *)
Definition circle_vertex (radius y : T) (subdivisions i : Z) : Vec3 :=
  let angle := #2 * pi * of_int i / of_int subdivisions in
  mkVec3 (radius * cos angle) y (radius * sin angle).

Definition _create_cylinder (radius height : T) (subdivisions : Z) : Mesh :=
  let n := subdivisions in
  {| vertices :=
       [mkVec3 #0 (- height / #2) #0; mkVec3 #0 (height / #2) #0]
       ++ map (circle_vertex radius (- height / #2) n) (py_range n)
       ++ map (circle_vertex radius (height / #2) n) (py_range n);
     faces :=
       map (fun i => let next_i := ((i + 1) mod n)%Z in
                     [0; 2 + next_i; 2 + i]%Z) (py_range n)
       ++ map (fun i => let next_i := ((i + 1) mod n)%Z in
                        [1; 2 + n + i; 2 + n + next_i]%Z) (py_range n)
       ++ flat_map (fun i => let next_i := ((i + 1) mod n)%Z in
                             let v1 := (2 + i)%Z in
                             let v2 := (2 + next_i)%Z in
                             let v3 := (2 + n + i)%Z in
                             let v4 := (2 + n + next_i)%Z in
                             [[v1; v2; v3]; [v2; v4; v3]]) (py_range n) |}.

Definition _create_cone (radius height : T) (subdivisions : Z) : Mesh :=
  let n := subdivisions in
  {| vertices :=
       [mkVec3 #0 (height / #2) #0; mkVec3 #0 (- height / #2) #0]
       ++ map (circle_vertex radius (- height / #2) n) (py_range n);
     faces :=
       map (fun i => let next_i := ((i + 1) mod n)%Z in
                     [1; 2 + next_i; 2 + i]%Z) (py_range n)
       ++ map (fun i => let next_i := ((i + 1) mod n)%Z in
                        [0; 2 + i; 2 + next_i]%Z) (py_range n) |}.

(** The vertices of one ring of the sphere, for the polar angle [theta]. *)
Definition sphere_ring (radius theta : T) (subdivisions : Z) : list Vec3 :=
  map (fun j =>
         let phi := #2 * pi * of_int j / of_int (subdivisions * 2) in
         mkVec3 (radius * sin theta * cos phi)
                (radius * cos theta)
                (radius * sin theta * sin phi))
      (py_range (subdivisions * 2)).

(** The rings for the indices [rows], in order; the polar angle
    [np.pi * i / subdivisions] is a quotient of Python numbers. *)
Fixpoint sphere_rings (radius : T) (subdivisions : Z) (rows : list Z)
  : py (list Vec3) :=
  match rows with
  | [] => Returned []
  | i :: rows' =>
      theta <- py_div (pi * of_int i) (of_int subdivisions) ;;
      rest <- sphere_rings radius subdivisions rows' ;;
      Returned (sphere_ring radius theta subdivisions ++ rest)
  end.

Definition sphere_faces (subdivisions : Z) : list (list Z) :=
  let n := subdivisions in
  flat_map (fun i =>
    flat_map (fun j =>
      let v1 := (i * (n * 2) + j)%Z in
      let v2 := (i * (n * 2) + (j + 1) mod (n * 2))%Z in
      let v3 := ((i + 1) * (n * 2) + j)%Z in
      let v4 := ((i + 1) * (n * 2) + (j + 1) mod (n * 2))%Z in
      (if (i >? 0)%Z then [[v1; v2; v3]] else [])
      ++ (if (i <? n - 1)%Z then [[v2; v4; v3]] else []))
      (py_range (n * 2)))
    (py_range n).

Definition _create_sphere (radius : T) (subdivisions : Z) : py Mesh :=
  vs <- sphere_rings radius subdivisions (py_range (subdivisions + 1)) ;;
  Returned {| vertices := vs; faces := sphere_faces subdivisions |}.

(** Every triangle of the mesh has three indices, each of them the index of
    a vertex. *)
Definition well_formed (m : Mesh) : Prop :=
  Forall (fun face =>
            List.length face = 3%nat
            /\ Forall (fun index =>
                         (0 <= index < Z.of_nat (List.length (vertices m)))%Z)
                      face)
         (faces m).

End Embedding.

(** Proof steps for the exact reading: a decimal literal as a quotient of
    integers, and the arithmetic of numbers carried out. *)
Ltac literals := unfold Q2R in *; cbn [Qnum Qden] in *.

(** A goal about closed binary64 numbers is settled by evaluation. *)
Ltac closed :=
  match goal with
  | |- context [?x] => is_var x; fail 1
  | _ => vm_compute; reflexivity
  end.

Ltac exact_simpl :=
  cbn [lit pi inf add sub mul div opp abs sqrt sin cos pow arctan2 ltb leb eqb
       is_inf is_nan exact_scalar exact_lift1 exact_lift2 exact_test
       bind andb negb].

(** Simplification leaves the numerical routines folded. *)
Arguments generate_flow_field : simpl never.
Arguments _trace_streamline : simpl never.
Arguments calculate_forces : simpl never.
Arguments calculate_aerodynamic_efficiency : simpl never.
Arguments step_wind : simpl never.
Arguments integrate : simpl never.

(** The sphere's drag coefficient as a function of the Reynolds number, in
    exact arithmetic (the branch reads neither the Mach number nor the
    angle). *)
Definition sphere_cd (re : R) : R :=
  match get_drag_coefficient numpy_float64 numpy_float64 SPHERE
          (Finite re) (Finite 0) (Finite 0) with
  | Returned (Finite c) => c
  | _ => 0%R
  end.

(** A vertex whose three coordinates are numbers within the given bounds. *)
Definition within (lx ly lz hx hy hz : R) (v : Vec3 (T:=exact)) : Prop :=
  exists x y z,
    v = mkVec3 (Finite x) (Finite y) (Finite z)
    /\ (lx <= x <= hx)%R /\ (ly <= y <= hy)%R /\ (lz <= z <= hz)%R.

(* ================================================================== *)
(** ** Concrete inputs for the binary64 reading *)

Module Run.

(** binary64 with the small mathematics library. *)
#[local] Instance b64 : Scalar float := binary64 libm_small.

Definition lit64 (q : Q) : float := @lit float b64 q.

(** A manager as constructed, then
    [set_object_geometry(ObjectType.CUBE, 2.0, 2.0, 2.0)]. *)
Definition cube_manager : SimulationManager (T:=float) :=
  snd (set_object_geometry new_manager CUBE
         (lit64 2.0) (lit64 2.0) (lit64 2.0)).

(** The same after [reset_simulation()]: the object moves with the wind. *)
Definition cube_at_rest : SimulationManager (T:=float) :=
  reset_simulation cube_manager.

(** [set_parameters(max_time=1.0, dt=0.01)] *)
Definition one_second (p : SimulationParameters (T:=float))
  : SimulationParameters (T:=float) := {|
  dt := lit64 0.01;
  max_time := lit64 1.0;
  wind_velocity := wind_velocity p;
  wind_angle := wind_angle p;
  object_angle := object_angle p;
  gravity := gravity p;
  air_density := air_density p;
  enable_turbulence := enable_turbulence p;
  turbulence_intensity := turbulence_intensity p
|}.

(** A manager as constructed, then
    [set_object_geometry(ObjectType.CUBE, 2.0, 0.0, 0.0)]: a body without
    width or height. *)
Definition flat_manager : SimulationManager (T:=float) :=
  snd (set_object_geometry new_manager CUBE
         (lit64 2.0) (lit64 0.0) (lit64 0.0)).

(** The cube with a time step of 0.01 s and one second to run. *)
Definition test_manager : SimulationManager (T:=float) :=
  set_parameters cube_manager one_second.

(** Two answers of the random generator. *)
Definition calm (_ : float) : py (Vec3 (T:=float)) :=
  Returned (mkVec3 0%float 0%float 0%float).
Definition gust (_ : float) : py (Vec3 (T:=float)) :=
  Returned (mkVec3 1%float (-1)%float 2%float).

End Run.

(* ================================================================== *)
(** ** The force resolver at rest *)

Section ForceResolver.

Context {T : Type} {S : Scalar T}.
Local Open Scope num_scope.

(** C1.  Whenever the norm of the velocity relative to the wind is below
    1e-6, [calculate_forces] returns (it does not raise) the dictionary whose
    drag, lift, side force and total are (0, 0, 0) and which has no
    ['coefficients'] entry, whatever the geometry, the angle of attack and
    the air properties of the engine. *)
Theorem calculate_forces_at_rest
    (self : AerodynamicsEngine) (geometry : ObjectGeometry)
    (velocity : Vec3) (angle : T) (wind_velocity : Vec3) :
  (norm3 (vsub velocity wind_velocity) <? #1e-6) = true ->
  calculate_forces self geometry velocity angle wind_velocity
  = Returned {| drag := mkVec3 #0 #0 #0; lift := mkVec3 #0 #0 #0;
                side_force := mkVec3 #0 #0 #0; total := mkVec3 #0 #0 #0;
                coefficients := None |}.
Proof.
  intros Hspeed. unfold calculate_forces. rewrite Hspeed. reflexivity.
Qed.

End ForceResolver.

(** A jet flying exactly with a 10 m/s wind, at an angle of attack of 5
    degrees. *)
Lemma calculate_forces_at_rest_witness :
  let g := {| length := 15; width := 3; height := 2; frontal_area := 4.5;
              surface_area := 140; volume := 50; object_type := JET |}%float in
  let w := mkVec3 10%float 0%float 0%float in
  @calculate_forces float Run.b64 (@new_engine float Run.b64) g w 5%float w
  = Returned {| drag := mkVec3 0 0 0; lift := mkVec3 0 0 0;
                side_force := mkVec3 0 0 0; total := mkVec3 0 0 0;
                coefficients := None |}%float.
Proof.
  intros g w.
  apply (@calculate_forces_at_rest float Run.b64 (@new_engine float Run.b64) g w 5%float w).
  vm_compute. reflexivity.
Defined.

(* ================================================================== *)
(** ** One step of the manager *)

Section Stepping.

Context {T : Type} {S : Scalar T}.
Local Open Scope num_scope.

Variable random_normal : T -> py (Vec3 (T:=T)).

(** C3.  Called while no geometry is set, [step_simulation] returns [False]
    and hands back the manager as it was: the state, [current_time] and every
    sequence of the results are those before the call. *)
Theorem step_without_geometry (self : SimulationManager) :
  geometry self = None ->
  step_simulation random_normal self = (Returned false, self).
Proof.
  intros Hgeometry. unfold step_simulation. rewrite Hgeometry. reflexivity.
Qed.

(** Once the clock has reached [max_time] the guard answers [False], with or
    without a geometry. *)
Lemma step_guard (self : SimulationManager) :
  (current_time self >=? max_time (parameters self)) = true ->
  step_simulation random_normal self = (Returned false, self).
Proof.
  intros Hguard. unfold step_simulation.
  destruct (geometry self); [rewrite Hguard|]; reflexivity.
Qed.

(** C10.  Called with a geometry set and [current_time >= max_time],
    [step_simulation] returns [False] and hands back the manager as it was:
    the state, [current_time] and every sequence of the results are those
    before the call. *)
Theorem step_after_max_time (self : SimulationManager) (g : ObjectGeometry) :
  geometry self = Some g ->
  (current_time self >=? max_time (parameters self)) = true ->
  step_simulation random_normal self = (Returned false, self).
Proof.
  intros _ Hguard. apply step_guard. exact Hguard.
Qed.

(** A call that returns [True] went through the guard, the wind and the force
    resolver, and left the manager integrated and recorded. *)
Lemma step_true_inv (self self' : SimulationManager) :
  step_simulation random_normal self = (Returned true, self') ->
  exists g wind f,
    geometry self = Some g
    /\ (current_time self >=? max_time (parameters self)) = false
    /\ step_wind random_normal (parameters self) = Returned wind
    /\ calculate_forces (engine self) g (velocity (state self))
         (object_angle (parameters self)) wind = Returned f
    /\ state self'
       = integrate (state self) (parameters self) f
           (current_time self + dt (parameters self))
    /\ current_time self' = current_time self + dt (parameters self)
    /\ parameters self' = parameters self
    /\ geometry self' = geometry self
    /\ engine self' = engine self
    /\ time_history (results self')
       = time_history (results self)
         ++ [current_time self + dt (parameters self)].
Proof.
  unfold step_simulation.
  destruct (geometry self) as [g|] eqn:Hg; [|discriminate].
  destruct (current_time self >=? max_time (parameters self)) eqn:Hguard;
    [discriminate|].
  destruct (step_wind random_normal (parameters self)) as [wind|e] eqn:Hwind;
    cbn [bind]; [|discriminate].
  destruct (calculate_forces (engine self) g (velocity (state self))
              (object_angle (parameters self)) wind) as [f|e] eqn:Hf;
    [|discriminate].
  cbv zeta.
  match goal with |- (if ?c then _ else _) = _ -> _ => destruct c end.
  - destruct (calculate_aerodynamic_efficiency f g) as [eff|e];
      [|discriminate].
    intros H; injection H as <-.
    exists g, wind, f. cbn. repeat split; first [assumption | reflexivity].
  - intros H; injection H as <-.
    exists g, wind, f. cbn. repeat split; first [assumption | reflexivity].
Qed.

(** C2.  A step that returns [True] has integrated by the semi-implicit Euler
    scheme with unit mass: for the force bundle [f] that the resolver returned
    for the wind of the step, the new acceleration is [f.total + gravity], the
    new velocity is the old one plus the new acceleration times [dt], the new
    position is the old one plus the new velocity times [dt], and the time
    has advanced by [dt]. *)
Theorem step_integrates (self self' : SimulationManager) :
  step_simulation random_normal self = (Returned true, self') ->
  exists g wind f,
    geometry self = Some g
    /\ step_wind random_normal (parameters self) = Returned wind
    /\ calculate_forces (engine self) g (velocity (state self))
         (object_angle (parameters self)) wind = Returned f
    /\ forces (state self') = Some f
    /\ acceleration (state self') = vadd (total f) (gravity (parameters self))
    /\ velocity (state self')
       = vadd (velocity (state self))
              (vscale (acceleration (state self')) (dt (parameters self)))
    /\ position (state self')
       = vadd (position (state self))
              (vscale (velocity (state self')) (dt (parameters self)))
    /\ current_time self' = current_time self + dt (parameters self)
    /\ time (state self') = current_time self'
    /\ (time (state self) = current_time self ->
        time (state self') = time (state self) + dt (parameters self)).
Proof.
  intros Hstep.
  apply step_true_inv in Hstep
    as (g & wind & f & Hg & _ & Hwind & Hf & Hstate & Htime & _).
  exists g, wind, f. rewrite Hstate, Htime. cbn.
  repeat split; try assumption; try reflexivity.
  intros ->. reflexivity.
Qed.

(** A reset discards the results, sets the clock to 0.0 and restarts the
    object at the origin with the configured wind velocity. *)
Lemma reset_state (self : SimulationManager) :
  results (reset_simulation self) = empty_results
  /\ current_time (reset_simulation self) = #0.0
  /\ time (state (reset_simulation self)) = #0.0
  /\ velocity (state (reset_simulation self)) = wind_velocity (parameters self)
  /\ parameters (reset_simulation self) = parameters self
  /\ geometry (reset_simulation self) = geometry self.
Proof. repeat split. Qed.

End Stepping.

(** A manager as constructed has no geometry. *)
Lemma step_without_geometry_witness :
  @step_simulation float Run.b64 Run.calm (@new_manager float Run.b64)
  = (Returned false, @new_manager float Run.b64).
Proof.
  apply (@step_without_geometry float Run.b64 Run.calm
           (@new_manager float Run.b64)).
  reflexivity.
Defined.

(** The default manager with a cube, its clock moved to [max_time]. *)
Lemma step_after_max_time_witness :
  let late :=
    {| engine := engine Run.cube_manager;
       is_running := false; is_paused := false;
       current_time := Run.lit64 10.0;
       results := results Run.cube_manager;
       parameters := parameters Run.cube_manager;
       state := state Run.cube_manager;
       geometry := geometry Run.cube_manager;
       callbacks := [] |} in
  @step_simulation float Run.b64 Run.calm late = (Returned false, late).
Proof.
  intros late.
  refine (@step_after_max_time float Run.b64 Run.calm late
            {| length := 2; width := 2; height := 2; frontal_area := 4;
               surface_area := 24; volume := 8; object_type := CUBE |}%float
            _ _).
  - vm_compute. reflexivity.
  - vm_compute. reflexivity.
Defined.

(** The first step of the default manager with a cube of side 2. *)
Lemma step_integrates_witness :
  let self := Run.cube_manager in
  let self' := snd (@step_simulation float Run.b64 Run.calm self) in
  exists g wind f,
    geometry self = Some g
    /\ @step_wind float Run.b64 Run.calm (parameters self) = Returned wind
    /\ @calculate_forces float Run.b64 (engine self) g (velocity (state self))
         (object_angle (parameters self)) wind = Returned f
    /\ forces (state self') = Some f
    /\ acceleration (state self')
       = @vadd float Run.b64 (total f) (gravity (parameters self))
    /\ velocity (state self')
       = @vadd float Run.b64 (velocity (state self))
           (@vscale float Run.b64 (acceleration (state self'))
              (dt (parameters self)))
    /\ position (state self')
       = @vadd float Run.b64 (position (state self))
           (@vscale float Run.b64 (velocity (state self'))
              (dt (parameters self)))
    /\ current_time self'
       = @add float Run.b64 (current_time self) (dt (parameters self))
    /\ time (state self') = current_time self'
    /\ (time (state self) = current_time self ->
        time (state self')
        = @add float Run.b64 (time (state self)) (dt (parameters self))).
Proof.
  intros self self'.
  apply (@step_integrates float Run.b64 Run.calm self self').
  vm_compute. reflexivity.
Defined.

(* ================================================================== *)
(** ** Runs without turbulence *)

Section Determinism.

Context {T : Type} {S : Scalar T}.
Local Open Scope num_scope.

(** Without turbulence the wind of a step does not consult the random
    generator. *)
Lemma step_wind_without_turbulence
    (ra rb : T -> py (Vec3 (T:=T))) (p : SimulationParameters) :
  enable_turbulence p = false -> step_wind ra p = step_wind rb p.
Proof.
  intros Hcalm. unfold step_wind. rewrite Hcalm. reflexivity.
Qed.

Lemma agree_refl (a : SimulationManager (T:=T)) : agree a a.
Proof. repeat split. Qed.

(** One step on two managers that agree: the same outcome, and managers that
    agree again. *)
Lemma step_agree (ra rb : T -> py (Vec3 (T:=T))) (a b : SimulationManager (T:=T)) :
  enable_turbulence (parameters a) = false ->
  agree a b ->
  fst (step_simulation ra a) = fst (step_simulation rb b)
  /\ agree (snd (step_simulation ra a)) (snd (step_simulation rb b)).
Proof.
  intros Hcalm Hab.
  pose proof Hab as (He & Hp & Hg & Hs & Ht & Hr).
  unfold step_simulation.
  rewrite (@step_wind_without_turbulence ra rb _ Hcalm).
  rewrite <- Hg, <- Hp, <- Ht, <- Hs, <- He, <- Hr.
  destruct (geometry a) as [g|]; [|split; [reflexivity|exact Hab]].
  destruct (current_time a >=? max_time (parameters a));
    [split; [reflexivity|exact Hab]|].
  destruct (step_wind rb (parameters a)) as [wind|e]; cbn [bind];
    [|split; [reflexivity|exact Hab]].
  destruct (calculate_forces (engine a) g (velocity (state a))
              (object_angle (parameters a)) wind) as [f|e];
    [|split; [reflexivity|exact Hab]].
  cbv zeta. cbn [results time_history record_step].
  match goal with |- context [Nat.eqb ?n 0] => destruct (Nat.eqb n 0) end.
  - destruct (calculate_aerodynamic_efficiency f g) as [eff|e];
      (split; [reflexivity|]); unfold agree; cbn;
      rewrite <- ?He, <- ?Hp; repeat split; reflexivity.
  - split; [reflexivity|]. unfold agree; cbn.
    rewrite <- ?He, <- ?Hp. repeat split; reflexivity.
Qed.

(** A step does not change the parameters. *)
Lemma step_keeps_parameters (r : T -> py (Vec3 (T:=T))) (a : SimulationManager (T:=T)) :
  parameters (snd (step_simulation r a)) = parameters a.
Proof.
  unfold step_simulation.
  destruct (geometry a) as [g|]; [|reflexivity].
  destruct (current_time a >=? max_time (parameters a)); [reflexivity|].
  destruct (bind _ _) as [f|e]; [|reflexivity].
  cbv zeta.
  match goal with |- context [if ?c then _ else _] => destruct c end;
    [destruct (calculate_aerodynamic_efficiency f g)|]; reflexivity.
Qed.

Lemma step_at_most_agree (max_steps : nat) :
  forall (ra rb : nat -> T -> py (Vec3 (T:=T))) (a b : SimulationManager (T:=T)),
  enable_turbulence (parameters a) = false ->
  agree a b ->
  fst (step_at_most max_steps ra a) = fst (step_at_most max_steps rb b)
  /\ agree (snd (step_at_most max_steps ra a))
           (snd (step_at_most max_steps rb b)).
Proof.
  induction max_steps as [|n IH]; intros ra rb a b Hcalm Hab.
  - split; [reflexivity|exact Hab].
  - cbn [step_at_most].
    destruct (@step_agree (ra O) (rb O) a b Hcalm Hab) as [Hout Hnext].
    pose proof (@step_keeps_parameters (ra O) a) as Hkeep.
    destruct (step_simulation (ra O) a) as [oa a'].
    destruct (step_simulation (rb O) b) as [ob b'].
    cbn [fst snd] in Hout, Hnext, Hkeep. subst ob.
    destruct oa as [[|]|e]; try (split; [reflexivity|exact Hnext]).
    assert (Hcalm' : enable_turbulence (parameters a') = false)
      by (rewrite Hkeep; exact Hcalm).
    destruct (IH (fun k => ra (Datatypes.S k)) (fun k => rb (Datatypes.S k))
                 a' b' Hcalm' Hnext) as [Hout' Hnext'].
    destruct (step_at_most n (fun k => ra (Datatypes.S k)) a') as [oa a''].
    destruct (step_at_most n (fun k => rb (Datatypes.S k)) b') as [ob b''].
    cbn [fst snd] in Hout', Hnext'. subst ob.
    destruct oa; (split; [reflexivity|exact Hnext']).
Qed.

(** C8.  With [enable_turbulence = False], two runs from managers with the
    same parameters, geometry, state, clock, engine and results produce the
    same outcome and the same time, position and velocity sequences,
    whatever the random generator would answer in either run (and whatever
    callbacks and flags the two managers carry). *)
Theorem runs_without_turbulence_agree
    (max_steps : nat) (ra rb : nat -> T -> py (Vec3 (T:=T)))
    (a b : SimulationManager (T:=T)) :
  enable_turbulence (parameters a) = false ->
  parameters a = parameters b ->
  geometry a = geometry b ->
  state a = state b ->
  engine a = engine b ->
  current_time a = current_time b ->
  results a = results b ->
  fst (step_at_most max_steps ra a) = fst (step_at_most max_steps rb b)
  /\ time_history (results (snd (step_at_most max_steps ra a)))
     = time_history (results (snd (step_at_most max_steps rb b)))
  /\ position_history (results (snd (step_at_most max_steps ra a)))
     = position_history (results (snd (step_at_most max_steps rb b)))
  /\ velocity_history (results (snd (step_at_most max_steps ra a)))
     = velocity_history (results (snd (step_at_most max_steps rb b))).
Proof.
  intros Hcalm Hp Hg Hs He Ht Hr.
  assert (Hab : agree a b) by (unfold agree; repeat split; assumption).
  destruct (@step_at_most_agree max_steps ra rb a b Hcalm Hab)
    as [Hout (_ & _ & _ & _ & _ & Hres)].
  rewrite Hout, Hres. repeat split; reflexivity.
Qed.

End Determinism.

(** Five steps of the cube, one run under a calm generator and one under a
    gusty one. *)
Lemma runs_without_turbulence_agree_witness :
  let run_a := @step_at_most float Run.b64 5 (fun _ => Run.calm)
                 Run.cube_manager in
  let run_b := @step_at_most float Run.b64 5 (fun _ => Run.gust)
                 Run.cube_manager in
  fst run_a = fst run_b
  /\ time_history (results (snd run_a)) = time_history (results (snd run_b))
  /\ position_history (results (snd run_a))
     = position_history (results (snd run_b))
  /\ velocity_history (results (snd run_a))
     = velocity_history (results (snd run_b)).
Proof.
  intros run_a run_b.
  apply (@runs_without_turbulence_agree float Run.b64 5
           (fun _ => Run.calm) (fun _ => Run.gust)
           Run.cube_manager Run.cube_manager); reflexivity.
Defined.

(* ================================================================== *)
(** ** The lengths of the results log *)

Section LogLengths.

Context {T : Type} {S : Scalar T}.
Local Open Scope num_scope.

Lemma div10_succ (n : nat) :
  (Datatypes.S n / 10)%nat
  = if (Datatypes.S n mod 10 =? 0)%nat then Datatypes.S (n / 10) else (n / 10)%nat.
Proof.
  pose proof (Nat.div_mod_eq n 10) as Hn.
  pose proof (Nat.div_mod_eq (Datatypes.S n) 10) as HSn.
  pose proof (Nat.mod_upper_bound n 10) as Hlt.
  pose proof (Nat.mod_upper_bound (Datatypes.S n) 10) as HSlt.
  destruct (Nat.eqb_spec (Datatypes.S n mod 10) 0); lia.
Qed.

Lemma log_invariant_empty : log_invariant (empty_results (T:=T)).
Proof. repeat split. Qed.

(** The five appends of a step keep the five per-step sequences level. *)
Lemma record_step_lengths (r : SimulationResults (T:=T)) t st f :
  log_invariant r ->
  let r' := record_step r t st f in
  List.length (time_history r') = Datatypes.S (List.length (time_history r))
  /\ List.length (position_history r') = List.length (time_history r')
  /\ List.length (velocity_history r') = List.length (time_history r')
  /\ List.length (acceleration_history r') = List.length (time_history r')
  /\ List.length (force_history r') = List.length (time_history r').
Proof.
  intros (Hp & Hv & Ha & Hf & _). cbn.
  rewrite !length_app. cbn. lia.
Qed.

(** A call of [step_simulation] that returns, [True] or [False], keeps the
    invariant. *)
Lemma step_keeps_log_invariant
    (random_normal : T -> py (Vec3 (T:=T)))
    (self self' : SimulationManager (T:=T)) (answer : bool) :
  step_simulation random_normal self = (Returned answer, self') ->
  log_invariant (results self) ->
  log_invariant (results self').
Proof.
  unfold step_simulation.
  destruct (geometry self) as [g|];
    [|intros H; injection H as _ <-; trivial].
  destruct (current_time self >=? max_time (parameters self));
    [intros H; injection H as _ <-; trivial|].
  destruct (bind _ _) as [f|e]; [|discriminate].
  cbv zeta. cbn [results time_history record_step].
  intros Hstep Hinv.
  pose proof (record_step_lengths
                (current_time self + dt (parameters self))
                (integrate (state self) (parameters self) f
                   (current_time self + dt (parameters self)))
                f Hinv) as (Ht & Hp & Hv & Ha & Hf).
  cbv zeta in Ht, Hp, Hv, Ha, Hf. cbn [time_history record_step] in Ht.
  destruct Hinv as (_ & _ & _ & _ & Hff & Heff).
  pose proof (div10_succ (List.length (time_history (results self)))) as Hdiv.
  rewrite <- Ht in Hdiv.
  match type of Hstep with context [Nat.eqb ?n 0] =>
    destruct (Nat.eqb n 0) eqn:Hten end.
  - destruct (calculate_aerodynamic_efficiency f g) as [eff|e];
      [|discriminate].
    injection Hstep as _ <-. unfold log_invariant. cbn.
    cbn [time_history record_step] in Hdiv. cbn in Hp, Hv, Ha, Hf.
    rewrite !length_app in *. cbn in *. lia.
  - injection Hstep as _ <-. unfold log_invariant. cbn.
    cbn [time_history record_step] in Hdiv. cbn in Hp, Hv, Ha, Hf.
    rewrite !length_app in *. cbn in *. lia.
Qed.

(** After any sequence of steps and resets in which every call returns, the
    log satisfies the invariant. *)
Lemma run_calls_keeps_log_invariant (calls : list Call) :
  forall (self self' : SimulationManager (T:=T)),
  run_calls calls self = (Returned tt, self') ->
  log_invariant (results self) ->
  log_invariant (results self').
Proof.
  induction calls as [|[random_normal|] rest IH]; intros self self' Hrun Hinv.
  - injection Hrun as <-. exact Hinv.
  - cbn [run_calls] in Hrun.
    destruct (step_simulation random_normal self) as [[answer|e] mid] eqn:Hstep;
      [|discriminate].
    eapply IH; [exact Hrun|].
    eapply step_keeps_log_invariant; eassumption.
  - cbn [run_calls] in Hrun.
    eapply IH; [exact Hrun|]. apply log_invariant_empty.
Qed.

(** A snapshot step of a body without width and height raises between its
    two appends. *)
Lemma flat_snapshot_step
    (random_normal : T -> py (Vec3 (T:=T)))
    (self : SimulationManager (T:=T)) (g : ObjectGeometry) :
  geometry self = Some g ->
  (current_time self >=? max_time (parameters self)) = false ->
  (exists wind f,
      step_wind random_normal (parameters self) = Returned wind
      /\ calculate_forces (engine self) g (velocity (state self))
           (object_angle (parameters self)) wind = Returned f) ->
  (Datatypes.S (List.length (time_history (results self))) mod 10 = 0)%nat ->
  (py_max (width g) (height g) =? #0) = true ->
  exists self',
    step_simulation random_normal self = (Raised ZeroDivisionError, self')
    /\ List.length (time_history (results self'))
       = Datatypes.S (List.length (time_history (results self)))
    /\ List.length (flow_fields (results self'))
       = Datatypes.S (List.length (flow_fields (results self)))
    /\ List.length (efficiency_metrics (results self'))
       = List.length (efficiency_metrics (results self)).
Proof.
  intros Hg Hguard (wind & f & Hwind & Hf) Hten Hflat.
  unfold step_simulation. rewrite Hg, Hguard, Hwind. cbn [bind]. rewrite Hf.
  cbv zeta. cbn [results time_history record_step].
  rewrite length_app. cbn [List.length]. rewrite Nat.add_1_r, Hten. cbn [Nat.eqb].
  unfold calculate_aerodynamic_efficiency, py_div. rewrite Hflat. cbn [bind].
  eexists. split; [reflexivity|]. cbn. rewrite !length_app. cbn. lia.
Qed.

(** The step that would take the tenth snapshot, on a body whose width and
    height are both zero: the flow field is appended, then the fineness ratio
    divides by zero, and the manager is left with a flow field that has no
    efficiency entry. *)
Lemma snapshot_step_raises
    (random_normal : T -> py (Vec3 (T:=T)))
    (self : SimulationManager (T:=T)) (g : ObjectGeometry) :
  geometry self = Some g ->
  (current_time self >=? max_time (parameters self)) = false ->
  (exists wind f,
      step_wind random_normal (parameters self) = Returned wind
      /\ calculate_forces (engine self) g (velocity (state self))
           (object_angle (parameters self)) wind = Returned f) ->
  (Datatypes.S (List.length (time_history (results self))) mod 10 = 0)%nat ->
  (py_max (width g) (height g) =? #0) = true ->
  exists self',
    step_simulation random_normal self = (Raised ZeroDivisionError, self')
    /\ List.length (time_history (results self'))
       = Datatypes.S (List.length (time_history (results self)))
    /\ List.length (flow_fields (results self'))
       = Datatypes.S (List.length (flow_fields (results self)))
    /\ List.length (efficiency_metrics (results self'))
       = List.length (efficiency_metrics (results self)).
Proof.
  intros Hg Hguard (wind & f & Hwind & Hf) Hten Hflat.
  unfold step_simulation. rewrite Hg, Hguard, Hwind. cbn [bind]. rewrite Hf.
  cbv zeta. cbn [results time_history record_step].
  rewrite length_app. cbn [List.length]. rewrite Nat.add_1_r, Hten. cbn [Nat.eqb].
  unfold calculate_aerodynamic_efficiency, py_div. rewrite Hflat. cbn [bind].
  eexists. split; [reflexivity|]. cbn. rewrite !length_app. cbn. lia.
Qed.

(** A step that takes no snapshot returns [True] when the wind and the force
    resolver return; it appends one time and leaves the snapshots alone. *)
Lemma plain_step_returns
    (random_normal : T -> py (Vec3 (T:=T)))
    (self : SimulationManager (T:=T)) (g : ObjectGeometry) :
  geometry self = Some g ->
  (current_time self >=? max_time (parameters self)) = false ->
  (forall velocity wind, exists f,
      calculate_forces (engine self) g velocity
        (object_angle (parameters self)) wind = Returned f) ->
  enable_turbulence (parameters self) = false ->
  (Datatypes.S (List.length (time_history (results self))) mod 10 <> 0)%nat ->
  exists self',
    step_simulation random_normal self = (Returned true, self')
    /\ geometry self' = Some g
    /\ parameters self' = parameters self
    /\ engine self' = engine self
    /\ current_time self' = current_time self + dt (parameters self)
    /\ List.length (time_history (results self'))
       = Datatypes.S (List.length (time_history (results self)))
    /\ flow_fields (results self') = flow_fields (results self)
    /\ efficiency_metrics (results self') = efficiency_metrics (results self).
Proof.
  intros Hg Hguard Hforces Hcalm Hplain.
  unfold step_simulation, step_wind. rewrite Hg, Hguard, Hcalm. cbn [bind].
  match goal with |- context [calculate_forces _ _ ?v _ ?w] =>
    destruct (Hforces v w) as [f ->] end.
  cbv zeta. cbn [results time_history record_step].
  rewrite length_app. cbn [List.length]. rewrite Nat.add_1_r.
  apply Nat.eqb_neq in Hplain. rewrite Hplain.
  eexists. split; [reflexivity|]. cbn. rewrite length_app. cbn.
  repeat split; try reflexivity. lia.
Qed.

(** A body without width or height, [m] steps away from a snapshot: the
    driver's loop gets [m] answers [True], and the next call raises and
    leaves a flow field that has no efficiency entry. *)
Lemma flat_body_run (m : nat) :
  forall (random_normal : nat -> T -> py (Vec3 (T:=T)))
         (self : SimulationManager (T:=T)) (g : ObjectGeometry),
  geometry self = Some g ->
  (py_max (width g) (height g) =? #0) = true ->
  (forall velocity wind, exists f,
      calculate_forces (engine self) g velocity
        (object_angle (parameters self)) wind = Returned f) ->
  enable_turbulence (parameters self) = false ->
  (forall k, (k <= m)%nat ->
     (clock (dt (parameters self)) k (current_time self)
      >=? max_time (parameters self)) = false) ->
  (forall j, (j < m)%nat ->
     (Datatypes.S (List.length (time_history (results self)) + j) mod 10 <> 0)%nat) ->
  (Datatypes.S (List.length (time_history (results self)) + m) mod 10 = 0)%nat ->
  fst (step_at_most m random_normal self) = Returned m
  /\ exists self',
      step_at_most (Datatypes.S m) random_normal self
      = (Raised ZeroDivisionError, self')
      /\ List.length (time_history (results self'))
         = Datatypes.S (List.length (time_history (results self)) + m)
      /\ List.length (flow_fields (results self'))
         = Datatypes.S (List.length (flow_fields (results self)))
      /\ List.length (efficiency_metrics (results self'))
         = List.length (efficiency_metrics (results self)).
Proof.
  induction m as [|m IH];
    intros random_normal self g Hg Hflat Hforces Hcalm Hclock Hplain Hten.
  - split; [reflexivity|].
    rewrite Nat.add_0_r in Hten.
    destruct (@flat_snapshot_step (random_normal O) self g Hg
                (Hclock O (Nat.le_refl _))) as (self' & Hstep & Ht & Hff & Heff);
      [|exact Hten|exact Hflat|].
    + assert (Hwind : exists wind,
                 step_wind (random_normal O) (parameters self) = Returned wind)
        by (unfold step_wind; rewrite Hcalm; eexists; reflexivity).
      destruct Hwind as [wind Hwind].
      destruct (Hforces (velocity (state self)) wind) as [f Hf].
      exists wind, f. split; assumption.
    + exists self'. cbn [step_at_most]. rewrite Hstep.
      rewrite Nat.add_0_r. repeat split; assumption.
  - destruct (@plain_step_returns (random_normal O) self g Hg
                (Hclock O (Nat.le_0_l _)) Hforces Hcalm)
      as (mid & Hstep & Hg' & Hp & He & Ht & Hlen & Hff & Heff).
    { specialize (Hplain O ltac:(lia)). rewrite Nat.add_0_r in Hplain.
      exact Hplain. }
    destruct (IH (fun k => random_normal (Datatypes.S k)) mid g)
      as (Hreturned & self' & Hrun & Hlen' & Hff' & Heff').
    + exact Hg'.
    + exact Hflat.
    + rewrite He, Hp. exact Hforces.
    + rewrite Hp. exact Hcalm.
    + intros k Hk. rewrite Hp, Ht. apply (Hclock (Datatypes.S k)). lia.
    + intros j Hj. rewrite Hlen.
      replace (Datatypes.S (List.length (time_history (results self))) + j)%nat
        with (List.length (time_history (results self)) + Datatypes.S j)%nat
        by lia.
      apply Hplain. lia.
    + rewrite Hlen.
      replace (Datatypes.S (List.length (time_history (results self))) + m)%nat
        with (List.length (time_history (results self)) + Datatypes.S m)%nat
        by lia.
      exact Hten.
    + split.
      * cbn [step_at_most]. rewrite Hstep.
        destruct (step_at_most m _ mid) as [[steps|e] last];
          cbn [fst] in Hreturned; [|discriminate].
        injection Hreturned as ->. reflexivity.
      * exists self'.
        change (step_at_most (Datatypes.S (Datatypes.S m)) random_normal self)
          with (match step_simulation (random_normal O) self with
                | (Returned true, self1) =>
                    match step_at_most (Datatypes.S m)
                            (fun k => random_normal (Datatypes.S k)) self1 with
                    | (Returned steps, self2) =>
                        (Returned (Datatypes.S steps), self2)
                    | (Raised e, self2) => (Raised e, self2)
                    end
                | (Returned false, self1) => (Returned O, self1)
                | (Raised e, self1) => (Raised e, self1)
                end).
        rewrite Hstep, Hrun. split; [reflexivity|].
        rewrite Hlen', Hff', Heff', Hlen, Hff, Heff. repeat split. lia.
Qed.

End LogLengths.

(** Ten steps of the cube, the tenth with its snapshot, a reset, and two more
    steps. *)
Lemma run_calls_keeps_log_invariant_witness :
  let calls :=
    repeat (@CallStep float Run.calm) 10
    ++ [@CallReset float; CallStep Run.gust; CallStep Run.calm] in
  log_invariant
    (results (snd (@run_calls float Run.b64 calls Run.cube_manager))).
Proof.
  intros calls.
  apply (@run_calls_keeps_log_invariant float Run.b64 calls Run.cube_manager
           (snd (@run_calls float Run.b64 calls Run.cube_manager))).
  - vm_compute. reflexivity.
  - vm_compute. repeat split; reflexivity.
Defined.

(** The flat body after nine steps: the tenth is a snapshot step. *)
Lemma snapshot_step_raises_witness :
  let self := snd (@step_at_most float Run.b64 9 (fun _ => Run.calm)
                     Run.flat_manager) in
  exists self',
    @step_simulation float Run.b64 Run.calm self
    = (Raised ZeroDivisionError, self')
    /\ List.length (time_history (results self'))
       = Datatypes.S (List.length (time_history (results self)))
    /\ List.length (flow_fields (results self'))
       = Datatypes.S (List.length (flow_fields (results self)))
    /\ List.length (efficiency_metrics (results self'))
       = List.length (efficiency_metrics (results self)).
Proof.
  intros self.
  refine (@snapshot_step_raises float Run.b64 Run.calm self
            {| length := 2; width := 0; height := 0; frontal_area := 0;
               surface_area := 0; volume := 0; object_type := CUBE |}%float
            _ _ _ _ _).
  - vm_compute. reflexivity.
  - vm_compute. reflexivity.
  - eexists. eexists. split; vm_compute; reflexivity.
  - vm_compute. reflexivity.
  - vm_compute. reflexivity.
Defined.

(* ================================================================== *)
(** ** Stepping until the manager answers False *)

Section Termination.

Context {T : Type} {S : Scalar T}.
Local Open Scope num_scope.

(** The force resolver returns for every velocity and wind when, for the
    angle of attack, [math.sin] returns and, for the two shapes that square
    the angle, the Python power does. *)
Lemma forces_return (angle : T) (g : ObjectGeometry) :
  (exists s, math_sin (#2 * radians angle) = Returned s) ->
  (object_type g = JET \/ object_type g = AIRFOIL ->
   exists q, py_pow (radians angle) #2 = Returned q) ->
  forall (engine : AerodynamicsEngine) (velocity wind : Vec3 (T:=T)),
  exists f, calculate_forces engine g velocity angle wind = Returned f.
Proof.
  intros [s Hs] Hsquare engine velocity wind.
  unfold calculate_forces.
  destruct (norm3 (vsub velocity wind) <? #1e-6); [eexists; reflexivity|].
  unfold get_drag_coefficient, calculate_lift_coefficient.
  destruct (object_type g) eqn:Hshape;
    try (destruct (Hsquare ltac:(auto)) as [q Hq]; rewrite Hq);
    rewrite ?Hs; cbn [bind];
    repeat match goal with
           | |- context [if ?c then _ else _] => destruct c
           end;
    cbn [bind]; eexists; reflexivity.
Qed.

(** The efficiency metrics return for a body with a width or a height. *)
Lemma efficiency_returns (g : ObjectGeometry (T:=T)) :
  (py_max (width g) (height g) =? #0) = false ->
  forall f, exists e, calculate_aerodynamic_efficiency f g = Returned e.
Proof.
  intros Hwide f. unfold calculate_aerodynamic_efficiency, py_div.
  rewrite Hwide. cbn [bind]. eexists; reflexivity.
Qed.

(** Before [max_time], with nothing that raises, a step returns [True]. *)
Lemma step_returns_true
    (random_normal : nat -> T -> py (Vec3 (T:=T)))
    (self : SimulationManager (T:=T)) (g : ObjectGeometry) :
  geometry self = Some g ->
  (current_time self >=? max_time (parameters self)) = false ->
  never_raises random_normal self g ->
  exists self', step_simulation (random_normal O) self = (Returned true, self').
Proof.
  intros Hg Hguard (Hforces & Hefficiency & Hrandom).
  unfold step_simulation. rewrite Hg, Hguard.
  assert (Hwind : exists wind,
             step_wind (random_normal O) (parameters self) = Returned wind).
  { unfold step_wind.
    destruct (enable_turbulence (parameters self)); [|eexists; reflexivity].
    destruct (Hrandom eq_refl O) as [turbulence ->]. cbn [bind].
    eexists; reflexivity. }
  destruct Hwind as [wind ->]. cbn [bind].
  destruct (Hforces (velocity (state self)) wind) as [f ->].
  cbv zeta.
  match goal with |- context [Nat.eqb ?n 0] => destruct (Nat.eqb n 0) end.
  - destruct (Hefficiency f) as [e ->]. eexists; reflexivity.
  - eexists; reflexivity.
Qed.

(** The run of [n] steps that the clock allows, then the answer [False]. *)
Lemma step_until_false_counts (n : nat) :
  forall (fuel : nat) (random_normal : nat -> T -> py (Vec3 (T:=T)))
         (self : SimulationManager (T:=T)) (g : ObjectGeometry),
  geometry self = Some g ->
  never_raises random_normal self g ->
  (forall k, (k < n)%nat ->
     (clock (dt (parameters self)) k (current_time self)
      >=? max_time (parameters self)) = false) ->
  (clock (dt (parameters self)) n (current_time self)
   >=? max_time (parameters self)) = true ->
  (n < fuel)%nat ->
  exists self',
    step_until_false fuel random_normal self = Some (Returned tt, self')
    /\ List.length (time_history (results self'))
       = (List.length (time_history (results self)) + n)%nat.
Proof.
  induction n as [|n IH]; intros fuel random_normal self g Hg Hsafe Hbefore Hend Hfuel.
  - destruct fuel as [|fuel]; [lia|]. cbn [step_until_false].
    cbn [clock] in Hend.
    rewrite (@step_guard T S (random_normal O) self Hend).
    exists self. split; [reflexivity|lia].
  - destruct fuel as [|fuel]; [lia|]. cbn [step_until_false].
    assert (Hguard : (current_time self >=? max_time (parameters self)) = false)
      by (apply (Hbefore O); lia).
    destruct (@step_returns_true random_normal self g Hg Hguard Hsafe)
      as [mid Hstep].
    rewrite Hstep.
    apply step_true_inv in Hstep
      as (g' & wind & f & Hg' & _ & _ & _ & _ & Htime & Hp & Hgeom & He & Hhist).
    destruct (IH fuel (fun k => random_normal (Datatypes.S k)) mid g)
      as (self' & Hrun & Hlen).
    + rewrite Hgeom. exact Hg.
    + destruct Hsafe as (Hforces & Hefficiency & Hrandom).
      unfold never_raises. rewrite He, Hp. repeat split.
      * exact Hforces.
      * exact Hefficiency.
      * intros Hon k. apply (Hrandom Hon).
    + intros k Hk. rewrite Hp, Htime.
      apply (Hbefore (Datatypes.S k)). lia.
    + rewrite Hp, Htime. exact Hend.
    + lia.
    + exists self'. split; [exact Hrun|].
      rewrite Hlen, Hhist, length_app. cbn. lia.
Qed.

(** With a geometry set, the answer [False] comes from the clock alone. *)
Lemma step_false_inv
    (random_normal : T -> py (Vec3 (T:=T)))
    (self self' : SimulationManager (T:=T)) (g : ObjectGeometry) :
  geometry self = Some g ->
  step_simulation random_normal self = (Returned false, self') ->
  (current_time self >=? max_time (parameters self)) = true.
Proof.
  intros Hg. unfold step_simulation. rewrite Hg.
  destruct (current_time self >=? max_time (parameters self)); [reflexivity|].
  destruct (bind _ _) as [f|e]; [|discriminate].
  cbv zeta.
  match goal with |- context [Nat.eqb ?n 0] => destruct (Nat.eqb n 0) end;
    [destruct (calculate_aerodynamic_efficiency f g)|]; discriminate.
Qed.

(** Whatever happens in the calls, a loop that ends with the answer [False]
    has made exactly the [n] steps that the clock allows. *)
Lemma step_until_false_only_after (n : nat) :
  forall (fuel : nat) (random_normal : nat -> T -> py (Vec3 (T:=T)))
         (self self' : SimulationManager (T:=T)) (g : ObjectGeometry),
  geometry self = Some g ->
  (forall k, (k < n)%nat ->
     (clock (dt (parameters self)) k (current_time self)
      >=? max_time (parameters self)) = false) ->
  (clock (dt (parameters self)) n (current_time self)
   >=? max_time (parameters self)) = true ->
  step_until_false fuel random_normal self = Some (Returned tt, self') ->
  List.length (time_history (results self'))
  = (List.length (time_history (results self)) + n)%nat.
Proof.
  induction n as [|n IH];
    intros fuel random_normal self self' g Hg Hbefore Hend Hrun;
    (destruct fuel as [|fuel]; [discriminate Hrun|]);
    cbn [step_until_false] in Hrun.
  - cbn [clock] in Hend.
    rewrite (@step_guard T S (random_normal O) self Hend) in Hrun.
    injection Hrun as <-. lia.
  - assert (Hguard : (current_time self >=? max_time (parameters self)) = false)
      by (apply (Hbefore O); lia).
    destruct (step_simulation (random_normal O) self) as [[[|]|e] mid] eqn:Hstep.
    + apply step_true_inv in Hstep
        as (g' & wind & f & Hg' & _ & _ & _ & _ & Htime & Hp & Hgeom & _ & Hhist).
      rewrite (IH fuel (fun k => random_normal (Datatypes.S k)) mid self' g).
      * rewrite Hhist, length_app. cbn. lia.
      * rewrite Hgeom. exact Hg.
      * intros k Hk. rewrite Hp, Htime. apply (Hbefore (Datatypes.S k)). lia.
      * rewrite Hp, Htime. exact Hend.
      * exact Hrun.
    + apply (@step_false_inv (random_normal O) self mid g Hg) in Hstep.
      rewrite Hstep in Hguard. discriminate Hguard.
    + discriminate Hrun.
Qed.

End Termination.

(* ================================================================== *)
(** ** A body without width or height *)

(** In binary64, the default clock (steps of 0.001 from 0.0) is below the
    default [max_time] of 10.0 through the first ten steps. *)
Lemma binary64_default_clock (L : Libm) :
  forallb (fun k =>
             negb (@leb float (binary64 L) (@lit float (binary64 L) 10.0)
                     (@clock float (binary64 L) (@lit float (binary64 L) 0.001)
                        k (@lit float (binary64 L) 0.0))))
          (seq 0 10) = true.
Proof. vm_compute. reflexivity. Qed.

(** C4.  The invariant does not survive every sequence of steps.  In
    binary64, whatever the mathematics library and the random generator: on
    a body of width 0 and height 0 (a manager as constructed, then
    [set_object_geometry(ObjectType.CUBE, 2.0, 0.0, 0.0)]), nine steps return
    [True] and the tenth raises [ZeroDivisionError] between its two snapshot
    appends, leaving ten recorded times, one flow field and no efficiency
    entry. *)
Theorem tenth_step_of_flat_body
    (L : Libm) (random_normal : nat -> float -> py (Vec3 (T:=float))) :
  let flat :=
    snd (@set_object_geometry float (binary64 L) (@new_manager float (binary64 L))
           CUBE (@lit float (binary64 L) 2.0) (@lit float (binary64 L) 0.0)
           (@lit float (binary64 L) 0.0)) in
  fst (@step_at_most float (binary64 L) 9 random_normal flat) = Returned 9%nat
  /\ exists self',
      @step_at_most float (binary64 L) 10 random_normal flat
      = (Raised ZeroDivisionError, self')
      /\ List.length (time_history (results self')) = 10%nat
      /\ List.length (flow_fields (results self')) = 1%nat
      /\ List.length (efficiency_metrics (results self')) = 0%nat.
Proof.
  intros flat.
  apply (@flat_body_run float (binary64 L) 9 random_normal flat
           {| length := 2; width := 0; height := 0; frontal_area := 0;
              surface_area := 0; volume := 0; object_type := CUBE |}%float).
  - vm_compute. reflexivity.
  - vm_compute. reflexivity.
  - apply (@forces_return float (binary64 L)).
    + eexists. unfold math_sin.
      match goal with |- (if ?c then _ else _) = _ =>
        change c with false end.
      reflexivity.
    + intros [Hshape|Hshape]; discriminate Hshape.
  - reflexivity.
  - intros k Hk.
    pose proof (binary64_default_clock L) as Hclock.
    rewrite forallb_forall in Hclock.
    apply negb_true_iff. apply (Hclock k). apply in_seq. lia.
  - intros j Hj. cbn [flat].
    do 9 (destruct j as [|j]; [cbn; discriminate|]). lia.
  - reflexivity.
Qed.

(* ================================================================== *)
(** ** One second in steps of 0.01 *)

(** In binary64, a clock that starts at 0.0 and advances by 0.01 is below 1.0
    after each of the first 99 additions and not after the 100th. *)
Lemma binary64_clock (L : Libm) :
  forallb (fun k =>
             negb (@leb float (binary64 L) (@lit float (binary64 L) 1.0)
                     (@clock float (binary64 L) (@lit float (binary64 L) 0.01)
                        k (@lit float (binary64 L) 0.0))))
          (seq 0 100) = true
  /\ @leb float (binary64 L) (@lit float (binary64 L) 1.0)
       (@clock float (binary64 L) (@lit float (binary64 L) 0.01)
          100 (@lit float (binary64 L) 0.0)) = true.
Proof. vm_compute. split; reflexivity. Qed.

(** In binary64, with a geometry set, [dt = 0.01], [max_time = 1.0] and the
    clock at 0.0: every loop of [step_simulation] calls that ends with the
    answer [False] has appended exactly 100 entries to the time history. *)
Lemma binary64_false_after_hundred
    (L : Libm) (fuel : nat)
    (random_normal : nat -> float -> py (Vec3 (T:=float)))
    (self self' : SimulationManager (T:=float)) (g : ObjectGeometry) :
  geometry self = Some g ->
  dt (parameters self) = @lit float (binary64 L) 0.01 ->
  max_time (parameters self) = @lit float (binary64 L) 1.0 ->
  current_time self = @lit float (binary64 L) 0.0 ->
  @step_until_false float (binary64 L) fuel random_normal self
  = Some (Returned tt, self') ->
  List.length (time_history (results self'))
  = (List.length (time_history (results self)) + 100)%nat.
Proof.
  intros Hg Hdt Hmax Hzero Hrun.
  destruct (binary64_clock L) as [Hbefore Hend].
  apply (@step_until_false_only_after float (binary64 L) 100 fuel random_normal
           self self' g Hg); [| |exact Hrun].
  - intros k Hk. rewrite Hdt, Hmax, Hzero.
    rewrite forallb_forall in Hbefore.
    apply negb_true_iff. apply Hbefore. apply in_seq. lia.
  - rewrite Hdt, Hmax, Hzero. exact Hend.
Qed.

(** Under the same conditions, when nothing raises, the loop does end with
    the answer [False], at the 101st call. *)
Lemma binary64_false_is_reached
    (L : Libm) (fuel : nat)
    (random_normal : nat -> float -> py (Vec3 (T:=float)))
    (self : SimulationManager (T:=float)) (g : ObjectGeometry) :
  geometry self = Some g ->
  dt (parameters self) = @lit float (binary64 L) 0.01 ->
  max_time (parameters self) = @lit float (binary64 L) 1.0 ->
  current_time self = @lit float (binary64 L) 0.0 ->
  @never_raises float (binary64 L) random_normal self g ->
  (100 < fuel)%nat ->
  exists self',
    @step_until_false float (binary64 L) fuel random_normal self
    = Some (Returned tt, self')
    /\ List.length (time_history (results self'))
       = (List.length (time_history (results self)) + 100)%nat.
Proof.
  intros Hg Hdt Hmax Hzero Hsafe Hfuel.
  destruct (binary64_clock L) as [Hbefore Hend].
  apply (@step_until_false_counts float (binary64 L) 100 fuel random_normal
           self g Hg Hsafe); [| |exact Hfuel].
  - intros k Hk. rewrite Hdt, Hmax, Hzero.
    rewrite forallb_forall in Hbefore.
    apply negb_true_iff. apply Hbefore. apply in_seq. lia.
  - rewrite Hdt, Hmax, Hzero. exact Hend.
Qed.

(** C7.  In binary64 arithmetic, with a geometry set, [dt = 0.01],
    [max_time = 1.0] and the clock at 0.0, calling [step_simulation] until it
    returns [False] appends exactly 100 entries to the time history: every
    such loop that ends with the answer [False] has appended 100 entries,
    and when nothing raises on the way the loop does end so, with the 101st
    call (the guard first fires after the 100th step). *)
Theorem hundred_steps
    (L : Libm) (random_normal : nat -> float -> py (Vec3 (T:=float)))
    (self : SimulationManager (T:=float)) (g : ObjectGeometry) :
  geometry self = Some g ->
  dt (parameters self) = @lit float (binary64 L) 0.01 ->
  max_time (parameters self) = @lit float (binary64 L) 1.0 ->
  current_time self = @lit float (binary64 L) 0.0 ->
  (forall fuel self',
      @step_until_false float (binary64 L) fuel random_normal self
      = Some (Returned tt, self') ->
      List.length (time_history (results self'))
      = (List.length (time_history (results self)) + 100)%nat)
  /\ (@never_raises float (binary64 L) random_normal self g ->
      forall fuel, (100 < fuel)%nat ->
      exists self',
        @step_until_false float (binary64 L) fuel random_normal self
        = Some (Returned tt, self')
        /\ List.length (time_history (results self'))
           = (List.length (time_history (results self)) + 100)%nat).
Proof.
  intros Hg Hdt Hmax Hzero. split.
  - intros fuel self'.
    apply (@binary64_false_after_hundred L fuel random_normal self self' g);
      assumption.
  - intros Hsafe fuel Hfuel.
    apply (@binary64_false_is_reached L fuel random_normal self g); assumption.
Qed.

(** The cube of side 2 with a time step of 0.01 s and one second to run: the
    101st call answers [False], after 100 entries. *)
Lemma hundred_steps_witness :
  exists self',
    @step_until_false float Run.b64 101 (fun _ => Run.gust) Run.test_manager
    = Some (Returned tt, self')
    /\ List.length (time_history (results self')) = 100%nat.
Proof.
  pose (g := {| length := 2; width := 2; height := 2; frontal_area := 4;
                surface_area := 24; volume := 8; object_type := CUBE |}%float).
  assert (Hg : geometry Run.test_manager = Some g)
    by (vm_compute; reflexivity).
  assert (Hdt : dt (parameters Run.test_manager)
                = @lit float (binary64 libm_small) 0.01)
    by (vm_compute; reflexivity).
  assert (Hmax : max_time (parameters Run.test_manager)
                 = @lit float (binary64 libm_small) 1.0)
    by (vm_compute; reflexivity).
  assert (Hzero : current_time Run.test_manager
                  = @lit float (binary64 libm_small) 0.0)
    by (vm_compute; reflexivity).
  pose proof (@hundred_steps libm_small (fun _ => Run.gust) Run.test_manager g
                Hg Hdt Hmax Hzero) as Hboth.
  destruct Hboth as [_ Hreached].
  apply Hreached; [|lia].
  repeat split.
  - apply (@forces_return float Run.b64).
    + eexists. vm_compute. reflexivity.
    + intros [Hshape|Hshape]; discriminate Hshape.
  - apply (@efficiency_returns float Run.b64). vm_compute. reflexivity.
  - intros Hon. vm_compute in Hon. discriminate Hon.
Defined.

(* ================================================================== *)
(** ** binary64: the sign and the magnitude of a rounded result *)

(** The operations of binary64 are specified on mantissas and exponents
    (the standard library's [SpecFloat]).  This part derives what the proofs
    on binary64 below need of them: a result is never a NaN unless an
    operand is one or the operation is undefined, its sign is the sign the
    operands give, and its magnitude lies within one binary order of the
    exact one.  Magnitudes are tracked as powers of two ([below], [above]);
    nothing finer is needed to rule out overflow, division by zero and
    NaN. *)

Section Rounding.

Local Open Scope Z_scope.

Lemma fexp_64 (z : Z) : fexp prec emax z = Z.max (z - 53) (-1074).
Proof. reflexivity. Qed.

Lemma digits2_size (p : positive) : digits2_pos p = Pos.size p.
Proof. induction p as [p IH|p IH|]; cbn; rewrite ?IH; reflexivity. Qed.

Lemma Zdigits2_log2 (m : Z) : 0 < m -> Zdigits2 m = Z.log2 m + 1.
Proof.
  destruct m as [|p|p]; try lia. intros _. cbn [Zdigits2].
  rewrite digits2_size. destruct p as [p|p|]; cbn; lia.
Qed.

Lemma Zdigits2_nonneg (m : Z) : 0 <= Zdigits2 m.
Proof. destruct m; cbn; lia. Qed.

Lemma Zdigits2_pos (m : Z) : 0 < m -> 1 <= Zdigits2 m.
Proof. destruct m; cbn; lia. Qed.

Lemma Zdigits2_bounds (m : Z) :
  0 < m -> 2 ^ (Zdigits2 m - 1) <= m < 2 ^ Zdigits2 m.
Proof.
  intros H. rewrite Zdigits2_log2 by exact H.
  replace (Z.log2 m + 1 - 1) with (Z.log2 m) by lia.
  apply Z.log2_spec. exact H.
Qed.

Lemma Zdigits2_le (m k : Z) : 0 <= k -> 0 <= m < 2 ^ k -> Zdigits2 m <= k.
Proof.
  intros Hk [H0 Hm]. destruct (Z.eq_dec m 0) as [->|Hnz]; [cbn; lia|].
  rewrite Zdigits2_log2 by lia.
  enough (Z.log2 m < k) by lia. apply Z.log2_lt_pow2; lia.
Qed.

Lemma Zdigits2_ge (m k : Z) : 1 <= k -> 2 ^ (k - 1) <= m -> k <= Zdigits2 m.
Proof.
  intros Hk Hm.
  assert (0 < m) by (pose proof (Z.pow_pos_nonneg 2 (k - 1)); lia).
  rewrite Zdigits2_log2 by lia.
  enough (k - 1 <= Z.log2 m) by lia. apply Z.log2_le_pow2; lia.
Qed.

Lemma Zdigits2_mono (m n : Z) : 0 <= m <= n -> Zdigits2 m <= Zdigits2 n.
Proof.
  intros [H0 Hmn]. destruct (Z.eq_dec m 0) as [->|Hnz].
  - apply Zdigits2_nonneg.
  - rewrite !Zdigits2_log2 by lia.
    pose proof (Z.log2_le_mono m n Hmn). lia.
Qed.

Lemma Zdigits2_succ (m : Z) : 0 <= m -> Zdigits2 (m + 1) <= Zdigits2 m + 1.
Proof.
  intros H. destruct (Z.eq_dec m 0) as [->|Hnz]; [cbn; lia|].
  apply Zdigits2_le; [pose proof (@Zdigits2_nonneg m); lia|].
  pose proof (@Zdigits2_bounds m ltac:(lia)) as [_ Hup].
  rewrite Z.pow_add_r by (pose proof (@Zdigits2_nonneg m); lia). lia.
Qed.

(** The digits of a product and of a shifted number. *)
Lemma Zdigits2_mul (a b : Z) :
  0 < a -> 0 < b ->
  Zdigits2 a + Zdigits2 b - 1 <= Zdigits2 (a * b) <= Zdigits2 a + Zdigits2 b.
Proof.
  intros Ha Hb. rewrite !Zdigits2_log2 by nia.
  pose proof (Z.log2_mul_below a b Ha Hb).
  pose proof (Z.log2_mul_above a b ltac:(lia) ltac:(lia)). lia.
Qed.

Lemma Zdigits2_shift (a n : Z) :
  0 < a -> 0 <= n -> Zdigits2 (a * 2 ^ n) = Zdigits2 a + n.
Proof.
  intros Ha Hn.
  assert (0 < 2 ^ n) by (apply Z.pow_pos_nonneg; lia).
  rewrite !Zdigits2_log2 by nia.
  rewrite Z.log2_mul_pow2 by lia. lia.
Qed.

Lemma Zdigits2_div_pow2 (m n : Z) :
  0 <= m -> 0 <= n -> Zdigits2 (m / 2 ^ n) = Z.max 0 (Zdigits2 m - n).
Proof.
  intros Hm Hn.
  assert (Hp : 0 < 2 ^ n) by (apply Z.pow_pos_nonneg; lia).
  destruct (Z.eq_dec m 0) as [->|Hnz].
  { rewrite Z.div_0_l by lia. cbn. lia. }
  pose proof (@Zdigits2_bounds m ltac:(lia)) as [Hlow Hup].
  pose proof (@Zdigits2_pos m ltac:(lia)) as Hd.
  destruct (Z_lt_le_dec (Zdigits2 m) (n + 1)) as [Hsmall|Hbig].
  - assert (m < 2 ^ n).
    { apply (Z.lt_le_trans _ _ _ Hup). apply Z.pow_le_mono_r; lia. }
    rewrite Z.div_small by lia. cbn. lia.
  - assert (Hq : 2 ^ (Zdigits2 m - n - 1) <= m / 2 ^ n < 2 ^ (Zdigits2 m - n)).
    { split.
      - apply Z.div_le_lower_bound; [lia|].
        rewrite <- Z.pow_add_r by lia.
        replace (n + (Zdigits2 m - n - 1)) with (Zdigits2 m - 1) by lia. exact Hlow.
      - apply Z.div_lt_upper_bound; [lia|].
        rewrite <- Z.pow_add_r by lia.
        replace (n + (Zdigits2 m - n)) with (Zdigits2 m) by lia. exact Hup. }
    assert (Zdigits2 (m / 2 ^ n) <= Zdigits2 m - n)
      by (apply Zdigits2_le; [lia|split; [apply Z.div_pos; lia|apply Hq]]).
    assert (Zdigits2 m - n <= Zdigits2 (m / 2 ^ n))
      by (apply Zdigits2_ge; [lia|];
          replace (Zdigits2 m - n - 1) with (Zdigits2 m - n - 1) by lia; apply Hq).
    lia.
Qed.

(** One step of the right shift halves the mantissa. *)
Lemma shr_1_spec (mrs : shr_record) :
  0 <= shr_m mrs -> shr_m (shr_1 mrs) = shr_m mrs / 2.
Proof.
  destruct mrs as [m r s]. cbn [shr_m]. intros Hm.
  destruct m as [|p|p]; [reflexivity| |lia].
  destruct p as [p|p|]; cbn [shr_1 shr_m].
  - apply (Z.div_unique (Z.pos p~1) 2 (Z.pos p) 1); lia.
  - apply (Z.div_unique (Z.pos p~0) 2 (Z.pos p) 0); lia.
  - reflexivity.
Qed.

Lemma iter_shr_1_spec (n : positive) :
  forall mrs, 0 <= shr_m mrs ->
  shr_m (SpecFloat.iter_pos shr_1 n mrs) = shr_m mrs / 2 ^ Z.pos n.
Proof.
  assert (Hhalf : forall m, 0 <= m -> 0 <= m / 2)
    by (intros; apply Z.div_pos; lia).
  assert (Hpow : forall m k, 0 <= m -> 0 <= k -> 0 <= m / 2 ^ k).
  { intros m k Hm Hk. apply Z.div_pos; [lia|apply Z.pow_pos_nonneg; lia]. }
  induction n as [n IH|n IH|]; intros mrs Hm; cbn [SpecFloat.iter_pos].
  - assert (H1 : 0 <= shr_m (shr_1 mrs)) by (rewrite shr_1_spec; auto).
    assert (H2 : 0 <= shr_m (SpecFloat.iter_pos shr_1 n (shr_1 mrs)))
      by (rewrite (IH _ H1); apply Hpow; [exact H1|lia]).
    rewrite (IH _ H2), (IH _ H1), shr_1_spec by exact Hm.
    rewrite !Z.div_div
      by (try lia; try (apply Z.pow_pos_nonneg; lia);
          apply Z.pow_nonzero; lia).
    f_equal. rewrite Pos2Z.inj_xI.
    replace (2 * Z.pos n + 1) with (1 + Z.pos n + Z.pos n) by lia.
    rewrite !Z.pow_add_r by lia. rewrite Z.pow_1_r. ring.
  - assert (H2 : 0 <= shr_m (SpecFloat.iter_pos shr_1 n mrs))
      by (rewrite (IH _ Hm); apply Hpow; [exact Hm|lia]).
    rewrite (IH _ H2), (IH _ Hm).
    rewrite !Z.div_div
      by (try (apply Z.pow_pos_nonneg; lia); apply Z.pow_nonzero; lia).
    f_equal. rewrite Pos2Z.inj_xO, <- Z.pow_add_r by lia. f_equal. lia.
  - rewrite shr_1_spec by exact Hm. reflexivity.
Qed.

Lemma loc_of_record (m : Z) (l : location) :
  loc_of_shr_record (shr_record_of_loc m l) = l
  /\ shr_m (shr_record_of_loc m l) = m.
Proof. destruct l as [|[]]; split; reflexivity. Qed.

(** The first half of the rounding: the mantissa is cut to the working
    precision. *)
Lemma shr_fexp_spec (m e : Z) (l : location) :
  0 <= m ->
  let d := Zdigits2 m + e in
  let r := shr_fexp prec emax m e l in
  0 <= shr_m (fst r)
  /\ snd r = Z.max e (fexp prec emax d)
  /\ Zdigits2 (shr_m (fst r)) = Z.max 0 (d - snd r).
Proof.
  intros Hm d r. unfold r, shr_fexp. fold d.
  destruct (@loc_of_record m l) as [_ Hrec].
  pose proof (@Zdigits2_nonneg m) as Hd.
  unfold shr. destruct (fexp prec emax d - e) as [|n|n] eqn:Hn; cbn [fst snd].
  - rewrite Hrec. repeat split; [exact Hm|lia|unfold d; lia].
  - rewrite iter_shr_1_spec, Hrec by (rewrite Hrec; exact Hm).
    repeat split.
    + apply Z.div_pos; [lia|apply Z.pow_pos_nonneg; lia].
    + lia.
    + rewrite Zdigits2_div_pow2 by lia. unfold d. lia.
  - rewrite Hrec. repeat split; [exact Hm|lia|unfold d; lia].
Qed.

Lemma round_nearest_even_spec (m : Z) (l : location) :
  m <= round_nearest_even m l <= m + 1.
Proof.
  destruct l as [|[]]; cbn; try lia. destruct (Z.even m); lia.
Qed.

(** The rounding of a mantissa that is not negative: never a NaN, and of the
    sign asked.  With [d] the exponent of the magnitude of the input, the
    result is below [2 ^ (d + 1)] when that does not overflow, and at least
    [2 ^ (d - 1)] when the input is not zero and that does not underflow. *)
Lemma binary_round_aux_spec (s : bool) (m e : Z) (l : location) :
  0 <= m ->
  let d := Zdigits2 m + e in
  let x := binary_round_aux prec emax s m e l in
  (x = S754_zero s \/ x = S754_infinity s \/ exists m' e', x = S754_finite s m' e')
  /\ (forall k, d <= k -> -1074 <= k -> k <= 1023 -> e <= 971 ->
      below (k + 1) x = true)
  /\ (forall k, 0 < m -> k <= d -> -1073 <= k -> above k x = true).
Proof.
  intros Hm d x. unfold x, binary_round_aux.
  pose proof (@shr_fexp_spec m e l Hm) as H1. cbv zeta in H1. fold d in H1.
  destruct (shr_fexp prec emax m e l) as [mrs1 e1]. cbn [fst snd] in H1.
  destruct H1 as (Hm1 & He1 & Hd1).
  set (m2 := round_nearest_even (shr_m mrs1) (loc_of_shr_record mrs1)).
  pose proof (@round_nearest_even_spec (shr_m mrs1) (loc_of_shr_record mrs1)) as Hm2.
  fold m2 in Hm2.
  assert (Hm2' : 0 <= m2) by lia.
  pose proof (@shr_fexp_spec m2 e1 loc_Exact Hm2') as H3. cbv zeta in H3.
  destruct (shr_fexp prec emax m2 e1 loc_Exact) as [mrs3 e3]. cbn [fst snd] in H3.
  destruct H3 as (Hm3 & He3 & Hd3).
  pose proof (@Zdigits2_mono (shr_m mrs1) m2 ltac:(lia)) as Hmono.
  pose proof (@Zdigits2_succ (shr_m mrs1) Hm1) as Hsucc.
  pose proof (@Zdigits2_mono m2 (shr_m mrs1 + 1) ltac:(lia)) as Hmono'.
  rewrite !fexp_64 in *.
  pose proof (@Zdigits2_nonneg m) as Hdm.
  destruct (shr_m mrs3) as [|p|p] eqn:Hp; [| |lia].
  - split; [left; reflexivity|]. split; [intros; reflexivity|].
    intros k Hpos Hk Hlow. exfalso.
    pose proof (@Zdigits2_pos m Hpos). cbn [Zdigits2] in Hd3. unfold d in *. lia.
  - change (Zdigits2 (Z.pos p)) with (Z.pos (digits2_pos p)) in Hd3.
    destruct (e3 <=? emax - prec) eqn:Hfin.
    + split; [right; right; eauto|]. split.
      * intros k Hk Hlow Hhigh He. cbn [below]. apply Z.leb_le. lia.
      * intros k Hpos Hk Hlow. cbn [above]. apply Z.leb_le.
        pose proof (@Zdigits2_pos m Hpos). unfold d in *. lia.
    + split; [right; left; reflexivity|]. split; [|intros; reflexivity].
      intros k Hk Hlow Hhigh He. exfalso.
      apply Z.leb_gt in Hfin. change (emax - prec) with 971 in Hfin. lia.
Qed.

(** *** Valid numbers *)

Lemma valid_finite (s : bool) (m : positive) (e : Z) :
  valid_binary (S754_finite s m e) = true ->
  e = Z.max (Z.pos (digits2_pos m) + e - 53) (-1074) /\ e <= 971.
Proof.
  cbn [SpecFloat.valid_binary]. unfold SpecFloat.bounded, canonical_mantissa.
  rewrite andb_true_iff, Z.eqb_eq, Z.leb_le, fexp_64.
  change (emax - prec) with 971. lia.
Qed.

Lemma below_mono (j k : Z) (x : spec_float) :
  j <= k -> below j x = true -> below k x = true.
Proof.
  intros Hjk. destruct x as [s|s| |s m e]; cbn [below]; try easy.
  rewrite !Z.leb_le. lia.
Qed.

Lemma above_mono (j k : Z) (x : spec_float) :
  k <= j -> above j x = true -> above k x = true.
Proof.
  intros Hjk. destruct x as [s|s| |s m e]; cbn [above]; try easy.
  rewrite !Z.leb_le. lia.
Qed.

(** *** Multiplication *)

Lemma SFmul_below (a b : Z) (x y : spec_float) :
  valid_binary x = true -> valid_binary y = true ->
  below a x = true -> below b y = true ->
  -1074 <= a + b <= 1023 ->
  below (a + b + 1) (SFmul prec emax x y) = true.
Proof.
  intros Vx Vy Hx Hy Hk.
  destruct x as [sx|sx| |sx mx ex]; try discriminate Hx;
    destruct y as [sy|sy| |sy my ey]; try discriminate Hy; try reflexivity.
  cbn [SFmul]. cbn [below] in Hx, Hy. apply Z.leb_le in Hx, Hy.
  apply valid_finite in Vx, Vy.
  pose proof (@Zdigits2_mul (Z.pos mx) (Z.pos my) ltac:(lia) ltac:(lia)) as Hd.
  rewrite <- Pos2Z.inj_mul in Hd. cbn [Zdigits2] in Hd.
  apply (@binary_round_aux_spec (xorb sx sy) (Z.pos (mx * my)) (ex + ey) loc_Exact
           ltac:(lia)); cbn [Zdigits2]; lia.
Qed.

Lemma SFmul_above (a b : Z) (x y : spec_float) :
  above a x = true -> above b y = true ->
  -1073 <= a + b - 1 ->
  above (a + b - 1) (SFmul prec emax x y) = true.
Proof.
  intros Hx Hy Hk.
  destruct x as [sx|sx| |sx mx ex]; try discriminate Hx;
    destruct y as [sy|sy| |sy my ey]; try discriminate Hy; try reflexivity.
  cbn [SFmul]. cbn [above] in Hx, Hy. apply Z.leb_le in Hx, Hy.
  pose proof (@Zdigits2_mul (Z.pos mx) (Z.pos my) ltac:(lia) ltac:(lia)) as Hd.
  rewrite <- Pos2Z.inj_mul in Hd. cbn [Zdigits2] in Hd.
  apply (@binary_round_aux_spec (xorb sx sy) (Z.pos (mx * my)) (ex + ey) loc_Exact
           ltac:(lia)); cbn [Zdigits2]; lia.
Qed.

Lemma binary_round_aux_nonneg (m e : Z) (l : location) :
  0 <= m -> nonneg (binary_round_aux prec emax false m e l) = true.
Proof.
  intros Hm.
  destruct (@binary_round_aux_spec false m e l Hm) as ([->|[->|(m' & e' & ->)]] & _);
    reflexivity.
Qed.

(** The product of a positive finite number and a number that is not negative
    is not negative. *)
Lemma SFmul_nonneg (j k : Z) (x y : spec_float) :
  nonneg x = true -> above j x = true -> below k x = true ->
  nonneg y = true ->
  nonneg (SFmul prec emax x y) = true.
Proof.
  intros Hx Hj Hk Hy.
  destruct x as [sx|sx| |sx mx ex]; try discriminate Hj; try discriminate Hk.
  destruct y as [sy|sy| |sy my ey]; try discriminate Hy;
    cbn [nonneg] in Hx, Hy; cbn [SFmul nonneg];
    destruct sx; try discriminate Hx; try (destruct sy; try discriminate Hy);
    try reflexivity.
  apply binary_round_aux_nonneg. lia.
Qed.

(** *** Addition and subtraction *)

Lemma shl_align_spec (m : positive) (e e' : Z) :
  Z.pos (fst (shl_align m e e')) = Z.pos m * 2 ^ (e - snd (shl_align m e e'))
  /\ snd (shl_align m e e') = Z.min e e'.
Proof.
  unfold shl_align. destruct (e' - e) as [|d|d] eqn:Hd; cbn [fst snd].
  - rewrite Z.sub_diag. cbn. lia.
  - rewrite Z.sub_diag. cbn. lia.
  - replace (e - e') with (Z.pos d) by lia. split; [|lia].
    rewrite <- Z.shiftl_mul_pow2 by lia. cbn [Z.shiftl].
    apply (Pos.iter_swap_gen _ _ Z.pos xO (Z.mul 2)). reflexivity.
Qed.

Lemma binary_round_spec (s : bool) (m : positive) (e : Z) :
  let d := Z.pos (digits2_pos m) + e in
  let x := binary_round prec emax s m e in
  (x = S754_zero s \/ x = S754_infinity s \/ exists m' e', x = S754_finite s m' e')
  /\ (forall k, d <= k -> -1074 <= k -> k <= 1023 -> below (k + 1) x = true)
  /\ (forall k, k <= d -> -1073 <= k -> above k x = true).
Proof.
  intros d x. unfold x, binary_round.
  destruct (@shl_align_spec m e (fexp prec emax (Z.pos (digits2_pos m) + e)))
    as [Hm He].
  destruct (shl_align m e _) as [mz ez]. cbn [fst snd] in Hm, He.
  fold d in He. rewrite fexp_64 in He.
  assert (Hd : Zdigits2 (Z.pos mz) + ez = d).
  { rewrite Hm, Zdigits2_shift by lia. cbn [Zdigits2]. unfold d. lia. }
  pose proof (@binary_round_aux_spec s (Z.pos mz) ez loc_Exact ltac:(lia))
    as (Hkind & Hbelow & Habove).
  cbv zeta in Hbelow, Habove. rewrite Hd in Hbelow, Habove.
  split; [exact Hkind|]. split.
  - intros k Hk Hlow Hhigh. apply Hbelow; lia.
  - intros k Hk Hlow. apply Habove; lia.
Qed.

(** The sum of the aligned mantissas, for either sign of each. *)
Lemma aligned_sum_digits (a b : Z) (da db : Z) :
  0 < a -> 0 < b -> Zdigits2 a <= da -> Zdigits2 b <= db ->
  forall z, Z.abs z <= a + b -> Zdigits2 (Z.abs z) <= Z.max da db + 1.
Proof.
  intros Ha Hb Hda Hdb z Hz.
  pose proof (@Zdigits2_bounds a Ha) as [_ Hua].
  pose proof (@Zdigits2_bounds b Hb) as [_ Hub].
  pose proof (@Zdigits2_pos a Ha). pose proof (@Zdigits2_pos b Hb).
  apply Zdigits2_le; [lia|]. split; [lia|].
  assert (2 ^ Zdigits2 a <= 2 ^ Z.max da db) by (apply Z.pow_le_mono_r; lia).
  assert (2 ^ Zdigits2 b <= 2 ^ Z.max da db) by (apply Z.pow_le_mono_r; lia).
  rewrite Z.pow_add_r by lia. lia.
Qed.

Lemma binary_normalize_below (z e k : Z) :
  Zdigits2 (Z.abs z) + e <= k -> -1074 <= k -> k <= 1023 ->
  below (k + 1) (binary_normalize prec emax z e false) = true.
Proof.
  intros Hd Hlow Hhigh. unfold binary_normalize.
  destruct z as [|p|p]; [reflexivity| |];
    cbn [Z.abs Zdigits2] in Hd;
    apply (@binary_round_spec _ p e); lia.
Qed.

Lemma SFadd_below (a b : Z) (x y : spec_float) :
  below a x = true -> below b y = true ->
  -1074 <= Z.max a b + 1 <= 1023 ->
  below (Z.max a b + 2) (SFadd prec emax x y) = true.
Proof.
  intros Hx Hy Hk.
  destruct x as [sx|sx| |sx mx ex]; try discriminate Hx;
    destruct y as [sy|sy| |sy my ey]; try discriminate Hy.
  - cbn [SFadd]. destruct sx, sy; reflexivity.
  - cbn [SFadd]. revert Hy. apply below_mono. lia.
  - cbn [SFadd]. revert Hx. apply below_mono. lia.
  - cbn [SFadd]. cbn [below] in Hx, Hy. apply Z.leb_le in Hx, Hy.
    set (ez := Z.min ex ey).
    destruct (@shl_align_spec mx ex ez) as [Hmx Hex].
    destruct (@shl_align_spec my ey ez) as [Hmy Hey].
    set (A := Z.pos (fst (shl_align mx ex ez))) in *.
    set (B := Z.pos (fst (shl_align my ey ez))) in *.
    replace (snd (shl_align mx ex ez)) with ez in Hmx by (unfold ez in *; lia).
    replace (snd (shl_align my ey ez)) with ez in Hmy by (unfold ez in *; lia).
    assert (HdA : Zdigits2 A = Z.pos (digits2_pos mx) + (ex - ez))
      by (rewrite Hmx, Zdigits2_shift by (unfold ez; lia); reflexivity).
    assert (HdB : Zdigits2 B = Z.pos (digits2_pos my) + (ey - ez))
      by (rewrite Hmy, Zdigits2_shift by (unfold ez; lia); reflexivity).
    replace (Z.max a b + 2) with (Z.max a b + 1 + 1) by lia.
    apply binary_normalize_below; [|lia|lia].
    assert (Hsum : Z.abs (cond_Zopp sx A + cond_Zopp sy B) <= A + B)
      by (unfold cond_Zopp, A, B; destruct sx, sy; lia).
    pose proof (@aligned_sum_digits A B (a - ez) (b - ez)
                  ltac:(unfold A; lia) ltac:(unfold B; lia)
                  ltac:(lia) ltac:(lia) _ Hsum).
    lia.
Qed.

Lemma SFsub_below (a b : Z) (x y : spec_float) :
  below a x = true -> below b y = true ->
  -1074 <= Z.max a b + 1 <= 1023 ->
  below (Z.max a b + 2) (SFsub prec emax x y) = true.
Proof.
  intros Hx Hy Hk.
  destruct x as [sx|sx| |sx mx ex]; try discriminate Hx;
    destruct y as [sy|sy| |sy my ey]; try discriminate Hy.
  - cbn [SFsub]. destruct sx, sy; reflexivity.
  - cbn [SFsub below] in *. rewrite Z.leb_le in *. lia.
  - cbn [SFsub]. revert Hx. apply below_mono. lia.
  - cbn [SFsub]. cbn [below] in Hx, Hy. apply Z.leb_le in Hx, Hy.
    set (ez := Z.min ex ey).
    destruct (@shl_align_spec mx ex ez) as [Hmx Hex].
    destruct (@shl_align_spec my ey ez) as [Hmy Hey].
    set (A := Z.pos (fst (shl_align mx ex ez))) in *.
    set (B := Z.pos (fst (shl_align my ey ez))) in *.
    replace (snd (shl_align mx ex ez)) with ez in Hmx by (unfold ez in *; lia).
    replace (snd (shl_align my ey ez)) with ez in Hmy by (unfold ez in *; lia).
    assert (HdA : Zdigits2 A = Z.pos (digits2_pos mx) + (ex - ez))
      by (rewrite Hmx, Zdigits2_shift by (unfold ez; lia); reflexivity).
    assert (HdB : Zdigits2 B = Z.pos (digits2_pos my) + (ey - ez))
      by (rewrite Hmy, Zdigits2_shift by (unfold ez; lia); reflexivity).
    replace (Z.max a b + 2) with (Z.max a b + 1 + 1) by lia.
    apply binary_normalize_below; [|lia|lia].
    assert (Hsum : Z.abs (cond_Zopp sx A - cond_Zopp sy B) <= A + B)
      by (unfold cond_Zopp, A, B; destruct sx, sy; lia).
    pose proof (@aligned_sum_digits A B (a - ez) (b - ez)
                  ltac:(unfold A; lia) ltac:(unfold B; lia)
                  ltac:(lia) ltac:(lia) _ Hsum).
    lia.
Qed.

(** The sum of two numbers that are not negative is not negative. *)
Lemma SFadd_nonneg (x y : spec_float) :
  nonneg x = true -> nonneg y = true ->
  nonneg (SFadd prec emax x y) = true.
Proof.
  intros Hx Hy.
  destruct x as [sx|sx| |sx mx ex]; try discriminate Hx;
    destruct y as [sy|sy| |sy my ey]; try discriminate Hy;
    cbn [nonneg] in Hx, Hy; cbn [SFadd];
    try (destruct sx; try discriminate Hx);
    try (destruct sy; try discriminate Hy); try reflexivity.
  cbn [cond_Zopp]. unfold binary_normalize.
  match goal with |- context [(Z.pos ?a + Z.pos ?b)%Z] =>
    change (Z.pos a + Z.pos b) with (Z.pos (a + b)) end.
  cbv beta iota.
  destruct (@binary_round_spec false (fst (shl_align mx ex (Z.min ex ey))
                                     + fst (shl_align my ey (Z.min ex ey)))
              (Z.min ex ey)) as ([->|[->|(m' & e' & ->)]] & _); reflexivity.
Qed.

(** *** Division *)

Lemma SFdiv_core_spec (m1 m2 : positive) (e1 e2 : Z) :
  let E1 := Z.pos (digits2_pos m1) + e1 in
  let E2 := Z.pos (digits2_pos m2) + e2 in
  let r := SFdiv_core_binary prec emax (Z.pos m1) e1 (Z.pos m2) e2 in
  let q := fst (fst r) in
  let e' := snd (fst r) in
  0 <= q
  /\ e' <= Z.max (E1 - E2 - 53) (-1074)
  /\ Zdigits2 q + e' <= Z.max (E1 - E2 + 1) e'
  /\ (-1073 <= E1 - E2 -> 0 < q /\ E1 - E2 <= Zdigits2 q + e').
Proof.
  intros E1 E2 r q e'. unfold q, e', r, SFdiv_core_binary. clear q e' r.
  cbn [Zdigits2]. fold E1 E2. rewrite fexp_64.
  set (e' := Z.min (Z.max (E1 - E2 - 53) (-1074)) (e1 - e2)).
  set (s := e1 - e2 - e').
  assert (Hs : 0 <= s) by (unfold s, e'; lia).
  set (m' := match s with
             | 0 => Z.pos m1
             | Z.pos _ => Z.shiftl (Z.pos m1) s
             | Z.neg _ => 0
             end).
  assert (Hm' : m' = Z.pos m1 * 2 ^ s).
  { unfold m'. destruct s as [|p|p]; [cbn; lia| |lia].
    apply Z.shiftl_mul_pow2. lia. }
  pose proof (Z_div_mod m' (Z.pos m2) ltac:(lia)) as Hdiv.
  destruct (Z.div_eucl m' (Z.pos m2)) as [q r]. cbn [fst snd].
  destruct Hdiv as [Hq Hr].
  assert (HD : Zdigits2 m' = Z.pos (digits2_pos m1) + s)
    by (rewrite Hm', Zdigits2_shift by lia; reflexivity).
  assert (Hpos' : 0 < m').
  { rewrite Hm'. apply Z.mul_pos_pos; [lia|apply Z.pow_pos_nonneg; lia]. }
  pose proof (@Zdigits2_bounds m' Hpos') as [Hlow' Hup']. rewrite HD in Hlow', Hup'.
  pose proof (@Zdigits2_bounds (Z.pos m2) ltac:(lia)) as [Hlow2 Hup2].
  cbn [Zdigits2] in Hlow2, Hup2.
  set (d1 := Z.pos (digits2_pos m1)) in *. set (d2 := Z.pos (digits2_pos m2)) in *.
  assert (Hq0 : 0 <= q) by nia.
  split; [exact Hq0|]. split; [unfold e'; lia|]. split.
  - destruct (Z_lt_le_dec (d1 + s - d2 + 1) 0) as [Hneg|Hnn].
    + assert (m' < Z.pos m2).
      { apply (Z.lt_le_trans _ _ _ Hup'). apply (Z.le_trans _ (2 ^ (d2 - 1))); [|lia].
        apply Z.pow_le_mono_r; lia. }
      assert (q = 0) by nia. subst q. cbn [Zdigits2]. lia.
    + assert (Hlt : q < 2 ^ (d1 + s - d2 + 1)).
      { apply Z.lt_nge. intros Hge.
        assert (2 ^ (d2 - 1) * 2 ^ (d1 + s - d2 + 1) <= Z.pos m2 * q)
          by (apply Z.mul_le_mono_nonneg; try lia; apply Z.pow_nonneg; lia).
        rewrite <- Z.pow_add_r in H by lia.
        replace (d2 - 1 + (d1 + s - d2 + 1)) with (d1 + s) in H by lia. lia. }
      pose proof (@Zdigits2_le q (d1 + s - d2 + 1) Hnn (conj Hq0 Hlt)).
      unfold s in *. unfold E1, E2. lia.
  - intros Hnorm.
    assert (Hi : 0 <= d1 + s - d2 - 1) by (unfold s, e', E1, E2 in *; lia).
    assert (Hge : 2 ^ (d1 + s - d2 - 1) <= q).
    { apply Z.lt_succ_r. apply Z.nle_gt. intros Hle.
      assert (Z.pos m2 * (q + 1) <= 2 ^ d2 * 2 ^ (d1 + s - d2 - 1))
        by (apply Z.mul_le_mono_nonneg; lia).
      rewrite <- Z.pow_add_r in H by lia.
      replace (d2 + (d1 + s - d2 - 1)) with (d1 + s - 1) in H by lia. lia. }
    assert (0 < 2 ^ (d1 + s - d2 - 1)) by (apply Z.pow_pos_nonneg; lia).
    split; [lia|].
    pose proof (@Zdigits2_ge q (d1 + s - d2) ltac:(lia)
                  ltac:(replace (d1 + s - d2 - 1) with (d1 + s - d2 - 1) by lia;
                        exact Hge)).
    unfold s in *. unfold E1, E2. lia.
Qed.

Lemma SFdiv_finite (sx sy : bool) (mx my : positive) (ex ey : Z) :
  let r := SFdiv_core_binary prec emax (Z.pos mx) ex (Z.pos my) ey in
  SFdiv prec emax (S754_finite sx mx ex) (S754_finite sy my ey)
  = binary_round_aux prec emax (xorb sx sy) (fst (fst r)) (snd (fst r)) (snd r).
Proof.
  cbn [SFdiv]. destruct (SFdiv_core_binary _ _ _ _ _ _) as [[q e'] l]. reflexivity.
Qed.

(** The quotient of a number below [2 ^ a] by one that is at least
    [2 ^ (b - 1)] is below [2 ^ (a - b + 2)]. *)
Lemma SFdiv_below (a b : Z) (x y : spec_float) :
  below a x = true -> above b y = true ->
  -1074 <= a - b + 1 <= 1023 ->
  below (a - b + 2) (SFdiv prec emax x y) = true.
Proof.
  intros Hx Hy Hk.
  destruct x as [sx|sx| |sx mx ex]; try discriminate Hx;
    destruct y as [sy|sy| |sy my ey]; try discriminate Hy; try reflexivity.
  rewrite SFdiv_finite. cbn [below above] in Hx, Hy. apply Z.leb_le in Hx, Hy.
  pose proof (@SFdiv_core_spec mx my ex ey) as (Hq & He & Hd & _).
  cbv zeta in Hq, He, Hd.
  replace (a - b + 2) with (a - b + 1 + 1) by lia.
  apply binary_round_aux_spec; lia.
Qed.

(** The quotient of a number that is at least [2 ^ (a - 1)] by a nonzero
    number below [2 ^ b] is at least [2 ^ (a - b - 1)]. *)
Lemma SFdiv_above (a b j : Z) (x y : spec_float) :
  above a x = true -> below b y = true -> above j y = true ->
  -1073 <= a - b ->
  above (a - b) (SFdiv prec emax x y) = true.
Proof.
  intros Hx Hy Hj Hk.
  destruct x as [sx|sx| |sx mx ex]; try discriminate Hx;
    destruct y as [sy|sy| |sy my ey]; try discriminate Hy; try discriminate Hj;
    try reflexivity.
  rewrite SFdiv_finite. cbn [below above] in Hx, Hy. apply Z.leb_le in Hx, Hy.
  pose proof (@SFdiv_core_spec mx my ex ey) as (Hq & He & Hd & Hlow).
  cbv zeta in Hq, He, Hd, Hlow. destruct (Hlow ltac:(lia)) as [Hpos Hge].
  apply binary_round_aux_spec; lia.
Qed.

(** The quotient of a number that is not negative by a positive one is not
    negative, unless both are infinite. *)
Lemma SFdiv_nonneg (j : Z) (x y : spec_float) :
  nonneg x = true -> nonneg y = true -> above j y = true ->
  (exists k, below k x = true) \/ (exists k, below k y = true) ->
  nonneg (SFdiv prec emax x y) = true.
Proof.
  intros Hx Hy Hj Hfin.
  destruct x as [sx|sx| |sx mx ex]; try discriminate Hx;
    destruct y as [sy|sy| |sy my ey]; try discriminate Hy; try discriminate Hj;
    cbn [nonneg] in Hx, Hy;
    try (destruct sx; try discriminate Hx);
    try (destruct sy; try discriminate Hy); try reflexivity.
  - destruct Hfin as [[k H]|[k H]]; discriminate H.
  - rewrite SFdiv_finite. apply binary_round_aux_nonneg.
    apply (@SFdiv_core_spec mx my ex ey).
Qed.

(** *** The square root *)

Lemma SFsqrt_core_spec (m : positive) (e : Z) :
  let E := Z.pos (digits2_pos m) + e in
  let r := SFsqrt_core_binary prec emax (Z.pos m) e in
  let q := fst (fst r) in
  let e' := snd (fst r) in
  0 <= q
  /\ e' <= Z.max ((E + 1) / 2 - 53) (-1074)
  /\ Zdigits2 q + e' <= (E + 1) / 2.
Proof.
  intros E r q e'. unfold q, e', r, SFsqrt_core_binary. clear q e' r.
  cbn [Zdigits2]. rewrite fexp_64, !Z.div2_div.
  replace (Z.pos (digits2_pos m) + e + 1) with (E + 1) by (unfold E; lia).
  set (e' := Z.min (Z.max ((E + 1) / 2 - 53) (-1074)) (e / 2)).
  set (s := e - 2 * e').
  pose proof (Z.div_mod e 2 ltac:(lia)) as Hmod.
  pose proof (Z.mod_pos_bound e 2 ltac:(lia)) as Hbound.
  assert (Hs : 0 <= s) by (unfold s, e'; lia).
  set (m' := match s with
             | 0 => Z.pos m
             | Z.pos _ => Z.shiftl (Z.pos m) s
             | Z.neg _ => 0
             end).
  assert (Hm' : m' = Z.pos m * 2 ^ s).
  { unfold m'. destruct s as [|p|p]; [cbn; lia| |lia].
    apply Z.shiftl_mul_pow2. lia. }
  assert (Hpos' : 0 < m').
  { rewrite Hm'. apply Z.mul_pos_pos; [lia|apply Z.pow_pos_nonneg; lia]. }
  pose proof (Z.sqrtrem_spec m' ltac:(lia)) as Hsqrt.
  destruct (Z.sqrtrem m') as [q r]. cbn [fst snd].
  destruct Hsqrt as [Hq Hr].
  assert (HD : Zdigits2 m' = Z.pos (digits2_pos m) + s)
    by (rewrite Hm', Zdigits2_shift by lia; reflexivity).
  pose proof (@Zdigits2_bounds m' Hpos') as [_ Hup']. rewrite HD in Hup'.
  set (d := Z.pos (digits2_pos m)) in *.
  assert (Hq0 : 0 <= q) by lia.
  split; [exact Hq0|]. split; [unfold e'; lia|].
  set (j := (d + s + 1) / 2).
  pose proof (Z.div_mod (d + s + 1) 2 ltac:(lia)) as Hj.
  pose proof (Z.mod_pos_bound (d + s + 1) 2 ltac:(lia)) as Hjb.
  fold j in Hj.
  assert (Hj0 : 0 <= j) by (unfold d in *; lia).
  assert (Hlt : q < 2 ^ j).
  { apply Z.lt_nge. intros Hge.
    assert (0 < 2 ^ j) by (apply Z.pow_pos_nonneg; lia).
    assert (2 ^ j * 2 ^ j <= q * q) by (apply Z.mul_le_mono_nonneg; lia).
    rewrite <- Z.pow_add_r in H0 by lia.
    assert (2 ^ (d + s) <= 2 ^ (j + j)) by (apply Z.pow_le_mono_r; lia).
    lia. }
  pose proof (@Zdigits2_le q j Hj0 (conj Hq0 Hlt)).
  enough (j + e' = (E + 1) / 2) by lia.
  unfold j, s. replace (d + (e - 2 * e') + 1) with (E + 1 + (- e') * 2)
    by (unfold E, d; lia).
  rewrite Z.div_add by lia. lia.
Qed.

Lemma SFsqrt_finite (m : positive) (e : Z) :
  let r := SFsqrt_core_binary prec emax (Z.pos m) e in
  SFsqrt prec emax (S754_finite false m e)
  = binary_round_aux prec emax false (fst (fst r)) (snd (fst r)) (snd r).
Proof.
  cbn [SFsqrt]. destruct (SFsqrt_core_binary _ _ _ _) as [[q e'] l]. reflexivity.
Qed.

Lemma SFsqrt_below (a : Z) (x : spec_float) :
  nonneg x = true -> below a x = true ->
  -1074 <= (a + 1) / 2 <= 1023 ->
  below ((a + 1) / 2 + 1) (SFsqrt prec emax x) = true.
Proof.
  intros Hx Ha Hk.
  destruct x as [sx|sx| |sx mx ex]; try discriminate Ha; [reflexivity|].
  cbn [nonneg] in Hx. destruct sx; [discriminate Hx|].
  rewrite SFsqrt_finite. cbn [below] in Ha. apply Z.leb_le in Ha.
  pose proof (@SFsqrt_core_spec mx ex) as (Hq & He & Hd). cbv zeta in Hq, He, Hd.
  assert ((Z.pos (digits2_pos mx) + ex + 1) / 2 <= (a + 1) / 2)
    by (apply Z.div_le_mono; lia).
  apply binary_round_aux_spec; lia.
Qed.

Lemma SFsqrt_nonneg (x : spec_float) :
  nonneg x = true -> nonneg (SFsqrt prec emax x) = true.
Proof.
  intros Hx.
  destruct x as [sx|sx| |sx mx ex]; try discriminate Hx;
    cbn [nonneg] in Hx; try (destruct sx; try discriminate Hx); try reflexivity.
  rewrite SFsqrt_finite. apply binary_round_aux_nonneg.
  apply (@SFsqrt_core_spec mx ex).
Qed.

(** *** Opposite and absolute value *)

Lemma SFopp_below (k : Z) (x : spec_float) : below k (SFopp x) = below k x.
Proof. destruct x; reflexivity. Qed.

Lemma SFabs_below (k : Z) (x : spec_float) : below k (SFabs x) = below k x.
Proof. destruct x; reflexivity. Qed.

Lemma SFopp_above (k : Z) (x : spec_float) : above k (SFopp x) = above k x.
Proof. destruct x; reflexivity. Qed.

Lemma SFabs_above (k : Z) (x : spec_float) : above k (SFabs x) = above k x.
Proof. destruct x; reflexivity. Qed.

Lemma SFabs_nonneg (x : spec_float) :
  x <> S754_nan -> nonneg (SFabs x) = true.
Proof. destruct x; intros H; try reflexivity. contradiction. Qed.

(** The square of a number is not negative. *)
Lemma SFsquare_nonneg (x : spec_float) :
  x <> S754_nan -> nonneg (SFmul prec emax x x) = true.
Proof.
  destruct x as [s|s| |s m e]; intros H; try contradiction; cbn [SFmul nonneg];
    rewrite ?xorb_nilpotent; try reflexivity.
  apply binary_round_aux_nonneg. lia.
Qed.

Lemma below_not_nan (k : Z) (x : spec_float) : below k x = true -> x <> S754_nan.
Proof. intros H ->. discriminate H. Qed.

Lemma nonneg_not_nan (x : spec_float) : nonneg x = true -> x <> S754_nan.
Proof. intros H ->. discriminate H. Qed.

(** *** Comparisons *)

Lemma nonneg_leb (x : spec_float) : SFleb (S754_zero false) x = nonneg x.
Proof. destruct x as [s|s| |s m e]; try destruct s; reflexivity. Qed.

Lemma SFcompare_antisym (x y : spec_float) :
  SFcompare y x = option_map CompOpp (SFcompare x y).
Proof.
  destruct x as [sx|sx| |sx mx ex], y as [sy|sy| |sy my ey];
    try destruct sx; try destruct sy; try reflexivity; cbn [SFcompare option_map];
    rewrite (Z.compare_antisym ex ey);
    destruct (ex ?= ey)%Z; cbn [CompOpp]; try reflexivity;
    change (Pos.compare_cont Eq my mx) with (my ?= mx)%positive;
    change (Pos.compare_cont Eq mx my) with (mx ?= my)%positive;
    rewrite (Pos.compare_antisym mx my); destruct (mx ?= my)%positive; reflexivity.
Qed.

Lemma SFltb_false_leb (x y : spec_float) :
  x <> S754_nan -> y <> S754_nan -> SFltb x y = false -> SFleb y x = true.
Proof.
  intros Hx Hy. unfold SFltb, SFleb. rewrite (@SFcompare_antisym x y).
  destruct (SFcompare x y) as [[]|] eqn:Hc; cbn; try easy.
  destruct x, y; try contradiction; cbn in Hc; try discriminate Hc;
    repeat match type of Hc with context [if ?b then _ else _] => destruct b end;
    discriminate Hc.
Qed.

Lemma SFleb_false_ltb (x y : spec_float) :
  x <> S754_nan -> y <> S754_nan -> SFleb x y = false -> SFltb y x = true.
Proof.
  intros Hx Hy. unfold SFltb, SFleb. rewrite (@SFcompare_antisym x y).
  destruct (SFcompare x y) as [[]|] eqn:Hc; cbn; try easy.
  destruct x, y; try contradiction; cbn in Hc; try discriminate Hc;
    repeat match type of Hc with context [if ?b then _ else _] => destruct b end;
    discriminate Hc.
Qed.

Lemma SFltb_leb (x y : spec_float) : SFltb x y = true -> SFleb x y = true.
Proof. unfold SFltb, SFleb. destruct (SFcompare x y) as [[]|]; easy. Qed.

Lemma digits2_mono (a b : positive) :
  (a <= b)%positive -> Z.pos (digits2_pos a) <= Z.pos (digits2_pos b).
Proof.
  intros H. apply (@Zdigits2_mono (Z.pos a) (Z.pos b)). lia.
Qed.

(** A number whose magnitude is at most a bound below [2 ^ k] is below
    [2 ^ k]. *)
Lemma SFleb_below (k : Z) (x b : spec_float) :
  valid_binary x = true -> valid_binary b = true ->
  SFleb (SFabs x) b = true -> below k b = true -> below k x = true.
Proof.
  intros Vx Vb Hle Hb.
  destruct b as [sb|sb| |sb mb eb]; try discriminate Hb;
    destruct x as [sx|sx| |sx mx ex]; try reflexivity;
    unfold SFleb in Hle; cbn [SFabs SFcompare] in Hle; try discriminate Hle.
  apply valid_finite in Vx, Vb. cbn [below] in *. rewrite Z.leb_le in *.
  destruct sb; [discriminate Hle|].
  destruct (ex ?= eb)%Z eqn:He.
  - apply Z.compare_eq in He. subst eb.
    change (Pos.compare_cont Eq mx mb) with (mx ?= mb)%positive in Hle.
    assert (mx <= mb)%positive
      by (unfold Pos.le; destruct (mx ?= mb)%positive; easy).
    pose proof (@digits2_mono _ _ H). lia.
  - change (ex < eb) in He. lia.
  - discriminate Hle.
Qed.

(** A number that is at least a positive bound of at least [2 ^ (k - 1)] is
    at least [2 ^ (k - 1)], and positive. *)
Lemma SFleb_above (k : Z) (b x : spec_float) :
  valid_binary b = true -> valid_binary x = true ->
  nonneg b = true -> above k b = true -> SFleb b x = true ->
  above k x = true /\ nonneg x = true.
Proof.
  intros Vb Vx Hb Hk Hle.
  destruct b as [sb|sb| |sb mb eb]; try discriminate Hk;
    cbn [nonneg] in Hb; destruct sb; try discriminate Hb;
    destruct x as [sx|sx| |sx mx ex]; try destruct sx;
    unfold SFleb in Hle; cbn [SFcompare] in Hle; try discriminate Hle;
    try (split; reflexivity).
  apply valid_finite in Vx, Vb. cbn [above nonneg negb] in *.
  split; [|reflexivity]. rewrite Z.leb_le in *.
  destruct (eb ?= ex)%Z eqn:He.
  - apply Z.compare_eq in He. subst eb.
    change (Pos.compare_cont Eq mb mx) with (mb ?= mx)%positive in Hle.
    assert (mb <= mx)%positive
      by (unfold Pos.le; destruct (mb ?= mx)%positive; easy).
    pose proof (@digits2_mono _ _ H). lia.
  - change (eb < ex) in He. lia.
  - discriminate Hle.
Qed.

Lemma SFcompare_opp (x y : spec_float) :
  SFcompare (SFopp x) (SFopp y) = SFcompare y x.
Proof.
  rewrite (SFcompare_antisym x y).
  destruct x as [sx|sx| |sx mx ex], y as [sy|sy| |sy my ey];
    try destruct sx; try destruct sy; try reflexivity;
    cbn [SFopp negb SFcompare option_map];
    destruct (ex ?= ey)%Z; cbn [CompOpp]; try reflexivity;
    destruct (Pos.compare_cont Eq mx my); reflexivity.
Qed.

(** A number between the opposite of a bound and the bound has a magnitude
    of at most the bound. *)
Lemma SFleb_abs (x b : spec_float) :
  SFleb (SFopp b) x = true -> SFleb x b = true -> SFleb (SFabs x) b = true.
Proof.
  intros Hlow Hhigh.
  destruct x as [sx|sx| |sx mx ex]; try exact Hhigh.
  - destruct sx; [|exact Hhigh]. unfold SFleb in *.
    change (S754_infinity true) with (SFopp (S754_infinity false)) in Hlow.
    rewrite SFcompare_opp in Hlow. exact Hlow.
  - destruct sx; [|exact Hhigh]. unfold SFleb in *.
    change (S754_finite true mx ex) with (SFopp (S754_finite false mx ex)) in Hlow.
    rewrite SFcompare_opp in Hlow. exact Hlow.
Qed.

(** A number that is not negative and at most a bound below [2 ^ k] is below
    [2 ^ k]. *)
Lemma SFleb_below_nonneg (k : Z) (x b : spec_float) :
  valid_binary x = true -> valid_binary b = true ->
  nonneg x = true -> SFleb x b = true -> below k b = true -> below k x = true.
Proof.
  intros Vx Vb Hx Hle Hb.
  apply (@SFleb_below k x b Vx Vb); [|exact Hb].
  destruct x as [sx|sx| |sx mx ex]; try discriminate Hx; try exact Hle;
    cbn [nonneg] in Hx; destruct sx; try discriminate Hx; try exact Hle.
Qed.

Lemma digits2_lt (a b : positive) :
  Z.pos (digits2_pos a) < Z.pos (digits2_pos b) -> (a < b)%positive.
Proof.
  intros H. apply Pos.lt_nle. intros Hle.
  pose proof (@digits2_mono _ _ Hle). lia.
Qed.

(** A number below [2 ^ k] has a magnitude of at most any bound that is at
    least [2 ^ k]. *)
Lemma SFbelow_leb (k : Z) (x b : spec_float) :
  valid_binary x = true -> valid_binary b = true ->
  below k x = true -> nonneg b = true -> above (k + 1) b = true ->
  SFleb (SFabs x) b = true.
Proof.
  intros Vx Vb Hx Hb Hk.
  destruct b as [sb|sb| |sb mb eb]; try discriminate Hk;
    cbn [nonneg] in Hb; destruct sb; try discriminate Hb;
    destruct x as [sx|sx| |sx mx ex]; try discriminate Hx; try reflexivity.
  apply valid_finite in Vx, Vb. cbn [below above] in *. rewrite Z.leb_le in *.
  unfold SFleb. cbn [SFabs SFcompare].
  destruct (ex ?= eb)%Z eqn:He.
  - apply Z.compare_eq in He. subst eb.
    change (Pos.compare_cont Eq mx mb) with (mx ?= mb)%positive.
    assert (Hlt : (mx < mb)%positive) by (apply digits2_lt; lia).
    unfold Pos.lt in Hlt. rewrite Hlt. reflexivity.
  - reflexivity.
  - change (ex > eb) in He. lia.
Qed.

(** Sums and differences are NaN only when both operands are infinite. *)
Lemma binary_normalize_not_nan (z e : Z) (s : bool) :
  binary_normalize prec emax z e s <> S754_nan.
Proof.
  unfold binary_normalize. destruct z as [|p|p]; [discriminate| |];
    match goal with |- binary_round _ _ ?s ?p ?e <> _ =>
      destruct (@binary_round_spec s p e) as ([H|[H|(m' & e' & H)]] & _);
      rewrite H; discriminate
    end.
Qed.

Lemma SFsub_not_nan (k : Z) (x y : spec_float) :
  x <> S754_nan -> below k y = true -> SFsub prec emax x y <> S754_nan.
Proof.
  intros Hx Hy.
  destruct y as [sy|sy| |sy my ey]; try discriminate Hy;
    destruct x as [sx|sx| |sx mx ex]; try contradiction; cbn [SFsub];
    try discriminate.
  - destruct sx, sy; discriminate.
  - apply binary_normalize_not_nan.
Qed.

Lemma SFadd_not_nan (k : Z) (x y : spec_float) :
  x <> S754_nan -> below k y = true -> SFadd prec emax x y <> S754_nan.
Proof.
  intros Hx Hy.
  destruct y as [sy|sy| |sy my ey]; try discriminate Hy;
    destruct x as [sx|sx| |sx mx ex]; try contradiction; cbn [SFadd];
    try discriminate.
  - destruct sx, sy; discriminate.
  - apply binary_normalize_not_nan.
Qed.

Lemma SFleb_not_nan (x y : spec_float) :
  SFleb x y = true -> x <> S754_nan /\ y <> S754_nan.
Proof.
  intros H. destruct x, y; try discriminate H; split; discriminate.
Qed.

(** A number below [2 ^ k] is at most any bound that is at least [2 ^ k]. *)
Lemma SFbelow_leb_signed (k : Z) (x b : spec_float) :
  valid_binary x = true -> valid_binary b = true ->
  below k x = true -> nonneg b = true -> above (k + 1) b = true ->
  SFleb x b = true.
Proof.
  intros Vx Vb Hx Hb Hk.
  pose proof (@SFbelow_leb k x b Vx Vb Hx Hb Hk) as Habs.
  destruct x as [sx|sx| |sx mx ex]; try discriminate Hx; try exact Habs.
  destruct sx; [|exact Habs].
  destruct b as [sb|sb| |sb mb eb]; try discriminate Hk;
    cbn [nonneg] in Hb; destruct sb; try discriminate Hb; reflexivity.
Qed.

(** Two numbers that compare equal are the same number, or two zeros. *)
Lemma SFeqb_true (x y : spec_float) :
  SFeqb x y = true ->
  x = y \/ exists s s', x = S754_zero s /\ y = S754_zero s'.
Proof.
  unfold SFeqb.
  destruct x as [sx|sx| |sx mx ex], y as [sy|sy| |sy my ey];
    try destruct sx; try destruct sy; cbn [SFcompare]; intros H;
    try discriminate H;
    try (left; reflexivity); try (right; eauto; fail);
    (destruct (ex ?= ey)%Z eqn:He; try discriminate H;
     apply Z.compare_eq in He; subst ey;
     change (Pos.compare_cont Eq mx my) with (mx ?= my)%positive in H;
     destruct (mx ?= my)%positive eqn:Hm; try discriminate H;
     apply Pos.compare_eq in Hm; subst my; left; reflexivity).
Qed.

Lemma SFleb_refl (x : spec_float) : x <> S754_nan -> SFleb x x = true.
Proof.
  unfold SFleb.
  destruct x as [s|s| |s m e]; try destruct s; intros H; try reflexivity;
    try contradiction; cbn [SFcompare];
    rewrite Z.compare_refl, Pos.compare_cont_refl; reflexivity.
Qed.

(** *** Integers as numbers *)

Lemma binary_normalize_nonneg (z e : Z) :
  0 <= z -> nonneg (binary_normalize prec emax z e false) = true.
Proof.
  intros Hz. unfold binary_normalize. destruct z as [|p|p]; [reflexivity| |lia].
  destruct (@binary_round_spec false p e) as ([->|[->|(m' & e' & ->)]] & _);
    reflexivity.
Qed.

Lemma binary_normalize_above (z e k : Z) :
  0 < z -> k <= Zdigits2 z + e -> -1073 <= k ->
  above k (binary_normalize prec emax z e false) = true.
Proof.
  intros Hz Hk Hlow. unfold binary_normalize. destruct z as [|p|p]; try lia.
  cbn [Zdigits2] in Hk. apply (@binary_round_spec false p e); lia.
Qed.

(** *** What a comparison tells of the greater number *)

Lemma SFltb_positive (x y : spec_float) :
  valid_binary y = true -> nonneg x = true -> SFltb x y = true ->
  nonneg y = true /\ above (-1073) y = true.
Proof.
  intros Vy Hx Hlt. unfold SFltb in Hlt.
  destruct x as [sx|sx| |sx mx ex]; try discriminate Hx;
    cbn [nonneg] in Hx; try (destruct sx; try discriminate Hx);
    destruct y as [sy|sy| |sy my ey]; try destruct sy;
    cbn [SFcompare] in Hlt; try discriminate Hlt;
    try (split; reflexivity);
    (split; [reflexivity|]; apply valid_finite in Vy; cbn [above];
     apply Z.leb_le;
     pose proof (@Zdigits2_pos (Z.pos my) ltac:(lia)) as Hd;
     cbn [Zdigits2] in Hd; lia).
Qed.

(** A positive multiple of a number is positive only when the number is. *)
Lemma SFmul_positive_inv (j k i : Z) (c y : spec_float) :
  valid_binary y = true ->
  nonneg c = true -> above j c = true -> below k c = true ->
  nonneg (SFmul prec emax c y) = true -> above i (SFmul prec emax c y) = true ->
  nonneg y = true /\ above (-1073) y = true.
Proof.
  intros Vy Hc Hj Hk Hpos Hi.
  destruct c as [sc|sc| |sc mc ec]; try discriminate Hj; try discriminate Hk.
  cbn [nonneg] in Hc. destruct sc; [discriminate Hc|].
  destruct y as [sy|sy| |sy my ey]; cbn [SFmul xorb] in Hpos, Hi;
    try discriminate Hi; try discriminate Hpos.
  - cbn [nonneg] in *. split; [exact Hpos|reflexivity].
  - assert (Hs : sy = false).
    { destruct (@binary_round_aux_spec sy (Z.pos (mc * my)) (ec + ey) loc_Exact
                  ltac:(lia)) as ([H|[H|(m' & e' & H)]] & _);
        rewrite H in Hpos, Hi; cbn [nonneg above] in Hpos, Hi;
        try discriminate Hi; destruct sy; try discriminate Hpos; reflexivity. }
    subst sy. split; [reflexivity|].
    apply valid_finite in Vy. cbn [above]. apply Z.leb_le.
    pose proof (@Zdigits2_pos (Z.pos my) ltac:(lia)) as Hd.
    cbn [Zdigits2] in Hd. lia.
Qed.

(** A finite number other than zero lies between two consecutive powers of
    two. *)
Lemma finite_magnitude (j k : Z) (x : spec_float) :
  valid_binary x = true -> above j x = true -> below k x = true ->
  exists a, -1073 <= a <= 1024 /\ above a x = true /\ below a x = true.
Proof.
  intros Vx Hj Hk.
  destruct x as [sx|sx| |sx mx ex]; try discriminate Hj; try discriminate Hk.
  apply valid_finite in Vx. exists (Z.pos (digits2_pos mx) + ex).
  cbn [above below]. rewrite !Z.leb_refl.
  pose proof (@Zdigits2_pos (Z.pos mx) ltac:(lia)) as Hd. cbn [Zdigits2] in Hd.
  repeat split; lia.
Qed.

End Rounding.

(** The same for the primitive operations on [float]. *)

Section Binary64Numbers.

Local Open Scope Z_scope.

Lemma mul_below (a b : Z) (x y : float) :
  below a (Prim2SF x) = true -> below b (Prim2SF y) = true ->
  -1074 <= a + b <= 1023 ->
  below (a + b + 1) (Prim2SF (PrimFloat.mul x y)) = true.
Proof.
  intros. rewrite mul_spec. apply SFmul_below; auto using Prim2SF_valid.
Qed.

Lemma add_below (a b : Z) (x y : float) :
  below a (Prim2SF x) = true -> below b (Prim2SF y) = true ->
  -1074 <= Z.max a b + 1 <= 1023 ->
  below (Z.max a b + 2) (Prim2SF (PrimFloat.add x y)) = true.
Proof. intros. rewrite add_spec. apply SFadd_below; auto. Qed.

Lemma sub_below (a b : Z) (x y : float) :
  below a (Prim2SF x) = true -> below b (Prim2SF y) = true ->
  -1074 <= Z.max a b + 1 <= 1023 ->
  below (Z.max a b + 2) (Prim2SF (PrimFloat.sub x y)) = true.
Proof. intros. rewrite sub_spec. apply SFsub_below; auto. Qed.

Lemma div_below (a b : Z) (x y : float) :
  below a (Prim2SF x) = true -> above b (Prim2SF y) = true ->
  -1074 <= a - b + 1 <= 1023 ->
  below (a - b + 2) (Prim2SF (PrimFloat.div x y)) = true.
Proof. intros. rewrite div_spec. apply SFdiv_below; auto. Qed.

Lemma div_above (a b j : Z) (x y : float) :
  above a (Prim2SF x) = true -> below b (Prim2SF y) = true -> above j (Prim2SF y) = true ->
  -1073 <= a - b ->
  above (a - b) (Prim2SF (PrimFloat.div x y)) = true.
Proof. intros. rewrite div_spec. apply (@SFdiv_above a b j); auto. Qed.

Lemma sqrt_below (a : Z) (x : float) :
  nonneg (Prim2SF x) = true -> below a (Prim2SF x) = true ->
  -1074 <= (a + 1) / 2 <= 1023 ->
  below ((a + 1) / 2 + 1) (Prim2SF (PrimFloat.sqrt x)) = true.
Proof. intros. rewrite sqrt_spec. apply SFsqrt_below; auto. Qed.

Lemma opp_below (k : Z) (x : float) :
  below k (Prim2SF x) = true -> below k (Prim2SF (PrimFloat.opp x)) = true.
Proof. intros. rewrite opp_spec, SFopp_below. assumption. Qed.

Lemma abs_below (k : Z) (x : float) :
  below k (Prim2SF x) = true -> below k (Prim2SF (PrimFloat.abs x)) = true.
Proof. intros. rewrite abs_spec, SFabs_below. assumption. Qed.

Lemma add_nonneg (x y : float) :
  nonneg (Prim2SF x) = true -> nonneg (Prim2SF y) = true ->
  nonneg (Prim2SF (PrimFloat.add x y)) = true.
Proof. intros. rewrite add_spec. apply SFadd_nonneg; auto. Qed.

Lemma mul_nonneg (j k : Z) (x y : float) :
  nonneg (Prim2SF x) = true -> above j (Prim2SF x) = true -> below k (Prim2SF x) = true ->
  nonneg (Prim2SF y) = true ->
  nonneg (Prim2SF (PrimFloat.mul x y)) = true.
Proof. intros. rewrite mul_spec. apply (@SFmul_nonneg j k); auto. Qed.

Lemma square_nonneg (x : float) :
  Prim2SF x <> S754_nan -> nonneg (Prim2SF (PrimFloat.mul x x)) = true.
Proof. intros. rewrite mul_spec. apply SFsquare_nonneg; auto. Qed.

Lemma div_nonneg (j : Z) (x y : float) :
  nonneg (Prim2SF x) = true -> nonneg (Prim2SF y) = true -> above j (Prim2SF y) = true ->
  (exists k, below k (Prim2SF x) = true) \/ (exists k, below k (Prim2SF y) = true) ->
  nonneg (Prim2SF (PrimFloat.div x y)) = true.
Proof. intros. rewrite div_spec. apply (@SFdiv_nonneg j); auto. Qed.

Lemma sqrt_nonneg (x : float) :
  nonneg (Prim2SF x) = true -> nonneg (Prim2SF (PrimFloat.sqrt x)) = true.
Proof. intros. rewrite sqrt_spec. apply SFsqrt_nonneg; auto. Qed.

Lemma abs_nonneg (x : float) :
  Prim2SF x <> S754_nan -> nonneg (Prim2SF (PrimFloat.abs x)) = true.
Proof. intros. rewrite abs_spec. apply SFabs_nonneg; auto. Qed.

(** Comparisons with zero and with a bound. *)
Lemma leb_zero (x : float) : PrimFloat.leb 0 x = nonneg (Prim2SF x).
Proof. rewrite leb_spec. apply nonneg_leb. Qed.

Lemma ltb_zero (x : float) :
  PrimFloat.ltb 0 x = true ->
  nonneg (Prim2SF x) = true /\ above (-1073) (Prim2SF x) = true.
Proof.
  rewrite ltb_spec. change (Prim2SF 0) with (S754_zero false).
  pose proof (Prim2SF_valid x) as V.
  destruct (Prim2SF x) as [s|s| |s m e]; try destruct s; try discriminate;
    intros _; split; try reflexivity.
  apply valid_finite in V. cbn [above]. apply Z.leb_le.
  pose proof (@Zdigits2_pos (Z.pos m) ltac:(lia)). cbn [Zdigits2] in H. lia.
Qed.

Lemma leb_below (k : Z) (x b : float) :
  PrimFloat.leb (PrimFloat.abs x) b = true -> below k (Prim2SF b) = true ->
  below k (Prim2SF x) = true.
Proof.
  rewrite leb_spec, abs_spec. intros.
  apply (@SFleb_below k (Prim2SF x) (Prim2SF b)); auto using Prim2SF_valid.
Qed.

Lemma leb_above (k : Z) (b x : float) :
  PrimFloat.leb b x = true -> nonneg (Prim2SF b) = true -> above k (Prim2SF b) = true ->
  above k (Prim2SF x) = true /\ nonneg (Prim2SF x) = true.
Proof.
  rewrite leb_spec. intros.
  apply (@SFleb_above k (Prim2SF b) (Prim2SF x)); auto using Prim2SF_valid.
Qed.

Lemma is_nan_spec (x : float) :
  PrimFloat.is_nan x = false <-> Prim2SF x <> S754_nan.
Proof.
  unfold PrimFloat.is_nan. rewrite FloatAxioms.eqb_spec. unfold SFeqb.
  destruct (Prim2SF x) as [s|s| |s m e]; try destruct s; cbn;
    rewrite ?Z.compare_refl, ?Pos.compare_cont_refl; cbn; split; try easy.
Qed.

Lemma is_infinity_spec (x : float) :
  PrimFloat.is_infinity x = true
  <-> exists s, Prim2SF x = S754_infinity s.
Proof.
  unfold PrimFloat.is_infinity. rewrite FloatAxioms.eqb_spec, abs_spec. unfold SFeqb.
  change (Prim2SF infinity) with (S754_infinity false).
  destruct (Prim2SF x) as [s|s| |s m e]; cbn; split; try easy;
    try (intros [s' H]; discriminate H); eauto.
Qed.

(** A number below a power of two is neither a NaN nor an infinity. *)
Lemma below_is_finite (L : Libm) (k : Z) (x : float) :
  below k (Prim2SF x) = true -> @is_finite float (binary64 L) x = true.
Proof.
  intros H. unfold is_finite. cbn [is_nan is_inf binary64].
  assert (Hnan : PrimFloat.is_nan x = false)
    by (apply is_nan_spec; intros E; rewrite E in H; discriminate H).
  assert (Hinf : PrimFloat.is_infinity x = false).
  { destruct (PrimFloat.is_infinity x) eqn:E; [|reflexivity].
    apply is_infinity_spec in E as [s E]. rewrite E in H. discriminate H. }
  rewrite Hnan, Hinf. reflexivity.
Qed.

Lemma is_finite_below (L : Libm) (x : float) :
  @is_finite float (binary64 L) x = true -> below 1024 (Prim2SF x) = true.
Proof.
  unfold is_finite. cbn [is_nan is_inf binary64].
  rewrite negb_true_iff, orb_false_iff. intros [Hnan Hinf].
  apply is_nan_spec in Hnan.
  pose proof (Prim2SF_valid x) as V.
  destruct (Prim2SF x) as [s|s| |s m e] eqn:E; try reflexivity; try contradiction.
  - assert (PrimFloat.is_infinity x = true) by (apply is_infinity_spec; eauto).
    congruence.
  - apply valid_finite in V. cbn [below]. apply Z.leb_le. lia.
Qed.

Lemma ltb_false_leb (x y : float) :
  Prim2SF x <> S754_nan -> Prim2SF y <> S754_nan ->
  PrimFloat.ltb x y = false -> PrimFloat.leb y x = true.
Proof. rewrite ltb_spec, leb_spec. apply SFltb_false_leb. Qed.

Lemma ltb_leb (x y : float) :
  PrimFloat.ltb x y = true -> PrimFloat.leb x y = true.
Proof. rewrite ltb_spec, leb_spec. apply SFltb_leb. Qed.

Lemma above_not_zero (j : Z) (x : float) :
  above j (Prim2SF x) = true -> PrimFloat.eqb x 0 = false.
Proof.
  rewrite FloatAxioms.eqb_spec. change (Prim2SF 0) with (S754_zero false).
  destruct (Prim2SF x) as [s|s| |s m e]; try destruct s; try discriminate; reflexivity.
Qed.

Lemma leb_abs (x b : float) :
  PrimFloat.leb (PrimFloat.opp b) x = true -> PrimFloat.leb x b = true ->
  PrimFloat.leb (PrimFloat.abs x) b = true.
Proof. rewrite !leb_spec, opp_spec, abs_spec. apply SFleb_abs. Qed.

Lemma leb_below_nonneg (k : Z) (x b : float) :
  nonneg (Prim2SF x) = true -> PrimFloat.leb x b = true ->
  below k (Prim2SF b) = true -> below k (Prim2SF x) = true.
Proof.
  rewrite leb_spec. intros.
  apply (@SFleb_below_nonneg k (Prim2SF x) (Prim2SF b)); auto using Prim2SF_valid.
Qed.

Lemma below_leb (k : Z) (x b : float) :
  below k (Prim2SF x) = true -> nonneg (Prim2SF b) = true ->
  above (k + 1) (Prim2SF b) = true ->
  PrimFloat.leb (PrimFloat.abs x) b = true.
Proof.
  rewrite leb_spec, abs_spec. intros.
  apply (@SFbelow_leb k (Prim2SF x) (Prim2SF b)); auto using Prim2SF_valid.
Qed.

Lemma sub_not_nan (k : Z) (x y : float) :
  Prim2SF x <> S754_nan -> below k (Prim2SF y) = true ->
  Prim2SF (PrimFloat.sub x y) <> S754_nan.
Proof. intros. rewrite sub_spec. apply (@SFsub_not_nan k); auto. Qed.

Lemma add_not_nan (k : Z) (x y : float) :
  Prim2SF x <> S754_nan -> below k (Prim2SF y) = true ->
  Prim2SF (PrimFloat.add x y) <> S754_nan.
Proof. intros. rewrite add_spec. apply (@SFadd_not_nan k); auto. Qed.

Lemma leb_not_nan (x y : float) :
  PrimFloat.leb x y = true -> Prim2SF x <> S754_nan /\ Prim2SF y <> S754_nan.
Proof. rewrite leb_spec. apply SFleb_not_nan. Qed.

Lemma abs_not_nan (x : float) :
  Prim2SF (PrimFloat.abs x) <> S754_nan -> Prim2SF x <> S754_nan.
Proof. rewrite abs_spec. destruct (Prim2SF x); easy. Qed.

Lemma not_infinite (k : Z) (x : float) :
  below k (Prim2SF x) = true -> PrimFloat.is_infinity x = false.
Proof.
  intros H. destruct (PrimFloat.is_infinity x) eqn:E; [|reflexivity].
  apply is_infinity_spec in E as [s E]. rewrite E in H. discriminate H.
Qed.

Lemma below_leb_signed (k : Z) (x b : float) :
  below k (Prim2SF x) = true -> nonneg (Prim2SF b) = true ->
  above (k + 1) (Prim2SF b) = true ->
  PrimFloat.leb x b = true.
Proof.
  rewrite leb_spec. intros.
  apply (@SFbelow_leb_signed k (Prim2SF x) (Prim2SF b)); auto using Prim2SF_valid.
Qed.

(** A number that compares equal to a number that is not zero is that
    number. *)
Lemma eqb_true (x c : float) :
  PrimFloat.eqb x c = true -> PrimFloat.eqb c 0 = false -> x = c.
Proof.
  rewrite !FloatAxioms.eqb_spec. intros Heq Hnz.
  apply Prim2SF_inj.
  destruct (SFeqb_true _ _ Heq) as [H|(s & s' & _ & H)]; [exact H|].
  rewrite H in Hnz. change (Prim2SF 0) with (S754_zero false) in Hnz.
  destruct s'; discriminate Hnz.
Qed.

(** A number that compares equal to zero is a zero. *)
Lemma eqb_zero (x : float) :
  PrimFloat.eqb x 0 = true -> exists s, Prim2SF x = S754_zero s.
Proof.
  rewrite FloatAxioms.eqb_spec. change (Prim2SF 0) with (S754_zero false).
  intros Heq. destruct (SFeqb_true _ _ Heq) as [H|(s & s' & H & _)]; eauto.
Qed.

Lemma leb_refl (x : float) :
  Prim2SF x <> S754_nan -> PrimFloat.leb x x = true.
Proof. rewrite leb_spec. apply SFleb_refl. Qed.

Lemma ltb_positive (x y : float) :
  nonneg (Prim2SF x) = true -> PrimFloat.ltb x y = true ->
  nonneg (Prim2SF y) = true /\ above (-1073) (Prim2SF y) = true.
Proof.
  rewrite ltb_spec. intros. apply (@SFltb_positive (Prim2SF x)); auto using Prim2SF_valid.
Qed.

Lemma mul_positive_inv (j k i : Z) (c y : float) :
  nonneg (Prim2SF c) = true -> above j (Prim2SF c) = true ->
  below k (Prim2SF c) = true ->
  nonneg (Prim2SF (PrimFloat.mul c y)) = true ->
  above i (Prim2SF (PrimFloat.mul c y)) = true ->
  nonneg (Prim2SF y) = true /\ above (-1073) (Prim2SF y) = true.
Proof.
  rewrite mul_spec. intros.
  apply (@SFmul_positive_inv j k i (Prim2SF c)); auto using Prim2SF_valid.
Qed.

Lemma magnitude (j k : Z) (x : float) :
  above j (Prim2SF x) = true -> below k (Prim2SF x) = true ->
  exists a, -1073 <= a <= 1024
            /\ above a (Prim2SF x) = true /\ below a (Prim2SF x) = true.
Proof. intros. apply (@finite_magnitude j k); auto using Prim2SF_valid. Qed.

(** A Python [int] that is not negative, as a number. *)
Lemma float_of_Z_spec (z : Z) :
  0 <= z ->
  Prim2SF (float_of_Z z) = binary_normalize prec emax (z mod Uint63.wB) 0 false.
Proof.
  intros Hz. unfold float_of_Z.
  destruct z as [|p|p]; [| |lia]; rewrite of_uint63_spec, Uint63.of_Z_spec;
    reflexivity.
Qed.

Lemma float_of_Z_nonneg (z : Z) :
  0 <= z ->
  nonneg (Prim2SF (float_of_Z z)) = true
  /\ below 64 (Prim2SF (float_of_Z z)) = true
  /\ (0 < z < 2 ^ 63 -> above 1 (Prim2SF (float_of_Z z)) = true).
Proof.
  intros Hz. rewrite float_of_Z_spec by exact Hz.
  assert (Hw : Uint63.wB = 2 ^ 63) by reflexivity.
  pose proof (Z.mod_pos_bound z Uint63.wB ltac:(rewrite Hw; lia)) as Hmod.
  rewrite Hw in *.
  split; [apply binary_normalize_nonneg; lia|]. split.
  - apply (@binary_normalize_below _ 0 63); try lia.
    rewrite Z.abs_eq by lia.
    pose proof (@Zdigits2_le (z mod 2 ^ 63) 63 ltac:(lia) Hmod). lia.
  - intros Hsmall. rewrite Z.mod_small by lia.
    apply binary_normalize_above; try lia.
    pose proof (@Zdigits2_pos z ltac:(lia)). lia.
Qed.

End Binary64Numbers.

(* ================================================================== *)
(** ** The drag coefficient in binary64 *)

Section DragCoefficient.

Local Open Scope Z_scope.

Variable L : Libm.
Hypothesis HL : Ranged L.

Lemma radians_below (k : Z) (angle : float) :
  below k (Prim2SF angle) = true -> -1000 <= k <= 1000 ->
  below (k - 4) (Prim2SF (@radians float (binary64 L) angle)) = true.
Proof.
  intros Hk Hr. unfold radians. cbn [mul div pi lit binary64].
  replace (k - 4) with (k + -5 + 1) by lia.
  apply mul_below; [exact Hk|closed|lia].
Qed.

(** The square of a moderate number, as the library computes it, is a finite
    number that is not negative. *)
Lemma pow_square (k : Z) (x : float) :
  below k (Prim2SF x) = true -> k <= 128 ->
  nonneg (Prim2SF (libm_pow L x 2)) = true
  /\ below 261 (Prim2SF (libm_pow L x 2)) = true.
Proof.
  intros Hk Hle.
  assert (Hnan : PrimFloat.is_nan x = false)
    by (apply is_nan_spec; apply (@below_not_nan k); exact Hk).
  pose proof (@pow_square_sign L HL x Hnan) as Hsign.
  rewrite leb_zero in Hsign. split; [exact Hsign|].
  apply (@leb_below_nonneg 261 _ 0x1p+260%float Hsign); [|closed].
  apply (pow_square_range HL). apply (@below_leb 128); [|closed|closed].
  revert Hk. apply below_mono. exact Hle.
Qed.

Lemma py_pow_square (k : Z) (x : float) :
  below k (Prim2SF x) = true -> k <= 128 ->
  exists sq, @py_pow float (binary64 L) x (@lit float (binary64 L) 2) = Returned sq
             /\ nonneg (Prim2SF sq) = true.
Proof.
  intros Hk Hle. destruct (@pow_square _ _ Hk Hle) as [Hsign Hbelow].
  unfold py_pow. cbn [pow lit is_inf binary64].
  change (float_lit 2) with 2%float.
  rewrite (@not_infinite _ _ Hbelow). cbn [andb].
  eexists. split; [reflexivity|exact Hsign].
Qed.

(** The angle in radians of an angle of attack between -45 and 45 degrees. *)
Lemma attack_angle_below (angle : float) :
  PrimFloat.leb (-45) angle = true -> PrimFloat.leb angle 45 = true ->
  below 2 (Prim2SF (@radians float (binary64 L) angle)) = true.
Proof.
  intros Hlow Hhigh.
  apply (@radians_below 6); [|lia].
  apply (@leb_below 6 angle 45%float); [|closed].
  apply leb_abs; assumption.
Qed.

(** C5, as the code has it.  In binary64, for every mathematics library
    with results in range, for each of the six shapes, every angle of attack
    between -45 and 45 degrees, every Reynolds number above 0 and every Mach
    number from 0 on (the infinities included), whichever kind of number the
    two are passed as: [get_drag_coefficient] returns a coefficient [c] with
    [0 <= c], provided a Mach number passed as a Python float is at most
    2^100 (so that the square of its excess over 0.8 does not overflow; a
    numpy scalar may be anything from 0 on).  The coefficient can be plus
    infinity, as 24/Re is for the smallest Reynolds numbers. *)
Theorem drag_coefficient_nonnegative
    (reynolds_kind mach_kind : FloatKind) (shape : ObjectType)
    (re ma angle : float) :
  PrimFloat.leb (-45) angle = true -> PrimFloat.leb angle 45 = true ->
  PrimFloat.ltb 0 re = true ->
  PrimFloat.leb 0 ma = true ->
  (mach_kind = python_float -> PrimFloat.leb ma 0x1p+100 = true) ->
  exists c : float,
    @get_drag_coefficient float (binary64 L) reynolds_kind mach_kind
      shape re ma angle = Returned c
    /\ PrimFloat.leb 0 c = true.
Proof.
  intros Hlow Hhigh Hre Hma Hmach.
  pose proof (@attack_angle_below angle Hlow Hhigh) as Hrad.
  destruct (ltb_zero Hre) as [Hre0 Hrej].
  rewrite leb_zero in Hma.
  assert (Hre_nan : Prim2SF re <> S754_nan) by (apply nonneg_not_nan; exact Hre0).
  destruct (@py_pow_square 2 _ Hrad ltac:(lia)) as (sq & Hsq & Hsq0).
  unfold get_drag_coefficient. destruct shape.
  - (* JET *)
    rewrite Hsq. cbn [bind].
    assert (Hwave : exists w,
               (if @ltb float (binary64 L) (@lit float (binary64 L) 0.8) ma
                then bind (@kind_pow float (binary64 L) mach_kind
                             (@sub float (binary64 L) ma (@lit float (binary64 L) 0.8))
                             (@lit float (binary64 L) 2))
                          (fun w => Returned (@mul float (binary64 L)
                                                (@lit float (binary64 L) 0.05) w))
                else Returned (@lit float (binary64 L) 0)) = Returned w
               /\ nonneg (Prim2SF w) = true).
    { cbn [ltb lit sub mul binary64].
      destruct (PrimFloat.ltb (float_lit 0.8) ma); [|eexists; split; [reflexivity|closed]].
      destruct mach_kind; cbn [kind_pow].
      - specialize (Hmach eq_refl).
        assert (Hma100 : below 101 (Prim2SF ma) = true)
          by (apply (@leb_below_nonneg 101 ma 0x1p+100%float Hma Hmach); closed).
        assert (Hdiff : below 103 (Prim2SF (PrimFloat.sub ma (float_lit 0.8))) = true)
          by (apply (@sub_below 101 0); [exact Hma100|closed|lia]).
        destruct (@py_pow_square 103 _ Hdiff ltac:(lia)) as (w & Hw & Hw0).
        cbn [lit binary64] in Hw. rewrite Hw. cbn [bind].
        eexists. split; [reflexivity|].
        apply (@mul_nonneg (-4) (-4)); try closed. exact Hw0.
      - cbn [bind pow lit binary64]. eexists. split; [reflexivity|].
        apply (@mul_nonneg (-4) (-4)); try closed.
        rewrite <- leb_zero. apply (pow_square_sign HL).
        apply is_nan_spec. apply (@sub_not_nan 0); [|closed].
        apply nonneg_not_nan. exact Hma. }
    destruct Hwave as (w & -> & Hw0). cbn [bind].
    eexists. split; [reflexivity|]. rewrite leb_zero.
    cbn [add mul lit binary64].
    apply add_nonneg; [apply add_nonneg; [closed|]|exact Hw0].
    apply (@mul_nonneg (-3) (-3)); try closed. exact Hsq0.
  - (* SPHERE *)
    cbn [ltb lit binary64].
    assert (Hdiv : forall c : float,
               nonneg (Prim2SF c) = true -> below 10 (Prim2SF c) = true ->
               exists q, @kind_div float (binary64 L) reynolds_kind c re = Returned q
                         /\ q = PrimFloat.div c re
                         /\ nonneg (Prim2SF q) = true).
    { intros c Hc0 Hc.
      exists (PrimFloat.div c re). split; [|split; [reflexivity|]].
      - destruct reynolds_kind; cbn [kind_div]; [|reflexivity].
        unfold py_div. cbn [eqb lit div binary64].
        change (float_lit 0) with 0%float.
        rewrite (@above_not_zero _ _ Hrej). reflexivity.
      - apply (@div_nonneg (-1073)); try assumption. left. eauto. }
    destruct (PrimFloat.ltb re (float_lit 1)) eqn:Hone.
    + destruct (Hdiv (float_lit 24)) as (q & -> & _ & Hq0); try closed.
      eexists. split; [reflexivity|]. rewrite leb_zero. exact Hq0.
    + destruct (PrimFloat.ltb re (float_lit 1000)) eqn:Hthousand;
        [|eexists; split; [reflexivity|closed]].
      destruct (Hdiv (float_lit 24)) as (q & -> & -> & Hq0); try closed.
      cbn [bind].
      assert (Hre1 : PrimFloat.leb 1 re = true)
        by (apply ltb_false_leb; [exact Hre_nan|discriminate|exact Hone]).
      destruct (@leb_above 1 1%float re Hre1 ltac:(closed) ltac:(closed)) as [Hre_above _].
      assert (Hre_below : below 10 (Prim2SF re) = true).
      { apply (@leb_below_nonneg 10 re (float_lit 1000) Hre0); [|closed].
        apply ltb_leb. exact Hthousand. }
      destruct (@pow_root_range L HL re (float_lit 0.687) Hre1 ltac:(closed) ltac:(closed))
        as [Hp0 Hpre].
      rewrite leb_zero in Hp0.
      assert (Hp : below 10 (Prim2SF (libm_pow L re (float_lit 0.687))) = true)
        by (apply (@leb_below_nonneg 10 _ re Hp0 Hpre); exact Hre_below).
      assert (Hpow : @kind_pow float (binary64 L) reynolds_kind re
                       (float_lit 0.687)
                     = Returned (libm_pow L re (float_lit 0.687))).
      { destruct reynolds_kind; cbn [kind_pow]; [|reflexivity].
        unfold py_pow. cbn [pow lit is_inf binary64].
        rewrite (@not_infinite _ _ Hp). reflexivity. }
      rewrite Hpow. cbn [bind].
      eexists. split; [reflexivity|]. rewrite leb_zero.
      cbn [add mul lit binary64].
      apply (@mul_nonneg (-5) 6).
      * exact Hq0.
      * replace (-5) with (5 - 10) by lia.
        apply (@div_above 5 10 (-1073)); try assumption; try closed. lia.
      * replace 6 with (5 - 1 + 2) by lia.
        apply div_below; try assumption; try closed. lia.
      * apply add_nonneg; [closed|].
        apply (@mul_nonneg (-2) (-2)); try closed. exact Hp0.
  - (* CYLINDER *)
    cbn [ltb lit mul pi binary64].
    destruct (PrimFloat.ltb re (float_lit 1)).
    + destruct reynolds_kind; cbn [kind_div].
      * unfold py_div. cbn [eqb lit div binary64].
        change (float_lit 0) with 0%float.
        rewrite (@above_not_zero _ _ Hrej).
        eexists. split; [reflexivity|]. rewrite leb_zero.
        apply (@div_nonneg (-1073)); try assumption; try closed.
        left. exists 5. closed.
      * eexists. split; [reflexivity|]. rewrite leb_zero. cbn [div binary64].
        apply (@div_nonneg (-1073)); try assumption; try closed.
        left. exists 5. closed.
    + repeat match goal with
             | |- context [if ?b then _ else _] => destruct b
             end; eexists; (split; [reflexivity|closed]).
  - (* CUBE *)
    unfold math_sin. cbn [is_inf mul lit sin abs add binary64].
    assert (Hdouble : below 5 (Prim2SF (PrimFloat.mul (float_lit 2)
                                          (@radians float (binary64 L) angle))) = true).
    { replace 5 with (2 + 2 + 1) by lia. apply mul_below; [closed|exact Hrad|lia]. }
    rewrite (@not_infinite _ _ Hdouble). cbn [bind].
    eexists. split; [reflexivity|]. rewrite leb_zero.
    pose proof (@sin_range L HL _
                  (proj2 (is_nan_spec _) (@below_not_nan _ _ Hdouble))
                  (@not_infinite _ _ Hdouble)) as Hsin.
    apply add_nonneg; [closed|].
    apply (@mul_nonneg (-2) (-2)); try closed.
    apply abs_nonneg. apply abs_not_nan. apply (leb_not_nan Hsin).
  - (* AIRFOIL *)
    rewrite Hsq. cbn [bind].
    eexists. split; [reflexivity|]. rewrite leb_zero.
    cbn [add mul lit binary64].
    apply add_nonneg; [closed|].
    apply (@mul_nonneg (-4) (-4)); try closed. exact Hsq0.
  - (* CUSTOM *)
    cbn [lit binary64]. eexists. split; [reflexivity|closed].
Qed.

End DragCoefficient.

Section Coarse.

Local Open Scope Z_scope.

Lemma zero_in_range (x b : float) :
  PrimFloat.eqb x 0 = true -> PrimFloat.leb 0 b = true ->
  PrimFloat.leb (PrimFloat.abs x) b = true.
Proof.
  intros Hx Hb. apply eqb_zero in Hx as [s Hx].
  rewrite leb_spec, abs_spec, Hx. rewrite leb_spec in Hb. exact Hb.
Qed.

(** The coarse library answers in range. *)
Lemma libm_coarse_ranged : Ranged libm_coarse.
Proof.
  split; cbn [libm_sin libm_cos libm_pow libm_atan2 libm_coarse].
  - intros t _ _. destruct (PrimFloat.eqb t 0) eqn:Hzero; [|reflexivity].
    apply zero_in_range; [exact Hzero|reflexivity].
  - reflexivity.
  - intros y x _ _.
    destruct (PrimFloat.eqb y 0 && PrimFloat.ltb 0 x)%bool eqn:Hzero; [|reflexivity].
    apply andb_true_iff in Hzero as [Hzero _].
    apply zero_in_range; [exact Hzero|reflexivity].
  - intros x Hnan. change (PrimFloat.eqb 2 0) with false.
    change (PrimFloat.eqb 2 1) with false. change (PrimFloat.eqb 2 2) with true.
    cbv iota. destruct (PrimFloat.eqb x 1); [reflexivity|].
    rewrite leb_zero. apply square_nonneg. apply is_nan_spec. exact Hnan.
  - intros x Hx. change (PrimFloat.eqb 2 0) with false.
    change (PrimFloat.eqb 2 1) with false. change (PrimFloat.eqb 2 2) with true.
    cbv iota. destruct (PrimFloat.eqb x 1); [reflexivity|].
    apply (@below_leb_signed 259); [|reflexivity|reflexivity].
    assert (Hbelow : below 129 (Prim2SF x) = true)
      by (apply (@leb_below 129 x 0x1p+128%float Hx); reflexivity).
    replace 259 with (129 + 129 + 1) by lia.
    apply mul_below; [exact Hbelow|exact Hbelow|lia].
  - intros x y Hx Hy0 Hy1.
    pose proof (leb_not_nan Hx) as [_ Hx_nan].
    destruct (@leb_above 1 1%float x Hx eq_refl eq_refl) as [_ Hx0].
    rewrite <- leb_zero in Hx0.
    destruct (PrimFloat.eqb y 0); [split; [reflexivity|exact Hx]|].
    destruct (PrimFloat.eqb x 1); [split; [reflexivity|exact Hx]|].
    destruct (PrimFloat.eqb y 1); [split; [exact Hx0|apply leb_refl; exact Hx_nan]|].
    destruct (PrimFloat.eqb y 2) eqn:Htwo.
    { apply eqb_true in Htwo; [|reflexivity]. subst y. discriminate Hy1. }
    destruct (PrimFloat.eqb y 3) eqn:Hthree.
    { apply eqb_true in Hthree; [|reflexivity]. subst y. discriminate Hy1. }
    split; [reflexivity|exact Hx].
Qed.

End Coarse.

(** A jet at Mach 2, at 5 degrees. *)
Lemma drag_coefficient_nonnegative_witness :
  exists c : float,
    @get_drag_coefficient float (binary64 libm_coarse) python_float python_float
      JET 0x1p+20%float 2%float 5%float = Returned c
    /\ PrimFloat.leb 0 c = true.
Proof.
  apply (@drag_coefficient_nonnegative libm_coarse libm_coarse_ranged
           python_float python_float JET 0x1p+20%float 2%float 5%float);
    reflexivity.
Defined.

(** C5 as stated fails for a Mach number passed as a Python float: at Mach
    2^600 the square of the excess over 0.8 overflows, and the call raises
    [OverflowError] instead of returning a coefficient. *)
Lemma drag_coefficient_overflows :
  PrimFloat.leb (-45) 0 = true /\ PrimFloat.leb 0 45 = true
  /\ PrimFloat.ltb 0 0x1p+20 = true
  /\ PrimFloat.leb 0 0x1p+600 = true
  /\ @get_drag_coefficient float (binary64 libm_small) python_float python_float
       JET 0x1p+20%float 0x1p+600%float 0%float
     = Raised OverflowError.
Proof. vm_compute. repeat split. Qed.

(* ================================================================== *)
(** ** The coefficient model in exact arithmetic *)

Section ExactReading.

Local Open Scope R_scope.

Lemma Rltb_true (x y : R) : x < y -> Rltb x y = true.
Proof. intros H. unfold Rltb. destruct (Rlt_dec x y); [reflexivity|contradiction]. Qed.

Lemma Rltb_false (x y : R) : y <= x -> Rltb x y = false.
Proof. intros H. unfold Rltb. destruct (Rlt_dec x y); [lra|reflexivity]. Qed.

Lemma Rleb_true (x y : R) : x <= y -> Rleb x y = true.
Proof. intros H. unfold Rleb. destruct (Rle_dec x y); [reflexivity|contradiction]. Qed.

Lemma Rleb_false (x y : R) : y < x -> Rleb x y = false.
Proof. intros H. unfold Rleb. destruct (Rle_dec x y); [lra|reflexivity]. Qed.

Lemma Reqb_true (x : R) : Reqb x x = true.
Proof. unfold Reqb. destruct (Req_dec_T x x); [reflexivity|contradiction]. Qed.

Lemma Reqb_false (x y : R) : x <> y -> Reqb x y = false.
Proof. intros H. unfold Reqb. destruct (Req_dec_T x y); [contradiction|reflexivity]. Qed.

(** The bound 10^100 on a magnitude, and its inverse: quantities within
    them are far from the overflow and underflow thresholds of binary64, so
    that on them the program computes what exact arithmetic does, up to
    rounding. *)
Lemma bound_is_large : 1000000 <= 10 ^ 100.
Proof.
  replace 1000000 with (10 ^ 6) by (cbn; lra).
  apply Rle_pow; [lra|lia].
Qed.

Lemma bound_positive : 0 < / 10 ^ 100 <= / 100.
Proof.
  pose proof bound_is_large as H.
  split; [apply Rinv_0_lt_compat; lra|].
  apply Rinv_le_contravar; lra.
Qed.

Lemma radians_exact (a : R) :
  radians (Finite a) = Finite (a * (PI / 180)).
Proof.
  unfold radians. cbn [mul div pi lit exact_scalar exact_div exact_lift2].
  rewrite Reqb_false by (literals; lra).
  cbn. f_equal. literals. f_equal. f_equal. lra.
Qed.

(** A positive base: the exponential. *)
Lemma exact_pow_positive (x y : R) :
  0 < x -> exact_pow (Finite x) (Finite y) = Finite (Rpower x y).
Proof. intros H. unfold exact_pow. rewrite Rltb_true by exact H. reflexivity. Qed.

(** The exponent 2: the square, whatever the sign of the base. *)
Lemma exact_pow_two (x : R) :
  exact_pow (Finite x) (Finite (Q2R 2)) = Finite (x * x).
Proof.
  assert (Htwo : Q2R 2 = 2) by (literals; lra).
  rewrite Htwo. unfold exact_pow.
  destruct (Rlt_dec 0 x) as [Hpos|Hnpos].
  - rewrite Rltb_true by exact Hpos. f_equal.
    change 2 with (INR 2). rewrite Rpower_pow by exact Hpos. cbn. lra.
  - rewrite Rltb_false by lra.
    destruct (Req_dec_T x 0) as [->|Hnz].
    + rewrite Reqb_true, Rltb_true by lra. f_equal. lra.
    + rewrite Reqb_false by exact Hnz.
      assert (Hint : Int_part 2 = 2%Z)
        by (symmetry; apply Int_part_spec; lra).
      rewrite Hint, Reqb_true. f_equal.
      change (powerRZ x 2) with (x * (x * 1)). ring.
Qed.


Lemma sphere_cd_stokes (re : R) : 0 < re < 1 -> sphere_cd re = 24 / re.
Proof.
  intros [Hpos Hone]. unfold sphere_cd, get_drag_coefficient, kind_div, kind_pow. exact_simpl.
  rewrite Rltb_true by (literals; lra).
  unfold exact_div. rewrite Reqb_false by lra.
  f_equal. literals. lra.
Qed.

Lemma sphere_cd_at_one : sphere_cd 1 = 276 / 10.
Proof.
  unfold sphere_cd, get_drag_coefficient, kind_div, kind_pow. exact_simpl.
  rewrite Rltb_false by (literals; lra).
  rewrite Rltb_true by (literals; lra).
  unfold exact_div. rewrite Reqb_false by lra.
  rewrite exact_pow_positive by lra. exact_simpl.
  unfold Rpower. rewrite ln_1, Rmult_0_r, exp_0. literals. lra.
Qed.

Lemma sphere_cd_middle (re : R) :
  1 <= re < 1000 ->
  sphere_cd re = 24 / re * (1 + 15 / 100 * Rpower re (687 / 1000)).
Proof.
  intros [Hone Hthousand]. unfold sphere_cd, get_drag_coefficient, kind_div, kind_pow. exact_simpl.
  rewrite Rltb_false by (literals; lra).
  rewrite Rltb_true by (literals; lra).
  unfold exact_div. rewrite Reqb_false by lra.
  rewrite exact_pow_positive by lra. exact_simpl.
  literals. replace (24 * / 1) with 24 by lra.
  replace (1 * / 1) with 1 by lra. reflexivity.
Qed.

(** C6, as the code has it.  In exact arithmetic the sphere's drag
    coefficient is not continuous at Re = 1: on the Stokes branch it is
    24/Re and tends to 24 as Re approaches 1 from below, while the middle
    branch, 24/Re * (1 + 0.15 * Re^0.687), gives 24 * 1.15 = 27.6 at
    Re = 1. *)
Theorem sphere_drag_jumps_at_one :
  (forall re, 0 < re < 1 -> sphere_cd re = 24 / re)
  /\ (forall re, 1 <= re < 1000 ->
      sphere_cd re = 24 / re * (1 + 15 / 100 * Rpower re (687 / 1000)))
  /\ (forall eps, 0 < eps ->
      exists delta, 0 < delta
        /\ forall re, 1 - delta < re < 1 -> Rabs (sphere_cd re - 24) < eps)
  /\ sphere_cd 1 = 276 / 10.
Proof.
  split; [exact sphere_cd_stokes|]. split; [exact sphere_cd_middle|].
  split; [|exact sphere_cd_at_one].
  intros eps Heps.
  exists (Rmin (1 / 2) (eps / 48)). split.
  - apply Rmin_glb_lt; lra.
  - intros re [Hlow Hhigh].
    pose proof (Rmin_l (1 / 2) (eps / 48)) as Hhalf.
    pose proof (Rmin_r (1 / 2) (eps / 48)) as Hsmall.
    rewrite sphere_cd_stokes by lra.
    assert (Hgap : 24 / re - 24 = 24 * (1 - re) / re) by (field; lra).
    rewrite Hgap, Rabs_right.
    + apply (Rmult_lt_reg_r re); [lra|].
      unfold Rdiv. rewrite Rmult_assoc, Rinv_l by lra. nra.
    + apply Rle_ge. apply Rmult_le_pos; [nra|].
      apply Rlt_le, Rinv_0_lt_compat. lra.
Qed.

End ExactReading.

(** The same jump on binary64, between the largest number below 1 and 1
    (the power of 1 is 1 in every C mathematics library). *)
Example sphere_drag_jumps_in_binary64 (reynolds_kind mach_kind : FloatKind) :
  @get_drag_coefficient float Run.b64 reynolds_kind mach_kind SPHERE
    0x1.fffffffffffffp-1%float 0%float 0%float
  = Returned 0x1.8000000000001p+4%float
  /\ @get_drag_coefficient float Run.b64 reynolds_kind mach_kind SPHERE
       1%float 0%float 0%float
     = Returned 0x1.b999999999999p+4%float.
Proof. destruct reynolds_kind; vm_compute; split; reflexivity. Qed.

(** C6 as stated fails: the sphere's drag coefficient is not continuous at
    Re = 1. *)
Lemma sphere_drag_not_continuous_at_one : ~ continuity_pt sphere_cd 1.
Proof.
  intros Hcont.
  destruct (Hcont 1%R ltac:(lra)) as (alp & Halp & Hnear).
  set (re := (1 - Rmin (1 / 20) (alp / 2))%R).
  pose proof (Rmin_l (1 / 20) (alp / 2)) as Hl.
  pose proof (Rmin_r (1 / 20) (alp / 2)) as Hr.
  assert (Hmin : (0 < Rmin (1 / 20) (alp / 2))%R) by (apply Rmin_glb_lt; lra).
  specialize (Hnear re).
  assert (Hre : (0 < re < 1)%R) by (unfold re; lra).
  rewrite sphere_cd_at_one, (sphere_cd_stokes Hre) in Hnear.
  assert (Hdist : (R_dist (24 / re) (276 / 10) < 1)%R).
  { apply Hnear. split.
    - split; [exact I|]. unfold re. lra.
    - cbn. unfold R_dist. rewrite Rabs_left; unfold re; lra. }
  unfold R_dist in Hdist.
  assert (Hbound : (24 / re <= 24 / (19 / 20))%R).
  { unfold Rdiv. apply Rmult_le_compat_l; [lra|].
    apply Rinv_le_contravar; unfold re; lra. }
  rewrite Rabs_left in Hdist; lra.
Qed.

(* ================================================================== *)
(** ** The flow field *)

Section Grid.

Context {T : Type} {S : Scalar T}.

Lemma grid_entries {A : Type} (P : A -> Prop) (f : T -> T -> A) (x y : list T) :
  (forall xi yj, In xi x -> In yj y -> P (f xi yj)) ->
  Forall (Forall P) (grid f x y).
Proof.
  intros Hf. unfold grid. apply Forall_forall. intros row Hrow.
  apply in_map_iff in Hrow as (yj & <- & Hyj).
  apply Forall_forall. intros entry Hentry.
  apply in_map_iff in Hentry as (xi & <- & Hxi).
  apply Hf; assumption.
Qed.

Lemma linspace_length (start stop : T) (num : nat) :
  List.length (linspace start stop num) = num.
Proof.
  unfold linspace. destruct num as [|[|n]]; [reflexivity|reflexivity|].
  rewrite length_app, length_map, length_seq. cbn. lia.
Qed.

Lemma grid_shape {A : Type} (f : T -> T -> A) (x y : list T) :
  List.length (grid f x y) = List.length y
  /\ Forall (fun row => List.length row = List.length x) (grid f x y).
Proof.
  unfold grid. split; [apply length_map|].
  apply Forall_forall. intros row Hrow.
  apply in_map_iff in Hrow as (yj & <- & _). apply length_map.
Qed.

End Grid.

(** The product of binary64's infinity with any number is an infinity or a
    NaN. *)
Lemma infinity_times (c : float) :
  PrimFloat.is_finite (PrimFloat.mul PrimFloat.infinity c) = false.
Proof.
  unfold PrimFloat.is_finite, PrimFloat.is_nan, PrimFloat.is_infinity.
  rewrite !FloatAxioms.eqb_spec, abs_spec, mul_spec.
  change (Prim2SF PrimFloat.infinity) with (S754_infinity false).
  destruct (Prim2SF c) as [s|s| |s m e]; try destruct s; reflexivity.
Qed.

(** C9 as stated fails in binary64.  A cube of side 2 (obstacle radius 1)
    moving at 2^600 m/s, a finite velocity, in a 1 x 1 domain: the freestream
    speed overflows to infinity, and whatever the mathematics library
    answers for the cosines, each of the 100 x 100 entries of [u] is an
    infinity or a NaN. *)
Lemma flow_field_overflows :
  let g := {| length := 2; width := 2; height := 2; frontal_area := 4;
              surface_area := 24; volume := 8; object_type := CUBE |}%float in
  let velocity := mkVec3 0x1p+600%float 0%float 0%float in
  let domain_size := (1%float, 1%float) in
  PrimFloat.is_finite (vx velocity) = true
  /\ PrimFloat.is_finite (vy velocity) = true
  /\ PrimFloat.is_finite (vz velocity) = true
  /\ PrimFloat.ltb (fst domain_size)
       (2 * (@py_max float Run.b64 (width g) (height g) / 2))%float = true
  /\ PrimFloat.ltb (snd domain_size)
       (2 * (@py_max float Run.b64 (width g) (height g) / 2))%float = true
  /\ forall L : Libm,
       let u := ff_u (@generate_flow_field float (binary64 L)
                        (@new_engine float (binary64 L))
                        g velocity 0%float domain_size) in
       List.length u = 100%nat
       /\ Forall (fun row => List.length row = 100%nat) u
       /\ Forall (Forall (fun entry => PrimFloat.is_finite entry = false)) u.
Proof.
  cbv zeta.
  split; [vm_compute; reflexivity|]. split; [vm_compute; reflexivity|].
  split; [vm_compute; reflexivity|]. split; [vm_compute; reflexivity|].
  split; [vm_compute; reflexivity|].
  intros L. unfold generate_flow_field. cbn [ff_u fst snd grid_size new_engine].
  split; [|split].
  - match goal with |- List.length (grid ?f ?x ?y) = _ =>
      rewrite (proj1 (grid_shape f x y)) end.
    apply linspace_length.
  - match goal with |- Forall _ (grid ?f ?x ?y) =>
      pose proof (proj2 (grid_shape f x y)) as Hrows end.
    rewrite linspace_length in Hrows. exact Hrows.
  - apply grid_entries. intros xi yj _ _. unfold u_at.
    match goal with |- context [norm2 ?v] =>
      change (norm2 v) with PrimFloat.infinity end.
    apply infinity_times.
Qed.

(** In binary64 the radius that divides is never zero once the obstacle
    radius is positive, whatever the grid point: [np.maximum] answers the
    distance when that is a NaN or at least the obstacle radius, and the
    obstacle radius otherwise. *)
Lemma clamped_radius_is_not_zero (L : Libm) (obj_radius x y : float) :
  PrimFloat.ltb 0%float obj_radius = true ->
  PrimFloat.eqb (@clamped_radius float (binary64 L) obj_radius x y) 0%float
  = false.
Proof.
  intros Hpos. unfold clamped_radius, np_maximum.
  cbn [is_nan leb sqrt binary64].
  set (r := PrimFloat.sqrt _).
  destruct (PrimFloat.is_nan r) eqn:Hnan; cbn [orb];
    [|destruct (PrimFloat.leb obj_radius r) eqn:Hle];
    unfold PrimFloat.is_nan in Hnan;
    rewrite ?FloatAxioms.eqb_spec, ?ltb_spec, ?leb_spec in *;
    change (Prim2SF 0%float) with (S754_zero false) in *;
    unfold SFltb, SFleb, SFeqb in *;
    destruct (Prim2SF obj_radius) as [s0|s0| |s0 m0 e0];
    try discriminate Hpos; destruct s0; try discriminate Hpos;
    destruct (Prim2SF r) as [s|s| |s m e]; try destruct s;
    cbn in *;
    rewrite ?Z.compare_refl, ?Pos.compare_cont_refl in *; cbn in *;
    try reflexivity; try discriminate.
Qed.

Lemma clamped_radius_is_not_zero_witness :
  PrimFloat.eqb (@clamped_radius float Run.b64 1%float 0%float 0%float) 0%float
  = false.
Proof.
  apply (@clamped_radius_is_not_zero libm_small 1%float 0%float 0%float).
  vm_compute. reflexivity.
Defined.

Section FlowFieldBinary64.

Local Open Scope Z_scope.

Variable L : Libm.
Hypothesis HL : Ranged L.

(** A count as a number: not negative, below 2^65, and at least 1/2 when it
    is not zero. *)
Lemma of_nat_float (n : nat) :
  nonneg (Prim2SF (@of_nat float (binary64 L) n)) = true
  /\ below 65 (Prim2SF (@of_nat float (binary64 L) n)) = true
  /\ (0 < Z.of_nat n < 2 ^ 63 ->
      above 0 (Prim2SF (@of_nat float (binary64 L) n)) = true).
Proof.
  unfold of_nat. cbn [lit binary64]. unfold float_lit. cbn [Qnum Qden].
  destruct (@float_of_Z_nonneg (Z.of_nat n) ltac:(lia)) as (Hsign & Hbelow & Habove).
  split; [|split].
  - apply (@div_nonneg 1); [exact Hsign|closed|closed|]. left. eauto.
  - replace 65 with (64 - 1 + 2) by lia.
    apply div_below; [exact Hbelow|closed|lia].
  - intros Hn. replace 0 with (1 - 1) by lia.
    apply (@div_above 1 1 1); [apply Habove; exact Hn|closed|closed|lia].
Qed.

(** The samples of [np.linspace] between two moderate numbers are moderate
    numbers. *)
Lemma linspace_below (a : Z) (start stop : float) (num : nat) :
  below a (Prim2SF start) = true -> below a (Prim2SF stop) = true ->
  -900 <= a <= 900 -> Z.of_nat num < 2 ^ 63 ->
  Forall (fun x => below (a + 72) (Prim2SF x) = true)
         (@linspace float (binary64 L) start stop num).
Proof.
  intros Hstart Hstop Ha Hnum. unfold linspace.
  assert (Hdelta : below (a + 2) (Prim2SF (PrimFloat.sub stop start)) = true).
  { replace (a + 2) with (Z.max a a + 2) by lia. apply sub_below; try assumption. lia. }
  destruct num as [|[|n]].
  - constructor.
  - constructor; [|constructor]. cbn [add mul sub lit binary64].
    apply (@below_mono (Z.max (a + 3) a + 2)); [lia|].
    apply add_below; [|exact Hstart|lia].
    replace (a + 3) with (0 + (a + 2) + 1) by lia.
    apply mul_below; [closed|exact Hdelta|lia].
  - apply Forall_app. split;
      [|constructor; [revert Hstop; apply below_mono; lia|constructor]].
    apply Forall_forall. intros x Hx.
    apply in_map_iff in Hx as (i & <- & _).
    cbn [add mul sub div eqb lit binary64].
    destruct (of_nat_float (Datatypes.S (Datatypes.S n) - 1)) as (Hd0 & Hd & Hd1).
    specialize (Hd1 ltac:(lia)).
    destruct (of_nat_float i) as (Hi0 & Hi & _).
    set (div_ := @of_nat float (binary64 L) (Datatypes.S (Datatypes.S n) - 1)) in *.
    set (fi := @of_nat float (binary64 L) i) in *.
    match goal with |- context [if ?b then _ else _] => destruct b end.
    + apply (@below_mono (Z.max (a + 70) a + 2)); [lia|].
      apply add_below; [|exact Hstart|lia].
      replace (a + 70) with (67 + (a + 2) + 1) by lia.
      apply mul_below; [|exact Hdelta|lia].
      replace 67 with (65 - 0 + 2) by lia.
      apply div_below; [exact Hi|exact Hd1|lia].
    + apply (@below_mono (Z.max (a + 70) a + 2)); [lia|].
      apply add_below; [|exact Hstart|lia].
      apply (@below_mono (65 + (a + 4) + 1)); [lia|].
      apply mul_below; [exact Hi| |lia].
      replace (a + 4) with (a + 2 - 0 + 2) by lia.
      apply div_below; [exact Hdelta|exact Hd1|lia].
Qed.

(** The square of the ratio of the obstacle radius to the clamped distance,
    at a grid point with moderate coordinates: a number below 2^5. *)
Lemma squared_ratio_below (a : Z) (r0 x y : float) :
  nonneg (Prim2SF r0) = true ->
  above a (Prim2SF r0) = true -> below a (Prim2SF r0) = true ->
  -1073 <= a <= 1024 ->
  below 176 (Prim2SF x) = true -> below 176 (Prim2SF y) = true ->
  below 5 (Prim2SF (@square float (binary64 L)
                      (@div float (binary64 L) r0
                         (@clamped_radius float (binary64 L) r0 x y)))) = true.
Proof.
  intros Hr0 Habove Hbelow Ha Hx Hy.
  assert (Hcentre : forall c, below 176 (Prim2SF c) = true ->
            below 178 (Prim2SF (PrimFloat.sub c (float_lit 0))) = true).
  { intros c Hc. replace 178 with (Z.max 176 0 + 2) by lia.
    apply sub_below; [exact Hc|closed|lia]. }
  assert (Hsq : forall c, below 176 (Prim2SF c) = true ->
            nonneg (Prim2SF (PrimFloat.mul (PrimFloat.sub c (float_lit 0))
                                           (PrimFloat.sub c (float_lit 0)))) = true
            /\ below 357 (Prim2SF (PrimFloat.mul (PrimFloat.sub c (float_lit 0))
                                                  (PrimFloat.sub c (float_lit 0)))) = true).
  { intros c Hc. pose proof (Hcentre c Hc) as Hc'. split.
    - apply square_nonneg. apply (@below_not_nan 178). exact Hc'.
    - replace 357 with (178 + 178 + 1) by lia. apply mul_below; try assumption. lia. }
  destruct (Hsq x Hx) as [Hx0 Hx2]. destruct (Hsq y Hy) as [Hy0 Hy2].
  set (rho := PrimFloat.sqrt
                (PrimFloat.add
                   (PrimFloat.mul (PrimFloat.sub x (float_lit 0))
                                  (PrimFloat.sub x (float_lit 0)))
                   (PrimFloat.mul (PrimFloat.sub y (float_lit 0))
                                  (PrimFloat.sub y (float_lit 0))))).
  assert (Hrho0 : nonneg (Prim2SF rho) = true)
    by (apply sqrt_nonneg, add_nonneg; assumption).
  assert (Hclamp : above a (Prim2SF (@clamped_radius float (binary64 L) r0 x y))
                   = true).
  { unfold clamped_radius, np_maximum, square.
    cbn [is_nan leb sqrt add mul sub lit binary64]. fold rho.
    rewrite (proj2 (is_nan_spec rho) (@nonneg_not_nan _ Hrho0)). cbn [orb].
    destruct (PrimFloat.leb r0 rho) eqn:Hle; [|exact Habove].
    apply (@leb_above a r0 rho Hle Hr0 Habove). }
  unfold square. cbn [mul div binary64].
  assert (Hratio : below 2 (Prim2SF (PrimFloat.div r0
                     (@clamped_radius float (binary64 L) r0 x y))) = true).
  { replace 2 with (a - a + 2) by lia. apply div_below; try assumption. lia. }
  replace 5 with (2 + 2 + 1) by lia. apply mul_below; try assumption. lia.
Qed.

(** The doubled angle of a grid point is a finite number. *)
Lemma doubled_angle_below (x y : float) :
  below 176 (Prim2SF x) = true -> below 176 (Prim2SF y) = true ->
  below 6 (Prim2SF (PrimFloat.mul (float_lit 2)
                      (@theta_at float (binary64 L) x y))) = true.
Proof.
  intros Hx Hy.
  assert (Hcentre : forall c, below 176 (Prim2SF c) = true ->
            PrimFloat.is_nan (PrimFloat.sub c (float_lit 0)) = false).
  { intros c Hc. apply is_nan_spec. apply (@below_not_nan 178).
    replace 178 with (Z.max 176 0 + 2) by lia.
    apply sub_below; [exact Hc|closed|lia]. }
  unfold theta_at. cbn [arctan2 sub lit binary64].
  replace 6 with (2 + 3 + 1) by lia. apply mul_below; [closed| |lia].
  apply (@leb_below 3 _ 4%float); [|closed].
  apply (atan2_range HL); apply Hcentre; assumption.
Qed.

Lemma cos_below (t : float) (k : Z) :
  below k (Prim2SF t) = true -> below 1 (Prim2SF (libm_cos L t)) = true.
Proof.
  intros Ht. apply (@leb_below 1 _ 1%float); [|closed].
  apply (cos_range HL);
    [apply is_nan_spec, (@below_not_nan k); exact Ht|apply (@not_infinite k); exact Ht].
Qed.

Lemma sin_below (t : float) (k : Z) :
  below k (Prim2SF t) = true -> below 1 (Prim2SF (libm_sin L t)) = true.
Proof.
  intros Ht. apply (@leb_below 1 _ 1%float); [|closed].
  apply (sin_range HL);
    [apply is_nan_spec, (@below_not_nan k); exact Ht|apply (@not_infinite k); exact Ht].
Qed.

(** The four field entries at a grid point with moderate coordinates, for a
    moderate freestream speed, a finite positive obstacle radius and
    moderate air properties. *)
Lemma field_entries_below
    (self : AerodynamicsEngine (T:=float)) (a : Z) (speed r0 x y : float) :
  below 101 (Prim2SF (pressure (air_props self))) = true ->
  below 101 (Prim2SF (density (air_props self))) = true ->
  below 104 (Prim2SF speed) = true ->
  nonneg (Prim2SF r0) = true ->
  above a (Prim2SF r0) = true -> below a (Prim2SF r0) = true ->
  -1073 <= a <= 1024 ->
  below 176 (Prim2SF x) = true -> below 176 (Prim2SF y) = true ->
  below 114 (Prim2SF (@u_at float (binary64 L) speed r0 x y)) = true
  /\ below 112 (Prim2SF (@v_at float (binary64 L) speed r0 x y)) = true
  /\ below 117 (Prim2SF (@velocity_magnitude_at float (binary64 L) speed r0 x y))
     = true
  /\ below 368 (Prim2SF (@pressure_at float (binary64 L) self speed r0 x y))
     = true.
Proof.
  intros Hp Hrho Hspeed Hr0 Habove Hbelow Ha Hx Hy.
  pose proof (@squared_ratio_below a r0 x y Hr0 Habove Hbelow Ha Hx Hy) as Hk.
  pose proof (@doubled_angle_below x y Hx Hy) as Ht.
  pose proof (@cos_below _ _ Ht) as Hcos. pose proof (@sin_below _ _ Ht) as Hsin.
  assert (Hu : below 114 (Prim2SF (@u_at float (binary64 L) speed r0 x y)) = true).
  { unfold u_at. cbn [mul sub cos lit binary64].
    replace 114 with (104 + 9 + 1) by lia. apply mul_below; [exact Hspeed| |lia].
    replace 9 with (Z.max 1 7 + 2) by lia. apply sub_below; [closed| |lia].
    replace 7 with (5 + 1 + 1) by lia. apply mul_below; [exact Hk|exact Hcos|lia]. }
  assert (Hv : below 112 (Prim2SF (@v_at float (binary64 L) speed r0 x y)) = true).
  { unfold v_at. cbn [mul opp sin lit binary64].
    replace 112 with (110 + 1 + 1) by lia. apply mul_below; [|exact Hsin|lia].
    replace 110 with (104 + 5 + 1) by lia. apply mul_below; [|exact Hk|lia].
    apply opp_below. exact Hspeed. }
  assert (Hsum : nonneg (Prim2SF (PrimFloat.add
                   (PrimFloat.mul (@u_at float (binary64 L) speed r0 x y)
                                  (@u_at float (binary64 L) speed r0 x y))
                   (PrimFloat.mul (@v_at float (binary64 L) speed r0 x y)
                                  (@v_at float (binary64 L) speed r0 x y)))) = true
                 /\ below 231 (Prim2SF (PrimFloat.add
                   (PrimFloat.mul (@u_at float (binary64 L) speed r0 x y)
                                  (@u_at float (binary64 L) speed r0 x y))
                   (PrimFloat.mul (@v_at float (binary64 L) speed r0 x y)
                                  (@v_at float (binary64 L) speed r0 x y)))) = true).
  { split.
    - apply add_nonneg; apply square_nonneg;
        [apply (@below_not_nan 114)|apply (@below_not_nan 112)]; assumption.
    - replace 231 with (Z.max 229 225 + 2) by lia. apply add_below; [| |lia].
      + replace 229 with (114 + 114 + 1) by lia. apply mul_below; try assumption. lia.
      + replace 225 with (112 + 112 + 1) by lia. apply mul_below; try assumption. lia. }
  destruct Hsum as [Hsum0 Hsum].
  assert (Hm : below 117 (Prim2SF (@velocity_magnitude_at float (binary64 L)
                                     speed r0 x y)) = true).
  { unfold velocity_magnitude_at, square. cbn [sqrt add mul binary64].
    replace 117 with ((231 + 1) / 2 + 1) by reflexivity.
    apply sqrt_below; [exact Hsum0|exact Hsum|]. change ((231 + 1) / 2) with 116. lia. }
  split; [exact Hu|]. split; [exact Hv|]. split; [exact Hm|].
  unfold pressure_at, square. cbn [add mul sub pow lit binary64].
  destruct (@pow_square L HL 104 speed Hspeed ltac:(lia)) as [_ Hpow].
  change (float_lit 2) with 2%float.
  replace 368 with (Z.max 101 366 + 2) by lia. apply add_below; [exact Hp| |lia].
  replace 366 with (102 + 263 + 1) by lia. apply mul_below; [| |lia].
  - replace 102 with (0 + 101 + 1) by lia. apply mul_below; [closed|exact Hrho|lia].
  - replace 263 with (Z.max 261 235 + 2) by lia. apply sub_below; [exact Hpow| |lia].
    replace 235 with (117 + 117 + 1) by lia. apply mul_below; try assumption. lia.
Qed.

(** The freestream speed of a moderate velocity. *)
Lemma norm2_below (velocity : Vec3 (T:=float)) :
  below 101 (Prim2SF (vx velocity)) = true ->
  below 101 (Prim2SF (vy velocity)) = true ->
  below 104 (Prim2SF (@norm2 float (binary64 L) velocity)) = true.
Proof.
  intros Hx Hy. unfold norm2. cbn [sqrt add mul binary64].
  replace 104 with ((205 + 1) / 2 + 1) by reflexivity.
  apply sqrt_below.
  - apply add_nonneg; apply square_nonneg; apply (@below_not_nan 101); assumption.
  - replace 205 with (Z.max 203 203 + 2) by lia.
    apply add_below; [| |lia]; replace 203 with (101 + 101 + 1) by lia;
      apply mul_below; try assumption; lia.
  - change ((205 + 1) / 2) with 103. lia.
Qed.

(** C9, as the code has it.  In binary64, for every mathematics library with
    results in range: when the air pressure and density, the first two
    components of the velocity and the larger of width and height are at
    most 2^100 in magnitude, the grid has fewer than 2^63 points a side, and
    the domain extents are not negative and below twice the obstacle radius
    r0 = max(width, height)/2, the arrays [u], [v], [pressure] and
    [velocity_magnitude] of [generate_flow_field] hold no NaN and no
    infinity.  The radius that divides is clamped to at least r0, which is
    positive and finite; the bounds keep every product below the overflow
    threshold. *)
Theorem flow_field_has_no_nan_or_inf
    (self : AerodynamicsEngine (T:=float)) (g : ObjectGeometry (T:=float))
    (velocity : Vec3 (T:=float)) (angle x_max y_max : float) :
  let r0 := PrimFloat.div (@py_max float (binary64 L) (width g) (height g)) 2 in
  let field := @generate_flow_field float (binary64 L) self g velocity angle
                 (x_max, y_max) in
  Z.of_nat (fst (grid_size self)) < 2 ^ 63 ->
  Z.of_nat (snd (grid_size self)) < 2 ^ 63 ->
  PrimFloat.leb (PrimFloat.abs (pressure (air_props self))) 0x1p+100 = true ->
  PrimFloat.leb (PrimFloat.abs (density (air_props self))) 0x1p+100 = true ->
  PrimFloat.leb (PrimFloat.abs (vx velocity)) 0x1p+100 = true ->
  PrimFloat.leb (PrimFloat.abs (vy velocity)) 0x1p+100 = true ->
  PrimFloat.leb (PrimFloat.abs (@py_max float (binary64 L) (width g) (height g)))
    0x1p+100 = true ->
  PrimFloat.leb 0 x_max = true -> PrimFloat.leb 0 y_max = true ->
  PrimFloat.ltb x_max (PrimFloat.mul 2 r0) = true ->
  PrimFloat.ltb y_max (PrimFloat.mul 2 r0) = true ->
  @no_nan_or_inf float (binary64 L) (ff_u field)
  /\ @no_nan_or_inf float (binary64 L) (ff_v field)
  /\ @no_nan_or_inf float (binary64 L) (ff_pressure field)
  /\ @no_nan_or_inf float (binary64 L) (ff_velocity_magnitude field).
Proof.
  intros r0 field Hcols Hrows Hp Hrho Hvx Hvy Hm Hx0 Hy0 Hx Hy.
  rewrite leb_zero in Hx0, Hy0.
  assert (Hbound : below 101 (Prim2SF 0x1p+100%float) = true) by closed.
  pose proof (@leb_below 101 _ _ Hp Hbound) as Hp'.
  pose proof (@leb_below 101 _ _ Hrho Hbound) as Hrho'.
  pose proof (@leb_below 101 _ _ Hvx Hbound) as Hvx'.
  pose proof (@leb_below 101 _ _ Hvy Hbound) as Hvy'.
  pose proof (@leb_below 101 _ _ Hm Hbound) as Hm'.
  pose proof (@norm2_below velocity Hvx' Hvy') as Hspeed.
  assert (Hr0 : below 101 (Prim2SF r0) = true).
  { unfold r0. replace 101 with (101 - 2 + 2) by lia.
    apply div_below; [exact Hm'|closed|lia]. }
  assert (Htwice : below 104 (Prim2SF (PrimFloat.mul 2 r0)) = true).
  { replace 104 with (2 + 101 + 1) by lia. apply mul_below; [closed|exact Hr0|lia]. }
  destruct (@ltb_positive _ _ Hx0 Hx) as [Htwice0 Htwice1].
  destruct (@mul_positive_inv 2 2 _ 2%float r0 ltac:(closed) ltac:(closed)
              ltac:(closed) Htwice0 Htwice1) as [Hr0_sign Hr0_above].
  destruct (@magnitude _ _ r0 Hr0_above Hr0) as (a & Ha & Habove & Hbelow).
  assert (Hextent : forall extent,
             nonneg (Prim2SF extent) = true ->
             PrimFloat.ltb extent (PrimFloat.mul 2 r0) = true ->
             below 104 (Prim2SF (PrimFloat.div (PrimFloat.opp extent) (float_lit 2)))
             = true
             /\ below 104 (Prim2SF (PrimFloat.div extent (float_lit 2))) = true).
  { intros extent Hsign Hlt.
    assert (He : below 104 (Prim2SF extent) = true)
      by (apply (@leb_below_nonneg 104 _ _ Hsign (@ltb_leb _ _ Hlt)); exact Htwice).
    split; replace 104 with (104 - 2 + 2) by lia;
      (apply div_below; [|closed|lia]); [apply opp_below|]; exact He. }
  destruct (Hextent x_max Hx0 Hx) as [Hxlo Hxhi].
  destruct (Hextent y_max Hy0 Hy) as [Hylo Hyhi].
  pose proof (@linspace_below 104 _ _ (fst (grid_size self)) Hxlo Hxhi
                ltac:(lia) Hcols) as Hxs.
  pose proof (@linspace_below 104 _ _ (snd (grid_size self)) Hylo Hyhi
                ltac:(lia) Hrows) as Hys.
  rewrite Forall_forall in Hxs, Hys.
  change (104 + 72) with 176 in Hxs, Hys.
  unfold field, generate_flow_field, no_nan_or_inf.
  cbn [ff_u ff_v ff_pressure ff_velocity_magnitude].
  cbn [opp div lit binary64].
  change (PrimFloat.div (@py_max float (binary64 L) (width g) (height g))
                        (float_lit 2)) with r0.
  repeat split; apply grid_entries; intros xi yj Hxi Hyj;
    destruct (@field_entries_below self a _ r0 xi yj Hp' Hrho' Hspeed
                Hr0_sign Habove Hbelow Ha (Hxs xi Hxi) (Hys yj Hyj))
      as (Hu & Hv & Hmag & Hpress);
    eapply below_is_finite; eassumption.
Qed.

End FlowFieldBinary64.

(** A cube of side 2 at 20 m/s in still standard air, in a 1 x 1 domain. *)
Lemma flow_field_has_no_nan_or_inf_witness :
  let g := {| length := 2; width := 2; height := 2; frontal_area := 4;
              surface_area := 24; volume := 8; object_type := CUBE |}%float in
  let velocity := mkVec3 20%float 0%float 0%float in
  let field := @generate_flow_field float (binary64 libm_coarse)
                 (@new_engine float (binary64 libm_coarse))
                 g velocity 0%float (1%float, 1%float) in
  @no_nan_or_inf float (binary64 libm_coarse) (ff_u field)
  /\ @no_nan_or_inf float (binary64 libm_coarse) (ff_v field)
  /\ @no_nan_or_inf float (binary64 libm_coarse) (ff_pressure field)
  /\ @no_nan_or_inf float (binary64 libm_coarse) (ff_velocity_magnitude field).
Proof.
  intros g velocity field.
  apply (@flow_field_has_no_nan_or_inf libm_coarse libm_coarse_ranged
           (@new_engine float (binary64 libm_coarse)) g velocity 0%float
           1%float 1%float); reflexivity.
Defined.

(** *** The grid in exact arithmetic *)

Section ExactFlowField.

Local Open Scope R_scope.

(** The samples of [np.linspace] between two numbers are numbers. *)
Lemma linspace_finite (a b : R) (num : nat) :
  Forall (fun x => exists r, x = Finite r)
         (linspace (Finite a) (Finite b) num).
Proof.
  unfold linspace. destruct num as [|[|n]].
  - constructor.
  - constructor; [|constructor]. eexists. reflexivity.
  - apply Forall_app. split; [|constructor; [eexists; reflexivity|constructor]].
    apply Forall_forall. intros x Hx.
    apply in_map_iff in Hx as (i & <- & _).
    assert (Hdiv : Reqb (Q2R (Qmake (Z.of_nat (Datatypes.S (Datatypes.S n) - 1)) 1)) 0
                   = false).
    { apply Reqb_false. unfold Q2R. cbn [Qnum Qden].
      replace (Datatypes.S (Datatypes.S n) - 1)%nat with (Datatypes.S n) by lia.
      rewrite Nat2Z.inj_succ, succ_IZR.
      pose proof (IZR_le 0 (Z.of_nat n) ltac:(lia)). lra. }
    unfold of_nat.
    cbn [lit add sub mul div eqb exact_scalar exact_lift2 exact_test exact_div].
    rewrite Hdiv. cbn [exact_lift2 exact_test].
    destruct (Reqb _ (Q2R 0)); cbn [exact_lift2]; eexists; reflexivity.
Qed.

(** The clamped radius is a positive number when the obstacle radius is. *)
Lemma clamped_radius_positive (r0 x y : R) :
  0 < r0 ->
  exists c, clamped_radius (Finite r0) (Finite x) (Finite y) = Finite c
            /\ r0 <= c.
Proof.
  intros Hr0. unfold clamped_radius, square, np_maximum.
  cbn [lit add sub mul sqrt leb is_nan exact_scalar exact_lift2 exact_sqrt
       exact_test orb].
  rewrite Rltb_false
    by (pose proof (Rle_0_sqr (x - Q2R 0)); pose proof (Rle_0_sqr (y - Q2R 0));
        unfold Rsqr in *; lra).
  cbn [is_nan exact_scalar exact_test orb].
  unfold Rleb. destruct (Rle_dec r0 _) as [Hle|Hgt].
  - eexists. split; [reflexivity|exact Hle].
  - exists r0. split; [reflexivity|lra].
Qed.

End ExactFlowField.


(* ================================================================== *)
(** ** What a step can raise, and when no step does *)

Section Raises.

Context {T : Type} {S : Scalar T}.
Local Open Scope num_scope.

(** A step hands back the manager's geometry, parameters, engine, callbacks
    and flags as it found them, however it ends. *)
Lemma step_frame (random_normal : T -> py (Vec3 (T:=T)))
    (self : SimulationManager (T:=T)) :
  let self' := snd (step_simulation random_normal self) in
  geometry self' = geometry self
  /\ parameters self' = parameters self
  /\ engine self' = engine self
  /\ callbacks self' = callbacks self
  /\ is_running self' = is_running self
  /\ is_paused self' = is_paused self.
Proof.
  unfold step_simulation.
  destruct (geometry self) as [g|] eqn:Hg; [|cbn; rewrite Hg; repeat split].
  destruct (current_time self >=? max_time (parameters self));
    [cbn; rewrite Hg; repeat split|].
  destruct (bind _ _) as [f|e]; [|cbn; rewrite Hg; repeat split].
  cbv zeta.
  match goal with |- context [if ?c then _ else _] => destruct c end;
    [destruct (calculate_aerodynamic_efficiency f g)|]; cbn; repeat split.
Qed.

(** What the force resolver can raise: [ValueError] from [math.sin] of an
    infinite angle, [OverflowError] from the square of the angle of a jet or
    an airfoil. *)
Lemma forces_raise_inv (engine : AerodynamicsEngine) (g : ObjectGeometry)
    (velocity : Vec3 (T:=T)) (angle : T) (wind : Vec3) (e : PyExc) :
  calculate_forces engine g velocity angle wind = Raised e ->
  (e = ValueError /\ is_inf (#2 * radians angle) = true)
  \/ (e = OverflowError
      /\ (object_type g = JET \/ object_type g = AIRFOIL)
      /\ is_inf (pow (radians angle) #2) = true).
Proof.
  unfold calculate_forces.
  destruct (norm3 (vsub velocity wind) <? #1e-6); [discriminate|].
  unfold get_drag_coefficient, calculate_lift_coefficient, py_pow, math_sin.
  destruct (object_type g) eqn:Hshape;
    destruct (is_inf (#2 * radians angle)) eqn:Hsin;
    destruct (is_inf (pow (radians angle) #2)) eqn:Hpow;
    cbn [andb negb bind];
    repeat match goal with
           | |- context [if ?c then _ else _] => destruct c; cbn [andb negb bind]
           end;
    intros H; try discriminate H; injection H as <-; auto.
Qed.

(** Every exception of [step_simulation].  The random generator's own, the
    [ValueError] and the [OverflowError] of the force resolver arrive before
    anything is assigned: the manager is handed back as it was.  The
    [ZeroDivisionError] of the fineness ratio arrives on a snapshot step of a
    body without width and height, after the step has been recorded. *)
Lemma step_raises_only (random_normal : T -> py (Vec3 (T:=T)))
    (self self' : SimulationManager (T:=T)) (e : PyExc) :
  step_simulation random_normal self = (Raised e, self') ->
  exists g,
    geometry self = Some g
    /\ (current_time self >=? max_time (parameters self)) = false
    /\ ((enable_turbulence (parameters self) = true
         /\ random_normal (turbulence_intensity (parameters self)) = Raised e
         /\ self' = self)
        \/ (e = ValueError
            /\ is_inf (#2 * radians (object_angle (parameters self))) = true
            /\ self' = self)
        \/ (e = OverflowError
            /\ (object_type g = JET \/ object_type g = AIRFOIL)
            /\ is_inf (pow (radians (object_angle (parameters self))) #2) = true
            /\ self' = self)
        \/ (e = ZeroDivisionError
            /\ (py_max (width g) (height g) =? #0) = true
            /\ (Datatypes.S (List.length (time_history (results self))) mod 10
                = 0)%nat
            /\ current_time self' = current_time self + dt (parameters self)
            /\ List.length (time_history (results self'))
               = Datatypes.S (List.length (time_history (results self)))
            /\ List.length (flow_fields (results self'))
               = Datatypes.S (List.length (flow_fields (results self)))
            /\ efficiency_metrics (results self')
               = efficiency_metrics (results self))).
Proof.
  unfold step_simulation.
  destruct (geometry self) as [g|]; [|discriminate].
  destruct (current_time self >=? max_time (parameters self)); [discriminate|].
  intros Hstep. exists g. split; [reflexivity|]. split; [reflexivity|].
  revert Hstep.
  destruct (step_wind random_normal (parameters self)) as [wind|e0] eqn:Hwind;
    cbn [bind].
  - destruct (calculate_forces (engine self) g (velocity (state self))
                (object_angle (parameters self)) wind) as [f|e0] eqn:Hf.
    + cbv zeta. cbn [results time_history record_step].
      rewrite length_app. cbn [List.length]. rewrite Nat.add_1_r.
      destruct (Nat.eqb_spec
                  (Datatypes.S (List.length (time_history (results self))) mod 10)
                  0) as [Hten|Hplain]; [|discriminate].
      unfold calculate_aerodynamic_efficiency, py_div.
      destruct (py_max (width g) (height g) =? #0) eqn:Hflat; cbn [bind];
        [|discriminate].
      intros H; injection H as <- <-.
      right; right; right. cbn. rewrite !length_app. cbn.
      repeat split; try reflexivity; try assumption; lia.
    + intros H; injection H as <- <-.
      destruct (forces_raise_inv _ _ _ _ _ Hf) as [[-> Hsin]|(-> & Hshape & Hpow)].
      * right; left. auto.
      * right; right; left. auto.
  - intros H; injection H as <- <-.
    unfold step_wind in Hwind.
    destruct (enable_turbulence (parameters self)); [|discriminate].
    destruct (random_normal (turbulence_intensity (parameters self)));
      cbn [bind] in Hwind; [discriminate|].
    injection Hwind as ->. left. auto.
Qed.

(** A step returns, with [True] or with [False], when the body has a width
    or a height, neither twice the angle of attack nor its square is an
    infinity, and the random generator answers where it is consulted. *)
Lemma step_returns (random_normal : T -> py (Vec3 (T:=T)))
    (self : SimulationManager (T:=T)) (g : ObjectGeometry) :
  geometry self = Some g ->
  (py_max (width g) (height g) =? #0) = false ->
  is_inf (#2 * radians (object_angle (parameters self))) = false ->
  is_inf (pow (radians (object_angle (parameters self))) #2) = false ->
  (enable_turbulence (parameters self) = true ->
   exists turbulence,
     random_normal (turbulence_intensity (parameters self)) = Returned turbulence) ->
  exists answer self',
    step_simulation random_normal self = (Returned answer, self').
Proof.
  intros Hg Hwide Hsin Hpow Hrandom.
  unfold step_simulation. rewrite Hg.
  destruct (current_time self >=? max_time (parameters self));
    [eexists; eexists; reflexivity|].
  assert (Hwind : exists wind,
             step_wind random_normal (parameters self) = Returned wind).
  { unfold step_wind.
    destruct (enable_turbulence (parameters self)); [|eexists; reflexivity].
    destruct (Hrandom eq_refl) as [turbulence ->]. cbn [bind].
    eexists; reflexivity. }
  destruct Hwind as [wind ->]. cbn [bind].
  destruct (@forces_return T S (object_angle (parameters self)) g) with
    (engine := engine self) (velocity := velocity (state self)) (wind := wind)
    as [f ->].
  { unfold math_sin. rewrite Hsin. eexists; reflexivity. }
  { intros _. unfold py_pow. rewrite Hpow. cbn [andb]. eexists; reflexivity. }
  cbv zeta.
  match goal with |- context [Nat.eqb ?n 0] => destruct (Nat.eqb n 0) end.
  - destruct (efficiency_returns g Hwide f) as [eff ->].
    eexists; eexists; reflexivity.
  - eexists; eexists; reflexivity.
Qed.

(** No sequence of steps and resets raises, and the log satisfies the length
    invariant after it, on a manager whose body has a width or a height and
    whose angle of attack keeps [math.sin] and the square defined, as long as
    the random generator answers. *)
Theorem calls_return_and_keep_log (calls : list Call) :
  forall (self : SimulationManager (T:=T)) (g : ObjectGeometry),
  geometry self = Some g ->
  (py_max (width g) (height g) =? #0) = false ->
  is_inf (#2 * radians (object_angle (parameters self))) = false ->
  is_inf (pow (radians (object_angle (parameters self))) #2) = false ->
  (enable_turbulence (parameters self) = true ->
   forall random_normal, In (CallStep random_normal) calls ->
   exists turbulence,
     random_normal (turbulence_intensity (parameters self)) = Returned turbulence) ->
  log_invariant (results self) ->
  exists self',
    run_calls calls self = (Returned tt, self')
    /\ log_invariant (results self').
Proof.
  induction calls as [|[random_normal|] rest IH];
    intros self g Hg Hwide Hsin Hpow Hrandom Hinv.
  - exists self. split; [reflexivity|exact Hinv].
  - cbn [run_calls].
    destruct (@step_returns random_normal self g Hg Hwide Hsin Hpow)
      as (answer & mid & Hstep).
    { intros Hon. apply (Hrandom Hon). left. reflexivity. }
    rewrite Hstep.
    pose proof (step_frame random_normal self) as (Hg' & Hp' & _).
    rewrite Hstep in Hg', Hp'. cbn [snd] in Hg', Hp'.
    apply (IH mid g).
    + rewrite Hg'. exact Hg.
    + exact Hwide.
    + rewrite Hp'. exact Hsin.
    + rewrite Hp'. exact Hpow.
    + rewrite Hp'. intros Hon r Hr. apply (Hrandom Hon). right. exact Hr.
    + eapply step_keeps_log_invariant; eassumption.
  - cbn [run_calls]. apply (IH (reset_simulation self) g).
    + exact Hg.
    + exact Hwide.
    + exact Hsin.
    + exact Hpow.
    + intros Hon r Hr. apply (Hrandom Hon). right. exact Hr.
    + apply log_invariant_empty.
Qed.

End Raises.

(** The flat body after nine steps: its tenth step raises. *)
Lemma step_raises_only_witness :
  let self := snd (@step_at_most float Run.b64 9 (fun _ => Run.calm)
                     Run.flat_manager) in
  let self' := snd (@step_simulation float Run.b64 Run.calm self) in
  exists g,
    geometry self = Some g
    /\ @leb float Run.b64 (max_time (parameters self)) (current_time self) = false
    /\ ((enable_turbulence (parameters self) = true
         /\ Run.calm (turbulence_intensity (parameters self))
            = Raised ZeroDivisionError
         /\ self' = self)
        \/ (ZeroDivisionError = ValueError
            /\ @is_inf float Run.b64
                 (@mul float Run.b64 (Run.lit64 2)
                    (@radians float Run.b64 (object_angle (parameters self))))
               = true
            /\ self' = self)
        \/ (ZeroDivisionError = OverflowError
            /\ (object_type g = JET \/ object_type g = AIRFOIL)
            /\ @is_inf float Run.b64
                 (@pow float Run.b64
                    (@radians float Run.b64 (object_angle (parameters self)))
                    (Run.lit64 2))
               = true
            /\ self' = self)
        \/ (ZeroDivisionError = ZeroDivisionError
            /\ @eqb float Run.b64 (@py_max float Run.b64 (width g) (height g))
                 (Run.lit64 0) = true
            /\ (Datatypes.S (List.length (time_history (results self))) mod 10
                = 0)%nat
            /\ current_time self'
               = @add float Run.b64 (current_time self) (dt (parameters self))
            /\ List.length (time_history (results self'))
               = Datatypes.S (List.length (time_history (results self)))
            /\ List.length (flow_fields (results self'))
               = Datatypes.S (List.length (flow_fields (results self)))
            /\ efficiency_metrics (results self')
               = efficiency_metrics (results self))).
Proof.
  intros self self'.
  apply (@step_raises_only float Run.b64 Run.calm self self' ZeroDivisionError).
  vm_compute. reflexivity.
Defined.

(** Ten steps of the cube, a reset, and two more steps. *)
Lemma calls_return_and_keep_log_witness :
  let calls :=
    repeat (@CallStep float Run.calm) 10
    ++ [@CallReset float; CallStep Run.gust; CallStep Run.calm] in
  exists self',
    @run_calls float Run.b64 calls Run.cube_manager = (Returned tt, self')
    /\ log_invariant (results self').
Proof.
  intros calls.
  apply (@calls_return_and_keep_log float Run.b64 calls Run.cube_manager
           {| length := 2; width := 2; height := 2; frontal_area := 4;
              surface_area := 24; volume := 8; object_type := CUBE |}%float).
  - vm_compute. reflexivity.
  - vm_compute. reflexivity.
  - vm_compute. reflexivity.
  - vm_compute. reflexivity.
  - intros Hon. vm_compute in Hon. discriminate Hon.
  - vm_compute. repeat split; reflexivity.
Defined.

(* ================================================================== *)
(** ** The clock and the time history *)

Section Clock.

Context {T : Type} {S : Scalar T}.
Local Open Scope num_scope.

(** The answer [False] leaves the manager as it was. *)
Lemma step_false_same (random_normal : T -> py (Vec3 (T:=T)))
    (self self' : SimulationManager (T:=T)) :
  step_simulation random_normal self = (Returned false, self') ->
  self' = self
  /\ (geometry self = None
      \/ (current_time self >=? max_time (parameters self)) = true).
Proof.
  unfold step_simulation.
  destruct (geometry self) as [g|];
    [|intros H; injection H as <-; auto].
  destruct (current_time self >=? max_time (parameters self));
    [intros H; injection H as <-; auto|].
  destruct (bind _ _) as [f|e]; [|discriminate].
  cbv zeta.
  match goal with |- context [Nat.eqb ?n 0] => destruct (Nat.eqb n 0) end;
    [destruct (calculate_aerodynamic_efficiency f g)|]; discriminate.
Qed.

Lemma clock_succ (d t : T) (k : nat) :
  clock d (Datatypes.S k) t = clock d k (t + d).
Proof. reflexivity. Qed.

(** The driver's loop that made [k] steps has appended the [k] running sums
    [current_time + dt + ... + dt] to the time history, the last of them is
    the manager's clock, and it stopped before its bound only on the answer
    [False]: without a geometry, or with the clock at [max_time]. *)
Theorem driver_time_history (max_steps : nat) :
  forall (random_normal : nat -> T -> py (Vec3 (T:=T)))
         (self self' : SimulationManager (T:=T)) (k : nat),
  step_at_most max_steps random_normal self = (Returned k, self') ->
  (k <= max_steps)%nat
  /\ time_history (results self')
     = time_history (results self)
       ++ map (fun i => clock (dt (parameters self)) i (current_time self))
              (seq 1 k)
  /\ current_time self' = clock (dt (parameters self)) k (current_time self)
  /\ ((k < max_steps)%nat ->
      geometry self' = None
      \/ (current_time self' >=? max_time (parameters self')) = true).
Proof.
  induction max_steps as [|n IH]; intros random_normal self self' k Hrun.
  - injection Hrun as <- <-. cbn. rewrite app_nil_r.
    repeat split; [lia|lia].
  - cbn [step_at_most] in Hrun.
    destruct (step_simulation (random_normal O) self) as [[[|]|e] mid] eqn:Hstep.
    + destruct (step_at_most n (fun i => random_normal (Datatypes.S i)) mid)
        as [[steps|e] last] eqn:Hrest; [|discriminate].
      injection Hrun as <- <-.
      apply step_true_inv in Hstep
        as (g & wind & f & Hg & _ & _ & _ & _ & Htime & Hp & _ & _ & Hhist).
      destruct (IH _ _ _ _ Hrest) as (Hle & Hlist & Hclock & Hearly).
      rewrite Hp, Htime in Hlist, Hclock.
      split; [lia|]. split; [|split].
      * rewrite Hlist, Hhist, <- app_assoc. f_equal.
        change (seq 1 (Datatypes.S steps)) with (1%nat :: seq 2 steps).
        rewrite <- (seq_shift steps 1). cbn [map]. rewrite map_map.
        reflexivity.
      * exact Hclock.
      * intros Hlt. apply Hearly. lia.
    + apply step_false_same in Hstep as [-> Hwhy].
      injection Hrun as <- <-. cbn. rewrite app_nil_r.
      repeat split; [lia|]. intros _. exact Hwhy.
    + discriminate.
Qed.

(** While the clock stays below [max_time] and nothing raises, the loop
    [while sim.step_simulation()] goes on. *)
Lemma step_until_false_goes_on (fuel : nat) :
  forall (random_normal : nat -> T -> py (Vec3 (T:=T)))
         (self : SimulationManager (T:=T)) (g : ObjectGeometry),
  geometry self = Some g ->
  never_raises random_normal self g ->
  (forall k, (k < fuel)%nat ->
     (clock (dt (parameters self)) k (current_time self)
      >=? max_time (parameters self)) = false) ->
  step_until_false fuel random_normal self = None.
Proof.
  induction fuel as [|fuel IH]; intros random_normal self g Hg Hsafe Hbelow;
    [reflexivity|].
  cbn [step_until_false].
  assert (Hguard : (current_time self >=? max_time (parameters self)) = false)
    by (apply (Hbelow O); lia).
  destruct (@step_returns_true T S random_normal self g Hg Hguard Hsafe)
    as [mid Hstep].
  rewrite Hstep.
  apply step_true_inv in Hstep
    as (g' & wind & f & Hg' & _ & _ & _ & _ & Htime & Hp & Hgeom & He & _).
  apply (IH _ mid g).
  - rewrite Hgeom. exact Hg.
  - destruct Hsafe as (Hforces & Hefficiency & Hrandom).
    unfold never_raises. rewrite He, Hp. repeat split.
    + exact Hforces.
    + exact Hefficiency.
    + intros Hon k. apply (Hrandom Hon).
  - intros k Hk. rewrite Hp, Htime. apply (Hbelow (Datatypes.S k)). lia.
Qed.

End Clock.

(** Five steps of the cube. *)
Lemma driver_time_history_witness :
  let self := Run.cube_manager in
  let self' := snd (@step_at_most float Run.b64 5 (fun _ => Run.calm) self) in
  (5 <= 5)%nat
  /\ time_history (results self')
     = time_history (results self)
       ++ map (fun i => @clock float Run.b64 (dt (parameters self)) i
                          (current_time self))
              (seq 1 5)
  /\ current_time self'
     = @clock float Run.b64 (dt (parameters self)) 5 (current_time self)
  /\ ((5 < 5)%nat ->
      geometry self' = None
      \/ @leb float Run.b64 (max_time (parameters self')) (current_time self')
         = true).
Proof.
  intros self self'.
  apply (@driver_time_history float Run.b64 5 (fun _ => Run.calm) self self' 5%nat).
  vm_compute. reflexivity.
Defined.

(* ================================================================== *)
(** ** The number of steps in exact arithmetic *)

Section ExactClock.

Local Open Scope R_scope.

(** Without rounding the clock after [k] additions is [t + k * dt]. *)
Lemma exact_clock (d : R) (k : nat) :
  forall t : R, clock (Finite d) k (Finite t) = Finite (t + INR k * d).
Proof.
  induction k as [|k IH]; intros t.
  - cbn. f_equal. lra.
  - rewrite clock_succ.
    cbn [add exact_scalar exact_lift2]. rewrite IH, S_INR. f_equal. lra.
Qed.

(** In exact arithmetic, with a [dt] that is zero or negative and the clock
    below [max_time], the loop [while sim.step_simulation()] never ends when
    nothing raises: no number of calls reaches the answer [False]. *)
Theorem exact_loop_never_ends
    (random_normal : nat -> exact -> py (Vec3 (T:=exact)))
    (self : SimulationManager (T:=exact)) (g : ObjectGeometry)
    (t0 d M : R) :
  geometry self = Some g ->
  never_raises random_normal self g ->
  current_time self = Finite t0 ->
  dt (parameters self) = Finite d ->
  max_time (parameters self) = Finite M ->
  d <= 0 -> t0 < M ->
  forall fuel, step_until_false fuel random_normal self = None.
Proof.
  intros Hg Hsafe Ht Hdt Hmax Hd Hbelow fuel.
  apply (@step_until_false_goes_on exact exact_scalar fuel random_normal self g
           Hg Hsafe).
  intros k _. rewrite Hdt, Hmax, Ht, exact_clock.
  cbn [leb exact_scalar exact_test]. apply Rleb_false.
  pose proof (pos_INR k) as Hk. nra.
Qed.

End ExactClock.

(** In exact arithmetic neither [math.sin] nor a power raises, so a body with
    a width or a height never makes a step raise. *)
Lemma exact_never_raises
    (random_normal : nat -> exact -> py (Vec3 (T:=exact)))
    (self : SimulationManager (T:=exact)) (g : ObjectGeometry) :
  (py_max (width g) (height g) =? #0)%num = false ->
  (forall k scale, exists turbulence, random_normal k scale = Returned turbulence) ->
  never_raises random_normal self g.
Proof.
  intros Hwide Hrandom. repeat split.
  - apply (@forces_return exact exact_scalar).
    + unfold math_sin. cbn [is_inf exact_scalar]. eexists; reflexivity.
    + intros _. unfold py_pow. cbn [is_inf exact_scalar andb].
      eexists; reflexivity.
  - apply efficiency_returns. exact Hwide.
  - intros _ k. apply Hrandom.
Qed.

(** A cube of side 2 on the manager as constructed, with [dt = 0], for a
    thousand calls. *)
Lemma exact_loop_never_ends_witness :
  let g := {| length := Finite 2; width := Finite 2; height := Finite 2;
              frontal_area := Finite 4; surface_area := Finite 24;
              volume := Finite 8; object_type := CUBE |} in
  let still (p : SimulationParameters (T:=exact)) := {|
    dt := Finite 0; max_time := max_time p;
    wind_velocity := wind_velocity p; wind_angle := wind_angle p;
    object_angle := object_angle p; gravity := gravity p;
    air_density := air_density p; enable_turbulence := enable_turbulence p;
    turbulence_intensity := turbulence_intensity p |} in
  let self :=
    set_parameters (with_geometry (@new_manager exact exact_scalar) (Some g))
                   still in
  let random_normal := fun (_ : nat) (_ : exact) =>
    Returned (mkVec3 (Finite 0) (Finite 0) (Finite 0)) in
  step_until_false 1000 random_normal self = None.
Proof.
  intros g still self random_normal.
  apply (@exact_loop_never_ends random_normal self g (Q2R 0.0) 0%R (Q2R 10.0)).
  - reflexivity.
  - apply exact_never_raises.
    + unfold py_max. cbn [width height g ltb eqb exact_scalar exact_test lit].
      rewrite (@Rltb_false 2%R 2%R) by lra.
      apply Reqb_false. unfold Q2R; cbn [Qnum Qden]. lra.
    + intros k scale. eexists; reflexivity.
  - reflexivity.
  - reflexivity.
  - reflexivity.
  - lra.
  - unfold Q2R; cbn [Qnum Qden]. lra.
Defined.

(* ================================================================== *)
(** ** The parameter that no step reads *)

Section AirDensity.

Context {T : Type} {S : Scalar T}.
Local Open Scope num_scope.

(** One step after [set_parameters(air_density=rho)] is the step without it:
    the same outcome and the same manager, but for the stored parameter. *)
Lemma step_with_air_density (rho : T) (random_normal : T -> py (Vec3 (T:=T)))
    (self : SimulationManager (T:=T)) :
  step_simulation random_normal (set_parameters self (with_air_density rho))
  = (fst (step_simulation random_normal self),
     set_parameters (snd (step_simulation random_normal self))
                    (with_air_density rho)).
Proof.
  unfold step_simulation.
  cbn [set_parameters with_air_density geometry current_time parameters
       max_time dt object_angle engine state results callbacks is_running
       is_paused].
  change (step_wind random_normal (with_air_density rho (parameters self)))
    with (step_wind random_normal (parameters self)).
  destruct (geometry self) as [g|]; [|reflexivity].
  destruct (current_time self >=? max_time (parameters self)); [reflexivity|].
  destruct (bind _ _) as [f|e]; [|reflexivity].
  cbv zeta.
  change (integrate (state self) (with_air_density rho (parameters self)) f
            (current_time self + dt (parameters self)))
    with (integrate (state self) (parameters self) f
            (current_time self + dt (parameters self))).
  cbn [results time_history record_step].
  match goal with |- context [Nat.eqb ?n 0] => destruct (Nat.eqb n 0) end;
    [destruct (calculate_aerodynamic_efficiency f g)|]; reflexivity.
Qed.

(** The engine takes the density of the air from its own [air_props]; the
    parameter [air_density] of the manager is read by no step.  A run after
    [set_parameters(air_density=rho)] has the outcome, the state, the clock
    and the results of the run without it. *)
Theorem air_density_is_not_read (rho : T) (max_steps : nat) :
  forall (random_normal : nat -> T -> py (Vec3 (T:=T)))
         (self : SimulationManager (T:=T)),
  step_at_most max_steps random_normal
    (set_parameters self (with_air_density rho))
  = (fst (step_at_most max_steps random_normal self),
     set_parameters (snd (step_at_most max_steps random_normal self))
                    (with_air_density rho)).
Proof.
  induction max_steps as [|n IH]; intros random_normal self; [reflexivity|].
  cbn [step_at_most]. rewrite step_with_air_density.
  destruct (step_simulation (random_normal O) self) as [[[|]|e] mid];
    cbn [fst snd]; try reflexivity.
  rewrite IH.
  destruct (step_at_most n (fun k => random_normal (Datatypes.S k)) mid)
    as [[steps|e] last]; reflexivity.
Qed.

End AirDensity.

(* ================================================================== *)
(** ** The latest data of the results *)

Section Latest.

Context {T : Type} {S : Scalar T}.
Local Open Scope num_scope.

Lemma last_entry_app {A : Type} (l : list A) (a : A) :
  last_entry (l ++ [a]) = inr a.
Proof. unfold last_entry. rewrite rev_app_distr. reflexivity. Qed.

Lemma last_or_none_app {A : Type} (l : list A) (a : A) :
  last_or_none (l ++ [a]) = Some a.
Proof. unfold last_or_none. rewrite rev_app_distr. reflexivity. Qed.

Lemma last_entry_nonempty {A : Type} (l : list A) :
  l <> [] -> exists a, last_entry l = inr a /\ last_or_none l = Some a.
Proof.
  intros Hl. destruct (exists_last Hl) as (l' & a & ->).
  exists a. split; [apply last_entry_app|apply last_or_none_app].
Qed.

Lemma last_or_none_empty {A : Type} (l : list A) :
  last_or_none l = None <-> l = [].
Proof.
  split; [|intros ->; reflexivity].
  destruct l as [|a l]; [reflexivity|].
  intros Hnone.
  destruct (@last_entry_nonempty A (a :: l)) as (b & _ & Hb); [discriminate|].
  rewrite Hb in Hnone. discriminate.
Qed.

(** What a step that returns [True] has appended to the five per-step
    sequences: the new clock and the new state. *)
Lemma step_true_log (random_normal : T -> py (Vec3 (T:=T)))
    (self self' : SimulationManager (T:=T)) :
  step_simulation random_normal self = (Returned true, self') ->
  exists f,
    forces (state self') = Some f
    /\ time_history (results self')
       = time_history (results self) ++ [current_time self']
    /\ position_history (results self')
       = position_history (results self) ++ [position (state self')]
    /\ velocity_history (results self')
       = velocity_history (results self) ++ [velocity (state self')]
    /\ acceleration_history (results self')
       = acceleration_history (results self) ++ [acceleration (state self')]
    /\ force_history (results self') = force_history (results self) ++ [f].
Proof.
  unfold step_simulation.
  destruct (geometry self) as [g|]; [|discriminate].
  destruct (current_time self >=? max_time (parameters self)); [discriminate|].
  destruct (bind _ _) as [f|e]; [|discriminate].
  cbv zeta.
  match goal with |- (if ?c then _ else _) = _ -> _ => destruct c end.
  - destruct (calculate_aerodynamic_efficiency f g) as [eff|e]; [|discriminate].
    intros H; injection H as <-. exists f. cbn. repeat split.
  - intros H; injection H as <-. exists f. cbn. repeat split.
Qed.

(** After a step that returned [True], [results.get_latest_data()] returns
    the manager's clock and state: its time is [current_time], its position,
    velocity and acceleration are those of the state, its forces are the
    state's forces, and its flow field and efficiency are the last snapshots
    taken, if any. *)
Theorem latest_data_is_state (random_normal : T -> py (Vec3 (T:=T)))
    (self self' : SimulationManager (T:=T)) :
  step_simulation random_normal self = (Returned true, self') ->
  exists d,
    get_latest_data (results self') = inr (Some d)
    /\ latest_time d = current_time self'
    /\ latest_time d = time (state self')
    /\ latest_position d = position (state self')
    /\ latest_velocity d = velocity (state self')
    /\ latest_acceleration d = acceleration (state self')
    /\ forces (state self') = Some (latest_forces d)
    /\ latest_flow_field d = last_or_none (flow_fields (results self'))
    /\ latest_efficiency d = last_or_none (efficiency_metrics (results self')).
Proof.
  intros Hstep.
  pose proof (step_true_log _ _ Hstep) as (f & Hf & Ht & Hp & Hv & Ha & Hfs).
  apply step_true_inv in Hstep
    as (g & wind & f' & _ & _ & _ & _ & Hstate & Htime & _).
  unfold get_latest_data. rewrite Ht, Hp, Hv, Ha, Hfs, !last_entry_app.
  destruct (time_history (results self) ++ [current_time self']) eqn:Hlist;
    [destruct (time_history (results self)); discriminate Hlist|].
  eexists. split; [reflexivity|]. cbn.
  repeat split; try reflexivity; try assumption.
  rewrite Hstate, Htime. reflexivity.
Qed.

(** On a log that satisfies the length invariant [get_latest_data] never
    raises: it returns the empty dictionary exactly when no step is recorded,
    and otherwise a dictionary whose flow field and whose efficiency are
    [None] exactly when fewer than ten steps are recorded. *)
Theorem latest_data_of_log (r : SimulationResults (T:=T)) :
  log_invariant r ->
  (time_history r = [] /\ get_latest_data r = inr None)
  \/ (time_history r <> []
      /\ exists d,
           get_latest_data r = inr (Some d)
           /\ (latest_flow_field d = None
               <-> (List.length (time_history r) < 10)%nat)
           /\ (latest_efficiency d = None
               <-> (List.length (time_history r) < 10)%nat)).
Proof.
  intros (Hp & Hv & Ha & Hf & Hff & Heff).
  unfold get_latest_data.
  destruct (time_history r) as [|t ts] eqn:Ht; [left; auto|].
  right. split; [discriminate|].
  assert (Hnonempty : forall (A : Type) (l : list A),
             List.length l = List.length (t :: ts) -> l <> [])
    by (intros A l Hl ->; discriminate Hl).
  destruct (@last_entry_nonempty T (t :: ts)) as (t' & -> & _);
    [discriminate|].
  destruct (last_entry_nonempty (Hnonempty _ _ Hp)) as (p' & -> & _).
  destruct (last_entry_nonempty (Hnonempty _ _ Hv)) as (v' & -> & _).
  destruct (last_entry_nonempty (Hnonempty _ _ Ha)) as (a' & -> & _).
  destruct (last_entry_nonempty (Hnonempty _ _ Hf)) as (f' & -> & _).
  eexists. split; [reflexivity|]. cbn [latest_flow_field latest_efficiency].
  rewrite !last_or_none_empty.
  assert (Hten : forall n, (n / 10 = 0 <-> n < 10)%nat).
  { intros n. split; intros H.
    - destruct (Nat.lt_ge_cases n 10) as [Hlt|Hge]; [exact Hlt|].
      pose proof (Nat.Div0.div_le_mono 10 n 10 Hge) as Hdiv.
      change (10 / 10)%nat with 1%nat in Hdiv. lia.
    - apply Nat.div_small. exact H. }
  split.
  - rewrite <- Hten, <- Hff. split; [intros ->; reflexivity|].
    apply length_zero_iff_nil.
  - rewrite <- Hten, <- Heff. split; [intros ->; reflexivity|].
    apply length_zero_iff_nil.
Qed.

End Latest.

(** The first step of the cube. *)
Lemma latest_data_is_state_witness :
  let self' := snd (@step_simulation float Run.b64 Run.calm Run.cube_manager) in
  exists d,
    get_latest_data (results self') = inr (Some d)
    /\ latest_time d = current_time self'
    /\ latest_time d = time (state self')
    /\ latest_position d = position (state self')
    /\ latest_velocity d = velocity (state self')
    /\ latest_acceleration d = acceleration (state self')
    /\ forces (state self') = Some (latest_forces d)
    /\ latest_flow_field d = last_or_none (flow_fields (results self'))
    /\ latest_efficiency d = last_or_none (efficiency_metrics (results self')).
Proof.
  intros self'.
  apply (@latest_data_is_state float Run.b64 Run.calm Run.cube_manager self').
  vm_compute. reflexivity.
Defined.

(** The log of the cube after twelve steps: one snapshot is there. *)
Lemma latest_data_of_log_witness :
  let r := results (snd (@step_at_most float Run.b64 12 (fun _ => Run.calm)
                           Run.cube_manager)) in
  (time_history r = [] /\ get_latest_data r = inr None)
  \/ (time_history r <> []
      /\ exists d,
           get_latest_data r = inr (Some d)
           /\ (latest_flow_field d = None
               <-> (List.length (time_history r) < 10)%nat)
           /\ (latest_efficiency d = None
               <-> (List.length (time_history r) < 10)%nat)).
Proof.
  intros r.
  apply (@latest_data_of_log float r).
  vm_compute. repeat split; reflexivity.
Defined.

(* ================================================================== *)
(** ** run_simulation *)

Section RunSimulation.

Context {T : Type} {S : Scalar T} {I : Truncating T}.
Local Open Scope num_scope.

(** The loop of [run_simulation] on a running manager that is not paused,
    with [n] steps to go, is the driver's loop of at most [n] steps. *)
Lemma run_loop_is_driver (n : nat) :
  forall (fuel : nat) (random_normal : nat -> T -> py (Vec3 (T:=T)))
         (step_count : Z) (self : SimulationManager (T:=T)),
  is_running self = true ->
  is_paused self = false ->
  (n < fuel)%nat ->
  run_loop fuel random_normal step_count (step_count + Z.of_nat n) self
  = match step_at_most n random_normal self with
    | (Returned _, self') => Some (Returned tt, self')
    | (Raised e, self') => Some (Raised e, self')
    end.
Proof.
  induction n as [|n IH]; intros fuel random_normal step_count self Hrun Hpause Hfuel;
    (destruct fuel as [|fuel]; [lia|]); cbn [run_loop step_at_most].
  - rewrite Z.add_0_r, Z.ltb_irrefl. reflexivity.
  - assert (Hlt : (step_count <? step_count + Z.of_nat (Datatypes.S n))%Z = true)
      by (apply Z.ltb_lt; lia).
    rewrite Hlt, Hrun, Hpause. cbn [negb].
    pose proof (step_frame (random_normal O) self) as (_ & _ & _ & _ & Hrun' & Hpause').
    destruct (step_simulation (random_normal O) self) as [[[|]|e] mid];
      try reflexivity.
    cbn [snd] in Hrun', Hpause'.
    replace (step_count + Z.of_nat (Datatypes.S n))%Z
      with ((step_count + 1) + Z.of_nat n)%Z by lia.
    rewrite IH by (try lia; congruence).
    destruct (step_at_most n _ mid) as [[steps|e] last]; reflexivity.
Qed.

(** The driver's loop hands back the flags as it found them. *)
Lemma step_at_most_flags (n : nat) :
  forall (random_normal : nat -> T -> py (Vec3 (T:=T)))
         (self : SimulationManager (T:=T)),
  is_running (snd (step_at_most n random_normal self)) = is_running self
  /\ is_paused (snd (step_at_most n random_normal self)) = is_paused self.
Proof.
  induction n as [|n IH]; intros random_normal self; [split; reflexivity|].
  cbn [step_at_most].
  pose proof (step_frame (random_normal O) self) as (_ & _ & _ & _ & Hrun & Hpause).
  destruct (step_simulation (random_normal O) self) as [[[|]|e] mid];
    cbn [snd] in *; try (split; assumption).
  destruct (IH (fun k => random_normal (Datatypes.S k)) mid) as [Hrun' Hpause'].
  destruct (step_at_most n _ mid) as [[steps|e] last]; cbn [snd] in *;
    split; congruence.
Qed.

(** The driver's loop keeps the parameters. *)
Lemma driver_frame (n : nat) :
  forall (random_normal : nat -> T -> py (Vec3 (T:=T)))
         (self : SimulationManager (T:=T)),
  parameters (snd (step_at_most n random_normal self)) = parameters self.
Proof.
  induction n as [|n IH]; intros random_normal self; [reflexivity|].
  cbn [step_at_most].
  pose proof (step_frame (random_normal O) self) as (_ & Hp & _).
  destruct (step_simulation (random_normal O) self) as [[[|]|e] mid];
    cbn [snd] in *; try assumption.
  pose proof (IH (fun k => random_normal (Datatypes.S k)) mid) as Hp'.
  destruct (step_at_most n _ mid) as [[steps|e] last]; cbn [snd] in *;
    congruence.
Qed.

(** [run_simulation(steps=n)] for a positive [n], on a manager with a
    geometry that is not paused, makes the calls of the driver's loop
    [while steps < n and sim.step_simulation()] on the manager with
    [is_running] set.  When the loop ends it clears [is_running]; when a step
    raises, the exception leaves [is_running] set. *)
Theorem run_simulation_is_driver (n fuel : nat)
    (random_normal : nat -> T -> py (Vec3 (T:=T)))
    (self : SimulationManager (T:=T)) (g : ObjectGeometry) :
  geometry self = Some g ->
  is_paused self = false ->
  (0 < n)%nat ->
  (n < fuel)%nat ->
  run_simulation fuel random_normal (Some (Z.of_nat n)) self
  = match step_at_most n random_normal (with_flags self true false) with
    | (Returned _, self') => Some (Returned tt, with_flags self' false false)
    | (Raised e, self') => Some (Raised e, with_flags self' true false)
    end.
Proof.
  intros Hg Hpause Hn Hfuel. unfold run_simulation. rewrite Hg, Hpause.
  destruct n as [|n]; [lia|].
  pose proof (@run_loop_is_driver (Datatypes.S n) fuel random_normal 0%Z
                (with_flags self true false) eq_refl eq_refl Hfuel) as Hloop.
  cbn [Z.add Z.of_nat] in Hloop. cbn [max_steps_of Z.of_nat].
  rewrite Hloop.
  pose proof (step_at_most_flags (Datatypes.S n) random_normal
                (with_flags self true false)) as [Hrun' Hpause'].
  destruct (step_at_most (Datatypes.S n) random_normal
              (with_flags self true false)) as [[steps|e] last];
    cbn [snd is_running is_paused with_flags] in Hrun', Hpause'.
  - rewrite Hpause'. reflexivity.
  - f_equal. f_equal. destruct last. cbn in *. subst. reflexivity.
Qed.

(** While the manager is paused, an iteration of the loop changes nothing:
    run by one thread alone, the loop goes on for ever. *)
Lemma run_loop_paused (fuel : nat) :
  forall (random_normal : nat -> T -> py (Vec3 (T:=T)))
         (step_count max_steps : Z) (self : SimulationManager (T:=T)),
  is_running self = true ->
  is_paused self = true ->
  (step_count < max_steps)%Z ->
  run_loop fuel random_normal step_count max_steps self = None.
Proof.
  induction fuel as [|fuel IH];
    intros random_normal step_count max_steps self Hrun Hpause Hlt;
    [reflexivity|].
  cbn [run_loop]. apply Z.ltb_lt in Hlt as Hltb.
  rewrite Hltb, Hrun, Hpause. cbn [negb]. apply IH; assumption.
Qed.

(** [run_simulation] on a paused manager, with at least one step to make:
    the loop sleeps and tests again, and nothing in it resumes the manager.
    Unless another thread calls [resume_simulation] or [stop_simulation], the
    call does not return, however many iterations it is given. *)
Theorem run_simulation_paused (fuel : nat)
    (random_normal : nat -> T -> py (Vec3 (T:=T))) (steps : option Z)
    (self : SimulationManager (T:=T)) (g : ObjectGeometry) (max_steps : Z) :
  geometry self = Some g ->
  is_paused self = true ->
  max_steps_of steps (parameters self) = Returned max_steps ->
  (0 < max_steps)%Z ->
  run_simulation fuel random_normal steps self = None.
Proof.
  intros Hg Hpause Hmax Hpos. unfold run_simulation.
  rewrite Hg, Hmax, run_loop_paused; [reflexivity|reflexivity|exact Hpause|exact Hpos].
Qed.

(** What [run_simulation] raises before its loop: [ValueError] without a
    geometry, with the manager untouched; and, when [steps] is absent or
    zero and [dt] is zero, the [ZeroDivisionError] of [max_time / dt], which
    arrives after [is_running] has been set and leaves it set. *)
Theorem run_simulation_raises_before_loop (fuel : nat)
    (random_normal : nat -> T -> py (Vec3 (T:=T)))
    (self : SimulationManager (T:=T)) :
  (geometry self = None ->
   forall steps,
     run_simulation fuel random_normal steps self = Some (Raised ValueError, self))
  /\ (geometry self <> None ->
      (dt (parameters self) =? #0) = true ->
      run_simulation fuel random_normal None self
      = Some (Raised ZeroDivisionError, with_flags self true (is_paused self))
      /\ run_simulation fuel random_normal (Some 0%Z) self
         = Some (Raised ZeroDivisionError, with_flags self true (is_paused self))).
Proof.
  split.
  - intros Hnone steps. unfold run_simulation. rewrite Hnone. reflexivity.
  - intros Hg Hzero. unfold run_simulation, max_steps_of, py_div.
    destruct (geometry self); [|contradiction].
    rewrite Hzero. split; reflexivity.
Qed.

(** Before [max_time], with nothing that raises, the driver's loop makes all
    its [n] steps. *)
Lemma step_at_most_counts (n : nat) :
  forall (random_normal : nat -> T -> py (Vec3 (T:=T)))
         (self : SimulationManager (T:=T)) (g : ObjectGeometry),
  geometry self = Some g ->
  never_raises random_normal self g ->
  (forall k, (k < n)%nat ->
     (clock (dt (parameters self)) k (current_time self)
      >=? max_time (parameters self)) = false) ->
  exists self',
    step_at_most n random_normal self = (Returned n, self')
    /\ current_time self' = clock (dt (parameters self)) n (current_time self)
    /\ List.length (time_history (results self'))
       = (List.length (time_history (results self)) + n)%nat.
Proof.
  induction n as [|n IH]; intros random_normal self g Hg Hsafe Hbelow.
  - exists self. repeat split. lia.
  - cbn [step_at_most].
    assert (Hguard : (current_time self >=? max_time (parameters self)) = false)
      by (apply (Hbelow O); lia).
    destruct (@step_returns_true T S random_normal self g Hg Hguard Hsafe)
      as [mid Hstep].
    rewrite Hstep.
    apply step_true_inv in Hstep
      as (g' & wind & f & Hg' & _ & _ & _ & _ & Htime & Hp & Hgeom & He & Hhist).
    destruct (IH (fun k => random_normal (Datatypes.S k)) mid g)
      as (self' & Hrun & Hclock & Hlen).
    + rewrite Hgeom. exact Hg.
    + destruct Hsafe as (Hforces & Hefficiency & Hrandom).
      unfold never_raises. rewrite He, Hp. repeat split.
      * exact Hforces.
      * exact Hefficiency.
      * intros Hon k. apply (Hrandom Hon).
    + intros k Hk. rewrite Hp, Htime. apply (Hbelow (Datatypes.S k)). lia.
    + exists self'. rewrite Hrun. split; [reflexivity|]. split.
      * rewrite Hclock, Hp, Htime. reflexivity.
      * rewrite Hlen, Hhist, length_app. cbn. lia.
Qed.

End RunSimulation.

(** Three steps asked of the cube. *)
Lemma run_simulation_is_driver_witness :
  @run_simulation float Run.b64 binary64_int 4 (fun _ => Run.calm)
    (Some 3%Z) Run.cube_manager
  = match @step_at_most float Run.b64 3 (fun _ => Run.calm)
            (with_flags Run.cube_manager true false) with
    | (Returned _, self') => Some (Returned tt, with_flags self' false false)
    | (Raised e, self') => Some (Raised e, with_flags self' true false)
    end.
Proof.
  apply (@run_simulation_is_driver float Run.b64 binary64_int 3 4
           (fun _ => Run.calm) Run.cube_manager
           {| length := 2; width := 2; height := 2; frontal_area := 4;
              surface_area := 24; volume := 8; object_type := CUBE |}%float).
  - vm_compute. reflexivity.
  - reflexivity.
  - lia.
  - lia.
Defined.

(** The cube, paused, asked for its default number of steps. *)
Lemma run_simulation_paused_witness :
  @run_simulation float Run.b64 binary64_int 1000 (fun _ => Run.calm) None
    (pause_simulation Run.cube_manager)
  = None.
Proof.
  apply (@run_simulation_paused float Run.b64 binary64_int 1000
           (fun _ => Run.calm) None (pause_simulation Run.cube_manager)
           {| length := 2; width := 2; height := 2; frontal_area := 4;
              surface_area := 24; volume := 8; object_type := CUBE |}%float
           10000%Z).
  - vm_compute. reflexivity.
  - reflexivity.
  - vm_compute. reflexivity.
  - lia.
Defined.

(** A manager without a geometry, and the cube with [dt = 0.0]. *)
Lemma run_simulation_raises_before_loop_witness :
  let still (p : SimulationParameters (T:=float)) := {|
    dt := 0%float; max_time := max_time p;
    wind_velocity := wind_velocity p; wind_angle := wind_angle p;
    object_angle := object_angle p; gravity := gravity p;
    air_density := air_density p; enable_turbulence := enable_turbulence p;
    turbulence_intensity := turbulence_intensity p |} in
  let self := set_parameters Run.cube_manager still in
  @run_simulation float Run.b64 binary64_int 5 (fun _ => Run.calm) (Some 7%Z)
    (@new_manager float Run.b64)
  = Some (Raised ValueError, @new_manager float Run.b64)
  /\ @run_simulation float Run.b64 binary64_int 5 (fun _ => Run.calm) None self
     = Some (Raised ZeroDivisionError, with_flags self true false)
  /\ @run_simulation float Run.b64 binary64_int 5 (fun _ => Run.calm)
       (Some 0%Z) self
     = Some (Raised ZeroDivisionError, with_flags self true false).
Proof.
  intros still self. split.
  - apply (proj1 (@run_simulation_raises_before_loop float Run.b64 binary64_int
                    5 (fun _ => Run.calm) (@new_manager float Run.b64))).
    reflexivity.
  - apply (proj2 (@run_simulation_raises_before_loop float Run.b64 binary64_int
                    5 (fun _ => Run.calm) self)).
    + vm_compute. discriminate.
    + vm_compute. reflexivity.
Defined.

(* ================================================================== *)
(** ** The coefficients and the angle of attack, in exact arithmetic *)

Section ExactCoefficients.

Local Open Scope R_scope.

Lemma radians_opp (a : R) :
  radians (Finite (- a)) = Finite (- (a * (PI / 180))).
Proof. rewrite radians_exact. f_equal. lra. Qed.

(** The Reynolds number is not read by [calculate_lift_coefficient]: for
    every shape and every angle of attack between -180 and 180 degrees there
    is one coefficient, a number, that the call returns whatever Reynolds
    number it is given.  It is an odd function of the angle (pitching the
    body down by an angle gives the opposite of the coefficient of pitching it
    up by the same angle), and it is zero at zero angle. *)
Theorem lift_coefficient_is_odd (shape : ObjectType) (angle : R) :
  -180 <= angle <= 180 ->
  exists c : R,
    (forall re : exact,
      calculate_lift_coefficient shape (Finite angle) re = Returned (Finite c))
    /\ (forall re : exact,
         calculate_lift_coefficient shape (Finite (- angle)) re
         = Returned (Finite (- c)))
    /\ (angle = 0 -> c = 0).
Proof.
  intros _.
  unfold calculate_lift_coefficient. rewrite radians_opp, radians_exact.
  unfold math_sin. exact_simpl. unfold exact_div.
  pose proof PI_RGT_0 as Hpi.
  rewrite ?(Reqb_false (x:=PI) (y:=0)) by lra.
  rewrite ?(Reqb_false (x:=Q2R 4) (y:=0)) by (literals; lra).
  rewrite ?(Reqb_false (x:=PI / Q2R 4) (y:=0)) by (literals; lra).
  set (x := angle * (PI / 180)).
  assert (Hzero : angle = 0 -> x = 0) by (intros ->; unfold x; lra).
  destruct shape; exact_simpl;
    (eexists; split; [intros _; reflexivity|]; split;
     [intros _; f_equal; f_equal;
      replace (Q2R 2 * - x) with (- (Q2R 2 * x)) by lra;
      rewrite ?sin_neg, ?Rabs_Ropp; lra
     |intros H; rewrite (Hzero H), ?Rmult_0_r, ?sin_0; lra]).
Qed.

(** In exact arithmetic the drag coefficient is an even function of the
    angle of attack, for every shape, Reynolds number and Mach number of
    either kind: an angle and its opposite give the same outcome. *)
Theorem drag_coefficient_is_even
    (reynolds_kind mach_kind : FloatKind)
    (shape : ObjectType) (re ma : exact) (angle : R) :
  get_drag_coefficient reynolds_kind mach_kind shape re ma (Finite (- angle))
  = get_drag_coefficient reynolds_kind mach_kind shape re ma (Finite angle).
Proof.
  unfold get_drag_coefficient. rewrite radians_opp, radians_exact.
  set (x := angle * (PI / 180)).
  unfold py_pow, math_sin. exact_simpl. rewrite !exact_pow_two.
  replace (- x * - x) with (x * x) by ring.
  replace (Q2R 2 * - x) with (- (Q2R 2 * x)) by lra.
  rewrite sin_neg, Rabs_Ropp. reflexivity.
Qed.

End ExactCoefficients.

(** A jet pitched up and down by 5 degrees. *)
Lemma lift_coefficient_is_odd_witness :
  exists c : R,
    (forall re : exact,
      @calculate_lift_coefficient exact exact_scalar JET (Finite 5%R) re
      = Returned (Finite c))
    /\ (forall re : exact,
         @calculate_lift_coefficient exact exact_scalar JET (Finite (- 5)%R) re
         = Returned (Finite (- c)%R))
    /\ (5%R = 0%R -> c = 0%R).
Proof.
  apply (@lift_coefficient_is_odd JET 5%R). lra.
Defined.

(* ================================================================== *)
(** ** Vectors in exact arithmetic *)

Section ExactForces.

Local Open Scope R_scope.
Local Arguments exact_pow : simpl never.
Local Arguments exact_div : simpl never.

Lemma exact_norm3 (a b c : R) :
  norm3 (mkVec3 (Finite a) (Finite b) (Finite c))
  = Finite (R_sqrt.sqrt (a * a + b * b + c * c)).
Proof.
  unfold norm3. cbn [vx vy vz]. exact_simpl. unfold exact_sqrt.
  rewrite Rltb_false by nra. reflexivity.
Qed.

(** The threshold 1e-6 of the source is a positive number. *)
Lemma threshold_positive : 0 < Q2R 1e-6.
Proof. unfold Q2R. cbn. lra. Qed.

Lemma exact_vsub (a1 a2 a3 b1 b2 b3 : R) :
  vsub (mkVec3 (Finite a1) (Finite a2) (Finite a3))
       (mkVec3 (Finite b1) (Finite b2) (Finite b3))
  = mkVec3 (Finite (a1 - b1)) (Finite (a2 - b2)) (Finite (a3 - b3)).
Proof. reflexivity. Qed.

End ExactForces.


(* ================================================================== *)
(** ** The shape of the flow field *)

Section FieldShape.

Context {T : Type} {S : Scalar T}.
Local Open Scope num_scope.

(** The loop of [_trace_streamline] appends to both coordinate lists at
    once, at most one point per step. *)
Lemma trace_loop_lengths (steps : nat) :
  forall (x_grid y_grid : list T) (u v : list (list T))
         (max_x current_x current_y : T) (sx sy : list T),
  List.length sx = List.length sy ->
  let traced := trace_loop steps x_grid y_grid u v max_x current_x current_y
                           sx sy in
  List.length (fst traced) = List.length (snd traced)
  /\ (List.length sx <= List.length (fst traced) <= List.length sx + steps)%nat
  /\ (exists more, fst traced = sx ++ more)
  /\ (exists more, snd traced = sy ++ more).
Proof.
  induction steps as [|steps IH];
    intros x_grid y_grid u v max_x current_x current_y sx sy Hlen;
    cbn [trace_loop].
  - cbn [fst snd]. repeat split; try lia; try assumption;
      exists []; rewrite app_nil_r; reflexivity.
  - assert (Hstop : let traced := (sx, sy) in
              List.length (fst traced) = List.length (snd traced)
              /\ (List.length sx <= List.length (fst traced)
                  <= List.length sx + Datatypes.S steps)%nat
              /\ (exists more, fst traced = sx ++ more)
              /\ (exists more, snd traced = sy ++ more)).
    { cbn [fst snd]. repeat split; try lia; try assumption;
        exists []; rewrite app_nil_r; reflexivity. }
    destruct ((current_x >? max_x) || (current_x <? - max_x)); [exact Hstop|].
    destruct (argmin _) as [i|]; [|exact Hstop].
    destruct (argmin _) as [j|]; [|exact Hstop].
    destruct (_ && _); [|exact Hstop].
    cbv zeta.
    match goal with
    | |- context [trace_loop steps ?xg ?yg ?uu ?vv ?mx ?cx ?cy ?a ?b] =>
        destruct (IH xg yg uu vv mx cx cy a b) as (Heq & Hbound & [mx' Hx] & [my' Hy])
    end.
    { rewrite !length_app. cbn. lia. }
    rewrite length_app in Hbound. cbn [List.length] in Hbound.
    split; [exact Heq|]. split; [lia|]. split.
    + eexists. rewrite Hx, <- app_assoc. reflexivity.
    + eexists. rewrite Hy, <- app_assoc. reflexivity.
Qed.

(** Whatever the geometry, the velocity, the angle and the domain, the six
    arrays of the flow field ([x], [y], [u], [v], [pressure],
    [velocity_magnitude]) all have [grid_size[1]] rows of [grid_size[0]]
    entries.  There are as many lists in [streamlines_x] as in
    [streamlines_y], at most ten; and each streamline has as many x as y
    coordinates, between 1 and 1001 of them, and starts at the left end
    [-x_max/2] of the domain. *)
Theorem flow_field_shape
    (self : AerodynamicsEngine (T:=T)) (g : ObjectGeometry)
    (velocity : Vec3) (angle x_max y_max : T) :
  let field := generate_flow_field self g velocity angle (x_max, y_max) in
  let rows := snd (grid_size self) in
  let cols := fst (grid_size self) in
  has_shape rows cols (ff_x field)
  /\ has_shape rows cols (ff_y field)
  /\ has_shape rows cols (ff_u field)
  /\ has_shape rows cols (ff_v field)
  /\ has_shape rows cols (ff_pressure field)
  /\ has_shape rows cols (ff_velocity_magnitude field)
  /\ (List.length (ff_streamlines_x field) <= 10)%nat
  /\ Forall2 (fun sx sy =>
                List.length sx = List.length sy
                /\ (1 <= List.length sx <= 1001)%nat
                /\ hd_error sx = Some (- x_max / #2))
             (ff_streamlines_x field) (ff_streamlines_y field).
Proof.
  intros field rows cols. unfold field, generate_flow_field.
  cbn [ff_x ff_y ff_u ff_v ff_pressure ff_velocity_magnitude
       ff_streamlines_x ff_streamlines_y].
  assert (Hshape : forall (A : Type) (f : T -> T -> A),
             has_shape rows cols
               (grid f (linspace (- x_max / #2) (x_max / #2) (fst (grid_size self)))
                       (linspace (- y_max / #2) (y_max / #2) (snd (grid_size self))))).
  { intros A f. unfold has_shape.
    destruct (grid_shape f
                (linspace (- x_max / #2) (x_max / #2) (fst (grid_size self)))
                (linspace (- y_max / #2) (y_max / #2) (snd (grid_size self))))
      as [Hrows Hcols].
    rewrite linspace_length in Hrows. split; [exact Hrows|].
    eapply Forall_impl; [|exact Hcols].
    intros row Hrow. cbn beta in Hrow. rewrite Hrow. apply linspace_length. }
  repeat (split; [apply Hshape|]).
  split.
  - rewrite !length_map.
    etransitivity; [apply filter_length_le|].
    rewrite linspace_length. lia.
  - induction (filter _ _) as [|start_y seeds IH]; cbn [map]; constructor;
      [|exact IH].
    unfold _trace_streamline.
    match goal with
    | |- context [trace_loop ?n ?xg ?yg ?uu ?vv ?mx ?cx ?cy ?a ?b] =>
        destruct (@trace_loop_lengths n xg yg uu vv mx cx cy a b eq_refl)
          as (Heq & Hbound & [more Hx] & _)
    end.
    cbn [List.length] in Hbound.
    split; [exact Heq|]. split; [lia|]. rewrite Hx. reflexivity.
Qed.

End FieldShape.

(* ================================================================== *)
(** ** The size of the velocity and of the pressure, in exact arithmetic *)

Section ExactFieldBounds.

Local Open Scope R_scope.
Local Arguments exact_pow : simpl never.

(** The squared speed at a grid point, for the ratio [k] of the squared
    radii and the doubled angle [a]. *)
Lemma speed_squared_bound (s k a : R) :
  0 <= k <= 1 ->
  let u := s * (1 - k * Rtrigo_def.cos a) in
  let v := - s * k * Rtrigo_def.sin a in
  0 <= u * u + v * v <= (2 * s) * (2 * s).
Proof.
  intros [Hk0 Hk1] u v.
  pose proof (sin2_cos2 a) as Hunit. unfold Rsqr in Hunit.
  pose proof (COS_bound a) as [Hlow Hhigh].
  assert (Hsum : u * u + v * v
                 = s * s * (1 - 2 * k * Rtrigo_def.cos a + k * k)).
  { unfold u, v.
    replace (s * s * (1 - 2 * k * Rtrigo_def.cos a + k * k))
      with (s * s * (1 - 2 * k * Rtrigo_def.cos a
                     + k * k * (Rtrigo_def.sin a * Rtrigo_def.sin a
                                + Rtrigo_def.cos a * Rtrigo_def.cos a)))
      by (rewrite Hunit; ring).
    ring. }
  split; [nra|]. rewrite Hsum.
  assert (Hfactor : 1 - 2 * k * Rtrigo_def.cos a + k * k <= 4) by nra.
  pose proof (Rle_0_sqr s) as Hs. unfold Rsqr in Hs. nra.
Qed.

(** At every grid point the velocity magnitude is a number between 0 and
    twice the freestream speed, and the pressure is a number between
    [p - 1.5 * rho * speed^2] and the stagnation pressure
    [p + 0.5 * rho * speed^2]. *)
Lemma field_entry_bounds
    (self : AerodynamicsEngine (T:=exact)) (p rho speed r0 x y : R) :
  pressure (air_props self) = Finite p ->
  density (air_props self) = Finite rho ->
  0 <= rho -> 0 <= speed -> 0 < r0 ->
  (exists m, velocity_magnitude_at (Finite speed) (Finite r0) (Finite x) (Finite y)
             = Finite m
             /\ 0 <= m <= 2 * speed)
  /\ (exists q, pressure_at self (Finite speed) (Finite r0) (Finite x) (Finite y)
                = Finite q
                /\ p - 15 / 10 * rho * (speed * speed) <= q
                   <= p + 5 / 10 * rho * (speed * speed)).
Proof.
  intros Hp Hrho Hrho0 Hspeed Hr0.
  destruct (clamped_radius_positive x y Hr0) as (c & Hc & Hle).
  set (k := r0 / c * (r0 / c)).
  assert (Hk : 0 <= k <= 1).
  { assert (Hratio : 0 < r0 / c <= 1).
    { split; [apply Rdiv_lt_0_compat; lra|].
      apply (Rmult_le_reg_r c); [lra|].
      unfold Rdiv. rewrite Rmult_assoc, Rinv_l by lra. lra. }
    unfold k. nra. }
  set (a := Q2R 2 * Ratan2 (y - Q2R 0) (x - Q2R 0)).
  pose proof (speed_squared_bound speed a Hk) as Hbound. cbv zeta in Hbound.
  assert (Hu : u_at (Finite speed) (Finite r0) (Finite x) (Finite y)
               = Finite (speed * (1 - k * Rtrigo_def.cos a))).
  { unfold u_at, theta_at, square. rewrite Hc.
    cbn [lit add sub mul div cos arctan2 exact_scalar exact_lift1 exact_lift2
         exact_div].
    rewrite Reqb_false by lra. cbn [exact_lift2].
    fold k a. replace (Q2R 1) with 1 by (literals; lra). reflexivity. }
  assert (Hv : v_at (Finite speed) (Finite r0) (Finite x) (Finite y)
               = Finite (- speed * k * Rtrigo_def.sin a)).
  { unfold v_at, theta_at, square. rewrite Hc.
    cbn [lit add sub mul div opp sin arctan2 exact_scalar exact_lift1
         exact_lift2 exact_div].
    rewrite Reqb_false by lra. cbn [exact_lift2]. reflexivity. }
  set (uu := speed * (1 - k * Rtrigo_def.cos a)) in *.
  set (vv := - speed * k * Rtrigo_def.sin a) in *.
  assert (Hm : velocity_magnitude_at (Finite speed) (Finite r0) (Finite x) (Finite y)
               = Finite (R_sqrt.sqrt (uu * uu + vv * vv))).
  { unfold velocity_magnitude_at, square. rewrite Hu, Hv.
    cbn [add mul sqrt exact_scalar exact_lift2 exact_sqrt].
    rewrite Rltb_false by lra. reflexivity. }
  assert (Hroot : 0 <= R_sqrt.sqrt (uu * uu + vv * vv) <= 2 * speed).
  { split; [apply sqrt_pos|].
    rewrite <- (sqrt_square (2 * speed)) by lra.
    apply sqrt_le_1_alt. lra. }
  split.
  - eexists. split; [exact Hm|exact Hroot].
  - unfold pressure_at, square. rewrite Hm, Hp, Hrho.
    cbn [pow exact_scalar lit]. rewrite exact_pow_two.
    cbn [lit add sub mul exact_scalar exact_lift2].
    eexists. split; [reflexivity|].
    rewrite sqrt_sqrt by lra. literals. nra.
Qed.

(** In exact arithmetic, for a body whose larger side [max(width, height)]
    lies between 10^-100 and 10^100, a velocity, domain extents and an air
    pressure of magnitude at most 10^100, and an air density between 0 and
    10^100: nowhere on the grid does the velocity magnitude of
    [generate_flow_field] exceed twice the freestream speed (the norm of the
    first two components of the velocity), and nowhere does the pressure
    exceed the stagnation pressure [p + 0.5 * rho * speed^2] or fall below
    [p - 1.5 * rho * speed^2].  (Within these bounds nothing overflows in
    binary64 and the obstacle radius does not underflow, see
    [flow_field_has_no_nan_or_inf].) *)
Theorem flow_field_is_bounded
    (self : AerodynamicsEngine (T:=exact)) (g : ObjectGeometry (T:=exact))
    (angle c : exact) (a b x_max y_max p rho m : R) :
  pressure (air_props self) = Finite p ->
  density (air_props self) = Finite rho ->
  Rabs p <= 10 ^ 100 ->
  0 <= rho <= 10 ^ 100 ->
  py_max (width g) (height g) = Finite m ->
  / 10 ^ 100 <= m <= 10 ^ 100 ->
  Rabs a <= 10 ^ 100 -> Rabs b <= 10 ^ 100 ->
  Rabs x_max <= 10 ^ 100 -> Rabs y_max <= 10 ^ 100 ->
  let speed := R_sqrt.sqrt (a * a + b * b) in
  let field := generate_flow_field self g (mkVec3 (Finite a) (Finite b) c)
                 angle (Finite x_max, Finite y_max) in
  Forall (Forall (fun entry =>
                    exists r, entry = Finite r /\ 0 <= r <= 2 * speed))
         (ff_velocity_magnitude field)
  /\ Forall (Forall (fun entry =>
                       exists q, entry = Finite q
                                 /\ p - 15 / 10 * rho * (speed * speed) <= q
                                    <= p + 5 / 10 * rho * (speed * speed)))
            (ff_pressure field).
Proof.
  intros Hp Hrho _ [Hrho0 _] Hm [Hsmall _] _ _ _ _ speed field.
  assert (Hpos : 0 < m) by (pose proof bound_positive; lra). clear Hsmall.
  unfold field, generate_flow_field.
  cbn [ff_pressure ff_velocity_magnitude]. rewrite Hm.
  assert (Hr0 : (Finite m / #2)%num = Finite (m / 2) /\ 0 < m / 2).
  { cbn [lit div exact_scalar exact_div].
    rewrite Reqb_false by (literals; lra).
    split; [f_equal; literals; lra|lra]. }
  destruct Hr0 as [-> Hr0].
  assert (Hspeed : norm2 (mkVec3 (Finite a) (Finite b) c) = Finite speed).
  { unfold norm2. cbn [vx vy].
    cbn [add mul sqrt exact_scalar exact_lift2 exact_sqrt].
    rewrite Rltb_false by nra. reflexivity. }
  rewrite Hspeed.
  assert (Hspeed0 : 0 <= speed) by apply sqrt_pos.
  assert (Hhalf : forall extent : R,
             (exists lo, (- Finite extent / #2)%num = Finite lo)
             /\ (exists hi, (Finite extent / #2)%num = Finite hi)).
  { intros extent.
    cbn [lit div opp exact_scalar exact_lift1 exact_div].
    rewrite Reqb_false by (literals; lra).
    split; eexists; reflexivity. }
  destruct (Hhalf x_max) as [[xlo ->] [xhi ->]].
  destruct (Hhalf y_max) as [[ylo ->] [yhi ->]].
  pose proof (linspace_finite xlo xhi (fst (grid_size self))) as Hxs.
  pose proof (linspace_finite ylo yhi (snd (grid_size self))) as Hys.
  rewrite Forall_forall in Hxs, Hys.
  split; apply grid_entries; intros xi yj Hxi Hyj;
    destruct (Hxs xi Hxi) as [x ->]; destruct (Hys yj Hyj) as [y ->];
    destruct (@field_entry_bounds self p rho speed (m / 2) x y
                Hp Hrho Hrho0 Hspeed0 Hr0) as [Hmag Hpress];
    assumption.
Qed.

End ExactFieldBounds.

(** A cube of side 2 at 20 m/s in still standard air, in the 20 x 10 domain
    of [step_simulation]. *)
Lemma flow_field_is_bounded_witness :
  let g := {| length := Finite 2; width := Finite 2; height := Finite 2;
              frontal_area := Finite 4; surface_area := Finite 24;
              volume := Finite 8; object_type := CUBE |} in
  let speed := R_sqrt.sqrt (20 * 20 + 0 * 0)%R in
  let field := generate_flow_field new_engine g
                 (mkVec3 (Finite 20) (Finite 0) (Finite 0)) (Finite 0)
                 (Finite 20, Finite 10) in
  Forall (Forall (fun entry =>
                    exists r, entry = Finite r /\ (0 <= r <= 2 * speed)%R))
         (ff_velocity_magnitude field)
  /\ Forall (Forall (fun entry =>
                       exists q, entry = Finite q
                         /\ (Q2R 101325 - 15 / 10 * Q2R 1.225 * (speed * speed)
                             <= q
                             <= Q2R 101325 + 5 / 10 * Q2R 1.225 * (speed * speed))%R))
            (ff_pressure field).
Proof.
  intros g speed field.
  apply (@flow_field_is_bounded new_engine g (Finite 0) (Finite 0)
           20%R 0%R 20%R 10%R (Q2R 101325) (Q2R 1.225) 2%R).
  - reflexivity.
  - reflexivity.
  - pose proof bound_is_large. rewrite Rabs_right; unfold Q2R; cbn [Qnum Qden]; lra.
  - pose proof bound_is_large. unfold Q2R; cbn [Qnum Qden]; lra.
  - unfold py_max. cbn [width height g ltb exact_scalar exact_test].
    rewrite (@Rltb_false 2%R 2%R) by lra. reflexivity.
  - pose proof bound_is_large. pose proof bound_positive. lra.
  - pose proof bound_is_large. rewrite Rabs_right; lra.
  - pose proof bound_is_large. rewrite Rabs_right; lra.
  - pose proof bound_is_large. rewrite Rabs_right; lra.
  - pose proof bound_is_large. rewrite Rabs_right; lra.
Defined.

(* ================================================================== *)
(** ** The streamlines of a wide body, in exact arithmetic *)

Section ExactStreamlines.

Local Open Scope R_scope.




End ExactStreamlines.


(* ================================================================== *)
(** ** set_object_geometry *)

Section SetGeometry.

Context {T : Type} {S : Scalar T}.
Local Open Scope num_scope.

(** [set_object_geometry] raises nothing but the [OverflowError] of a power
    of the radius [width / 2], and only for a sphere or a cylinder; the
    exception leaves the manager, and so the geometry it had, untouched.
    When the call returns, the geometry carries the three dimensions and the
    shape as given, and every other attribute of the manager is as it was:
    the results, the state and the clock of a run in progress are kept. *)
Theorem set_object_geometry_outcome
    (self : SimulationManager (T:=T)) (shape : ObjectType)
    (len wid hgt : T) :
  match set_object_geometry self shape len wid hgt with
  | (Raised e, self') =>
      e = OverflowError
      /\ (shape = SPHERE \/ shape = CYLINDER)
      /\ (is_inf (pow (wid / #2) #2) = true
          \/ is_inf (pow (wid / #2) #3) = true)
      /\ self' = self
  | (Returned _, self') =>
      (exists g,
         geometry self' = Some g
         /\ length g = len /\ width g = wid /\ height g = hgt
         /\ object_type g = shape)
      /\ results self' = results self
      /\ state self' = state self
      /\ current_time self' = current_time self
      /\ parameters self' = parameters self
      /\ engine self' = engine self
      /\ callbacks self' = callbacks self
  end.
Proof.
  unfold set_object_geometry, derived_properties, py_pow.
  destruct shape;
    destruct (is_inf (pow (wid / #2) #2)) eqn:Hsquare;
    destruct (is_inf (pow (wid / #2) #3)) eqn:Hcube;
    cbn [andb bind];
    repeat match goal with
           | |- context [if ?c then _ else _] => destruct c; cbn [andb negb bind]
           end;
    cbn; try (repeat split; auto; fail);
    (split; [eexists; repeat split|repeat split]).
Qed.

(** A sphere or a cylinder whose squared radius overflows: the call raises
    [OverflowError] and the manager keeps the geometry it had. *)
Theorem set_object_geometry_overflow
    (self : SimulationManager (T:=T)) (shape : ObjectType)
    (len wid hgt : T) :
  shape = SPHERE \/ shape = CYLINDER ->
  is_inf (pow (wid / #2) #2) = true ->
  is_inf (wid / #2) = false ->
  is_inf (T:=T) #2 = false ->
  set_object_geometry self shape len wid hgt
  = (Raised OverflowError, self).
Proof.
  intros Hshape Hsquare Hradius Htwo.
  unfold set_object_geometry, derived_properties, py_pow.
  rewrite Hsquare, Hradius, Htwo.
  destruct Hshape as [-> | ->]; reflexivity.
Qed.

End SetGeometry.

(** A sphere of width 2^600 on the manager that holds the cube: the manager
    keeps the cube. *)
Lemma set_object_geometry_overflow_witness :
  @set_object_geometry float Run.b64 Run.cube_manager SPHERE
    1%float 0x1p+600%float 1%float
  = (Raised OverflowError, Run.cube_manager).
Proof.
  apply (@set_object_geometry_overflow float Run.b64 Run.cube_manager SPHERE
           1%float 0x1p+600%float 1%float).
  - left. reflexivity.
  - vm_compute. reflexivity.
  - vm_compute. reflexivity.
  - vm_compute. reflexivity.
Defined.

(* ================================================================== *)
(** ** The derived properties of a geometry, in exact arithmetic *)

Section ExactGeometry.

Local Open Scope R_scope.

(** In exact arithmetic, for every shape and for a length, a width and a
    height between 10^-100 and 10^100, [set_object_geometry] returns and
    installs a geometry whose frontal area, surface area and volume are
    positive numbers.  (Within these bounds no product of three dimensions
    overflows or underflows in binary64.) *)
Theorem derived_properties_are_positive
    (self : SimulationManager (T:=exact)) (shape : ObjectType)
    (len wid hgt : R) :
  / 10 ^ 100 <= len <= 10 ^ 100 ->
  / 10 ^ 100 <= wid <= 10 ^ 100 ->
  / 10 ^ 100 <= hgt <= 10 ^ 100 ->
  exists (self' : SimulationManager) (g : ObjectGeometry) (fa sa vol : R),
    set_object_geometry self shape (Finite len) (Finite wid) (Finite hgt)
    = (Returned tt, self')
    /\ geometry self' = Some g
    /\ frontal_area g = Finite fa /\ 0 < fa
    /\ surface_area g = Finite sa /\ 0 < sa
    /\ volume g = Finite vol /\ 0 < vol.
Proof.
  intros [Hlen _] [Hwid _] [Hhgt _].
  pose proof bound_positive as [Hbound _].
  assert (Hlen' : 0 < len) by lra. assert (Hwid' : 0 < wid) by lra.
  assert (Hhgt' : 0 < hgt) by lra. clear Hlen Hwid Hhgt Hbound.
  rename Hlen' into Hlen, Hwid' into Hwid, Hhgt' into Hhgt.
  pose proof PI_RGT_0 as Hpi.
  assert (Hhalf : 0 < wid / Q2R 2)
    by (apply Rdiv_lt_0_compat; [lra|literals; lra]).
  assert (Hhalf' : 0 < hgt / Q2R 2)
    by (apply Rdiv_lt_0_compat; [lra|literals; lra]).
  assert (Hfrac : 0 < Q2R 4 / Q2R 3)
    by (apply Rdiv_lt_0_compat; literals; lra).
  assert (Hcube : 0 < Rpower (wid / Q2R 2) (Q2R 3)) by apply exp_pos.
  assert (Hlit : 0 < Q2R 2 /\ 0 < Q2R 4 /\ 0 < Q2R 0.7)
    by (literals; lra).
  destruct Hlit as (Htwo & Hfour & Hseventh).
  assert (Hderived : exists fa sa vol : R,
             derived_properties shape (Finite len) (Finite wid) (Finite hgt)
             = Returned (Finite fa, Finite sa, Finite vol)
             /\ 0 < fa /\ 0 < sa /\ 0 < vol).
  { unfold derived_properties, py_pow.
    cbn [lit mul div add pi is_inf exact_scalar exact_lift2 exact_div andb].
    rewrite !(Reqb_false (x:=Q2R 2) (y:=0)) by lra.
    rewrite ?(Reqb_false (x:=Q2R 3) (y:=0)) by (literals; lra).
    cbn [pow exact_scalar]. rewrite ?exact_pow_two.
    rewrite ?(@exact_pow_positive (wid / Q2R 2) (Q2R 3)) by exact Hhalf.
    destruct shape; cbn [bind exact_lift2];
      (eexists; eexists; eexists; split; [reflexivity|]);
      repeat split;
      repeat first [ assumption
                   | apply Rmult_lt_0_compat
                   | apply Rplus_lt_0_compat ]. }
  destruct Hderived as (fa & sa & vol & Hderived & Hfa & Hsa & Hvol).
  unfold set_object_geometry. rewrite Hderived.
  eexists. eexists. exists fa, sa, vol.
  split; [reflexivity|]. split; [reflexivity|].
  cbn [frontal_area surface_area volume]. repeat split; assumption.
Qed.

End ExactGeometry.

(** A sphere 2 long, wide and high. *)
Lemma derived_properties_are_positive_witness :
  exists (self' : SimulationManager) (g : ObjectGeometry) (fa sa vol : R),
    set_object_geometry (@new_manager exact exact_scalar) SPHERE
      (Finite 2) (Finite 2) (Finite 2)
    = (Returned tt, self')
    /\ geometry self' = Some g
    /\ frontal_area g = Finite fa /\ (0 < fa)%R
    /\ surface_area g = Finite sa /\ (0 < sa)%R
    /\ volume g = Finite vol /\ (0 < vol)%R.
Proof.
  pose proof bound_is_large. pose proof bound_positive.
  apply (@derived_properties_are_positive (@new_manager exact exact_scalar)
           SPHERE 2%R 2%R 2%R); lra.
Defined.

(* ================================================================== *)
(** ** The first step after a reset, in exact arithmetic *)

Section ExactReset.

Local Open Scope R_scope.

(** In exact arithmetic, when the configured wind blows along the x axis
    ([wind_velocity = (w, 0, 0)] with [0 <= w <= 10^100], [wind_angle = 0],
    no turbulence), [reset_simulation] starts the body at rest in the air:
    the first step after the reset finds a relative speed of zero, takes the
    all-zero force bundle, and accelerates the body by gravity alone.  (The
    bound on [w] keeps its square from overflowing in binary64.) *)
Theorem first_step_after_reset_is_free_fall
    (random_normal : exact -> py (Vec3 (T:=exact)))
    (self : SimulationManager (T:=exact)) (g : ObjectGeometry)
    (w w2 w3 a M gx gy gz : R) :
  geometry self = Some g ->
  wind_velocity (parameters self) = mkVec3 (Finite w) (Finite w2) (Finite w3) ->
  0 <= w <= 10 ^ 100 -> w2 = 0 -> w3 = 0 ->
  wind_angle (parameters self) = Finite a -> a = 0 ->
  enable_turbulence (parameters self) = false ->
  max_time (parameters self) = Finite M -> 0 < M ->
  gravity (parameters self) = mkVec3 (Finite gx) (Finite gy) (Finite gz) ->
  exists self',
    step_simulation random_normal (reset_simulation self) = (Returned true, self')
    /\ forces (state self')
       = Some {| drag := zeros3; lift := zeros3; side_force := zeros3;
                 total := zeros3; coefficients := None |}
    /\ acceleration (state self') = gravity (parameters self).
Proof.
  intros Hg Hwind [Hw _] Hw2 Hw3 Hangle Ha Hcalm Hmax HM Hgravity. subst w2 w3 a.
  assert (Hspeed : norm3 (mkVec3 (Finite w) (Finite 0) (Finite 0)) = Finite w).
  { rewrite exact_norm3. f_equal.
    replace (w * w + 0 * 0 + 0 * 0) with (w * w) by ring.
    apply sqrt_square. exact Hw. }
  assert (Hblows : step_wind random_normal (parameters self)
                   = Returned (mkVec3 (Finite (w * Rtrigo_def.cos (0 * (PI / 180))))
                                      (Finite (w * Rtrigo_def.sin (0 * (PI / 180))))
                                      (Finite (Q2R 0.0)))).
  { unfold step_wind. rewrite Hcalm, Hwind, Hangle, Hspeed, radians_exact.
    reflexivity. }
  assert (Hrest : forall engine angle,
             calculate_forces engine g (mkVec3 (Finite w) (Finite 0) (Finite 0))
               angle
               (mkVec3 (Finite (w * Rtrigo_def.cos (0 * (PI / 180))))
                       (Finite (w * Rtrigo_def.sin (0 * (PI / 180))))
                       (Finite (Q2R 0.0)))
             = Returned {| drag := zeros3; lift := zeros3; side_force := zeros3;
                           total := zeros3; coefficients := None |}).
  { intros engine angle. unfold calculate_forces.
    rewrite exact_vsub, exact_norm3.
    cbn [ltb lit exact_scalar exact_test].
    rewrite Rltb_true; [reflexivity|].
    replace (0 * (PI / 180)) with 0 by lra. rewrite cos_0, sin_0.
    match goal with |- R_sqrt.sqrt ?x < _ => replace x with 0 end.
    - rewrite sqrt_0. apply threshold_positive.
    - literals. nra. }
  unfold step_simulation.
  cbn [reset_simulation geometry current_time parameters state velocity engine].
  rewrite Hg, Hmax, Hwind, Hblows. cbn [bind].
  cbn [leb lit exact_scalar exact_test].
  rewrite Rleb_false by (literals; lra).
  rewrite Hrest. cbv zeta.
  cbn [results time_history record_step empty_results app List.length Nat.modulo
       Nat.divmod Nat.eqb snd Nat.sub].
  eexists. split; [reflexivity|].
  cbn [state forces acceleration]. split; [reflexivity|].
  unfold integrate. cbn [acceleration total]. rewrite Hgravity.
  unfold vadd, zeros3. cbn [vx vy vz lit add exact_scalar exact_lift2].
  f_equal; f_equal; literals; lra.
Qed.

End ExactReset.

(** The manager as constructed, with a cube of side 2. *)
Lemma first_step_after_reset_is_free_fall_witness :
  let g := {| length := Finite 2; width := Finite 2; height := Finite 2;
              frontal_area := Finite 4; surface_area := Finite 24;
              volume := Finite 8; object_type := CUBE |} in
  let self := with_geometry (@new_manager exact exact_scalar) (Some g) in
  let random_normal := fun _ : exact =>
    Returned (mkVec3 (Finite 0) (Finite 0) (Finite 0)) in
  exists self',
    step_simulation random_normal (reset_simulation self) = (Returned true, self')
    /\ forces (state self')
       = Some {| drag := zeros3; lift := zeros3; side_force := zeros3;
                 total := zeros3; coefficients := None |}
    /\ acceleration (state self') = gravity (parameters self).
Proof.
  intros g self random_normal.
  pose proof bound_is_large.
  apply (@first_step_after_reset_is_free_fall random_normal self g
           (Q2R 10.0) (Q2R 0.0) (Q2R 0.0) (Q2R 0.0) (Q2R 10.0)
           (Q2R 0.0) (- Q2R 9.81) (Q2R 0.0));
    try reflexivity; unfold Q2R; cbn [Qnum Qden]; lra.
Defined.

(* ================================================================== *)
(** ** The default parameters, in binary64 *)

(** In binary64, a clock that starts at 0.0 and advances by the default
    [dt] of 0.001 is still below the default [max_time] of 10.0 after 10000
    additions (it stands at 9.999999999999897), and not after 10001. *)
Lemma binary64_default_clock_all (L : Libm) :
  forallb (fun k =>
             negb (@leb float (binary64 L) (@lit float (binary64 L) 10.0)
                     (@clock float (binary64 L) (@lit float (binary64 L) 0.001)
                        k (@lit float (binary64 L) 0.0))))
          (seq 0 (100 * 100 + 1)) = true
  /\ @leb float (binary64 L) (@lit float (binary64 L) 10.0)
       (@clock float (binary64 L) (@lit float (binary64 L) 0.001)
          (100 * 100 + 1) (@lit float (binary64 L) 0.0)) = true.
Proof. vm_compute. split; reflexivity. Qed.

(** In binary64, with the default parameters [dt = 0.001] and
    [max_time = 10.0], a geometry set and the clock at 0.0, whatever the
    mathematics library and the random generator:
    - every loop [while sim.step_simulation()] that ends with the answer
      [False] has appended exactly 10001 entries to the time history, and
      the loop does end so when nothing raises;
    - [run_simulation()] on the manager, not paused, makes
      [int(10.0 / 0.001)] = 10000 steps when nothing raises, and returns
      with the clock still below [max_time]: the next [step_simulation]
      would not answer [False]. *)
Theorem default_parameters_steps
    (L : Libm) (random_normal : nat -> float -> py (Vec3 (T:=float)))
    (self : SimulationManager (T:=float)) (g : ObjectGeometry) :
  geometry self = Some g ->
  dt (parameters self) = @lit float (binary64 L) 0.001 ->
  max_time (parameters self) = @lit float (binary64 L) 10.0 ->
  current_time self = @lit float (binary64 L) 0.0 ->
  (forall fuel self',
      @step_until_false float (binary64 L) fuel random_normal self
      = Some (Returned tt, self') ->
      List.length (time_history (results self'))
      = (List.length (time_history (results self)) + (100 * 100 + 1))%nat)
  /\ (@never_raises float (binary64 L) random_normal self g ->
      (forall fuel, (100 * 100 + 1 < fuel)%nat ->
       exists self',
         @step_until_false float (binary64 L) fuel random_normal self
         = Some (Returned tt, self')
         /\ List.length (time_history (results self'))
            = (List.length (time_history (results self)) + (100 * 100 + 1))%nat)
      /\ (is_paused self = false ->
          forall fuel, (100 * 100 < fuel)%nat ->
          exists self',
            @run_simulation float (binary64 L) binary64_int fuel random_normal
              None self
            = Some (Returned tt, self')
            /\ List.length (time_history (results self'))
               = (List.length (time_history (results self)) + 100 * 100)%nat
            /\ @leb float (binary64 L) (max_time (parameters self'))
                 (current_time self') = false)).
Proof.
  intros Hg Hdt Hmax Hzero.
  destruct (binary64_default_clock_all L) as [Hbefore Hend].
  rewrite forallb_forall in Hbefore.
  assert (Hbelow : forall k, (k < 100 * 100 + 1)%nat ->
             @leb float (binary64 L) (max_time (parameters self))
               (@clock float (binary64 L) (dt (parameters self)) k
                  (current_time self)) = false).
  { intros k Hk. rewrite Hdt, Hmax, Hzero.
    apply negb_true_iff. apply Hbefore. apply in_seq. lia. }
  split; [|intros Hsafe; split].
  - intros fuel self' Hrun.
    apply (@step_until_false_only_after float (binary64 L) (100 * 100 + 1) fuel
             random_normal self self' g Hg); [exact Hbelow| |exact Hrun].
    rewrite Hdt, Hmax, Hzero. exact Hend.
  - intros fuel Hfuel.
    apply (@step_until_false_counts float (binary64 L) (100 * 100 + 1) fuel
             random_normal self g Hg Hsafe); [exact Hbelow| |exact Hfuel].
    rewrite Hdt, Hmax, Hzero. exact Hend.
  - intros Hpause fuel Hfuel.
    assert (Hbound : @max_steps_of float (binary64 L) binary64_int None
                       (parameters self)
                     = Returned (Z.of_nat (100 * 100))).
    { unfold max_steps_of. rewrite Hdt, Hmax. vm_compute. reflexivity. }
    destruct (@step_at_most_counts float (binary64 L) (100 * 100) random_normal
                (with_flags self true false) g Hg Hsafe)
      as (last & Hrun & Hclock & Hlen).
    { intros k Hk. apply Hbelow. lia. }
    pose proof (@run_loop_is_driver float (binary64 L) (100 * 100) fuel
                  random_normal 0%Z (with_flags self true false)
                  eq_refl eq_refl Hfuel) as Hloop.
    rewrite Z.add_0_l, Hrun in Hloop.
    pose proof (@step_at_most_flags float (binary64 L) (100 * 100) random_normal
                  (with_flags self true false)) as [_ Hkeep].
    rewrite Hrun in Hkeep. cbn [snd is_paused with_flags] in Hkeep.
    pose proof (@driver_frame float (binary64 L) (100 * 100) random_normal
                  (with_flags self true false)) as Hframe.
    rewrite Hrun in Hframe. cbn [snd parameters with_flags] in Hframe.
    exists (with_flags last false false). split; [|split].
    + unfold run_simulation. rewrite Hg, Hbound, Hpause, Hloop, Hkeep.
      reflexivity.
    + exact Hlen.
    + cbn [parameters current_time with_flags] in *.
      rewrite Hframe, Hclock. apply Hbelow. lia.
Qed.

(** The cube of side 2 on the manager as constructed. *)
Lemma default_parameters_steps_witness :
  (forall fuel self',
      @step_until_false float Run.b64 fuel (fun _ => Run.calm) Run.cube_manager
      = Some (Returned tt, self') ->
      List.length (time_history (results self'))
      = (List.length (time_history (results Run.cube_manager))
         + (100 * 100 + 1))%nat)
  /\ (@never_raises float Run.b64 (fun _ => Run.calm) Run.cube_manager
        {| length := 2; width := 2; height := 2; frontal_area := 4;
           surface_area := 24; volume := 8; object_type := CUBE |}%float ->
      (forall fuel, (100 * 100 + 1 < fuel)%nat ->
       exists self',
         @step_until_false float Run.b64 fuel (fun _ => Run.calm)
           Run.cube_manager
         = Some (Returned tt, self')
         /\ List.length (time_history (results self'))
            = (List.length (time_history (results Run.cube_manager))
               + (100 * 100 + 1))%nat)
      /\ (is_paused Run.cube_manager = false ->
          forall fuel, (100 * 100 < fuel)%nat ->
          exists self',
            @run_simulation float Run.b64 binary64_int fuel (fun _ => Run.calm)
              None Run.cube_manager
            = Some (Returned tt, self')
            /\ List.length (time_history (results self'))
               = (List.length (time_history (results Run.cube_manager))
                  + 100 * 100)%nat
            /\ @leb float Run.b64 (max_time (parameters self'))
                 (current_time self') = false)).
Proof.
  apply (@default_parameters_steps libm_small (fun _ => Run.calm)
           Run.cube_manager
           {| length := 2; width := 2; height := 2; frontal_area := 4;
              surface_area := 24; volume := 8; object_type := CUBE |}%float);
    vm_compute; reflexivity.
Defined.

(* ================================================================== *)
(** ** Turbulence in calm air, in exact arithmetic *)

Section CalmAir.

Local Open Scope R_scope.

(** The turbulence of a step is the generator's sample times the wind speed:
    without wind it adds nothing. *)
Lemma calm_wind (random_normal : exact -> py (Vec3 (T:=exact)))
    (p : SimulationParameters (T:=exact)) (w1 w2 w3 a : R) :
  wind_velocity p = mkVec3 (Finite w1) (Finite w2) (Finite w3) ->
  w1 = 0 -> w2 = 0 -> w3 = 0 ->
  wind_angle p = Finite a ->
  (exists t1 t2 t3,
     random_normal (turbulence_intensity p)
     = Returned (mkVec3 (Finite t1) (Finite t2) (Finite t3))) ->
  step_wind random_normal p
  = Returned (mkVec3 (Finite 0) (Finite 0) (Finite 0)).
Proof.
  intros Hwind -> -> -> Hangle (t1 & t2 & t3 & Hsample).
  unfold step_wind. rewrite Hwind, Hangle, exact_norm3, radians_exact, Hsample.
  replace (0 * 0 + 0 * 0 + 0 * 0) with 0 by ring. rewrite sqrt_0.
  destruct (enable_turbulence p); cbn [bind]; unfold vadd, vscale;
    cbn [vx vy vz lit add mul sin cos exact_scalar exact_lift1 exact_lift2];
    f_equal; f_equal; f_equal; literals; lra.
Qed.

(** In exact arithmetic, when the configured wind velocity is zero, a run
    does not depend on the random generator even with [enable_turbulence]
    set: two generators that answer with numbers give the same outcome and
    leave the same manager. *)
Theorem turbulence_in_calm_air_has_no_effect (max_steps : nat) :
  forall (ra rb : nat -> exact -> py (Vec3 (T:=exact)))
         (self : SimulationManager (T:=exact)) (w1 w2 w3 a : R),
  wind_velocity (parameters self) = mkVec3 (Finite w1) (Finite w2) (Finite w3) ->
  w1 = 0 -> w2 = 0 -> w3 = 0 ->
  wind_angle (parameters self) = Finite a ->
  (forall k scale, exists t1 t2 t3,
     ra k scale = Returned (mkVec3 (Finite t1) (Finite t2) (Finite t3))) ->
  (forall k scale, exists t1 t2 t3,
     rb k scale = Returned (mkVec3 (Finite t1) (Finite t2) (Finite t3))) ->
  step_at_most max_steps ra self = step_at_most max_steps rb self.
Proof.
  induction max_steps as [|n IH];
    intros ra rb self w1 w2 w3 a Hwind H1 H2 H3 Hangle Hra Hrb; [reflexivity|].
  cbn [step_at_most].
  assert (Hstep : step_simulation (ra O) self = step_simulation (rb O) self).
  { unfold step_simulation.
    rewrite (@calm_wind (ra O) (parameters self) w1 w2 w3 a Hwind H1 H2 H3
               Hangle (Hra O _)).
    rewrite (@calm_wind (rb O) (parameters self) w1 w2 w3 a Hwind H1 H2 H3
               Hangle (Hrb O _)).
    reflexivity. }
  rewrite Hstep.
  pose proof (step_frame (rb O) self) as (_ & Hp & _).
  destruct (step_simulation (rb O) self) as [[[|]|e] mid]; try reflexivity.
  cbn [snd] in Hp.
  rewrite (IH (fun k => ra (Datatypes.S k)) (fun k => rb (Datatypes.S k))
              mid w1 w2 w3 a); try assumption; try (rewrite Hp; assumption).
  - reflexivity.
  - intros k scale. apply Hra.
  - intros k scale. apply Hrb.
Qed.

End CalmAir.

(** The cube in still air with turbulence switched on, under two
    generators. *)
Lemma turbulence_in_calm_air_has_no_effect_witness :
  let g := {| length := Finite 2; width := Finite 2; height := Finite 2;
              frontal_area := Finite 4; surface_area := Finite 24;
              volume := Finite 8; object_type := CUBE |} in
  let gusty (p : SimulationParameters (T:=exact)) := {|
    dt := dt p; max_time := max_time p;
    wind_velocity := mkVec3 (Finite 0) (Finite 0) (Finite 0);
    wind_angle := wind_angle p; object_angle := object_angle p;
    gravity := gravity p; air_density := air_density p;
    enable_turbulence := true;
    turbulence_intensity := turbulence_intensity p |} in
  let self :=
    set_parameters (with_geometry (@new_manager exact exact_scalar) (Some g))
                   gusty in
  let ra := fun (_ : nat) (_ : exact) =>
    Returned (mkVec3 (Finite 1) (Finite 2) (Finite 3)) in
  let rb := fun (_ : nat) (_ : exact) =>
    Returned (mkVec3 (Finite 0) (Finite 0) (Finite 0)) in
  step_at_most 3 ra self = step_at_most 3 rb self.
Proof.
  intros g gusty self ra rb.
  apply (@turbulence_in_calm_air_has_no_effect 3 ra rb self 0%R 0%R 0%R
           (Q2R 0.0)); try reflexivity;
    intros k scale; eexists; eexists; eexists; reflexivity.
Defined.

(* ================================================================== *)
(** ** The primitive meshes *)

Section Primitives.

Context {T : Type} {S : Scalar T}.
Local Open Scope num_scope.

Lemma py_range_length (n : Z) : List.length (py_range n) = Z.to_nat n.
Proof. unfold py_range. rewrite length_map, length_seq. reflexivity. Qed.

Lemma py_range_in (n i : Z) : In i (py_range n) -> (0 <= i < n)%Z.
Proof.
  unfold py_range. intros Hin. apply in_map_iff in Hin as (k & <- & Hk).
  apply in_seq in Hk. lia.
Qed.

Lemma next_index (n i : Z) :
  (0 <= i < n)%Z -> (0 <= (i + 1) mod n < n)%Z.
Proof. intros Hi. apply Z.mod_pos_bound. lia. Qed.

(** The cube, the cylinder and the cone are well formed for every size: the
    cube has 8 vertices and 12 triangles, the cylinder 2 + 2n vertices and 4n
    triangles, the cone 2 + n vertices and 2n triangles, for n subdivisions
    (none, and only the two centre vertices, for a number of subdivisions
    that is zero or negative); and every triangle names three vertices of
    the mesh. *)
Theorem primitive_meshes_are_well_formed
    (size radius height : T) (subdivisions : Z) :
  let n := Z.to_nat subdivisions in
  (List.length (vertices (_create_cube size)) = 8%nat
   /\ List.length (faces (_create_cube size)) = 12%nat
   /\ well_formed (_create_cube size))
  /\ (List.length (vertices (_create_cylinder radius height subdivisions))
      = (2 + 2 * n)%nat
      /\ List.length (faces (_create_cylinder radius height subdivisions))
         = (4 * n)%nat
      /\ well_formed (_create_cylinder radius height subdivisions))
  /\ (List.length (vertices (_create_cone radius height subdivisions))
      = (2 + n)%nat
      /\ List.length (faces (_create_cone radius height subdivisions))
         = (2 * n)%nat
      /\ well_formed (_create_cone radius height subdivisions)).
Proof.
  intros n. split; [|split].
  - split; [reflexivity|]. split; [reflexivity|].
    unfold well_formed. cbn [_create_cube faces vertices List.length].
    repeat constructor; cbn; lia.
  - assert (Hvertices :
              List.length (vertices (_create_cylinder radius height subdivisions))
              = (2 + 2 * n)%nat).
    { cbn [_create_cylinder vertices]. cbn [app List.length].
      rewrite length_app, !length_map, !py_range_length. fold n. lia. }
    split; [exact Hvertices|]. split.
    + cbn [_create_cylinder faces].
      rewrite !length_app, !length_map, py_range_length. fold n.
      rewrite (flat_map_constant_length (c := 2%nat));
        [rewrite py_range_length; fold n; lia|].
      intros i _. reflexivity.
    + unfold well_formed. rewrite Hvertices.
      cbn [_create_cylinder faces].
      rewrite !Forall_app, !Forall_map, Forall_flat_map. 
      repeat split; apply Forall_forall; intros i Hi;
        apply py_range_in in Hi; pose proof (next_index Hi) as Hnext;
        cbv zeta; repeat constructor; cbn [List.length]; unfold n; lia.
  - assert (Hvertices :
              List.length (vertices (_create_cone radius height subdivisions))
              = (2 + n)%nat).
    { cbn [_create_cone vertices]. cbn [app List.length].
      rewrite !length_map, !py_range_length. fold n. lia. }
    split; [exact Hvertices|]. split.
    + cbn [_create_cone faces].
      rewrite !length_app, !length_map, py_range_length. fold n. lia.
    + unfold well_formed. rewrite Hvertices.
      cbn [_create_cone faces].
      rewrite !Forall_app, !Forall_map.
      repeat split; apply Forall_forall; intros i Hi;
        apply py_range_in in Hi; pose proof (next_index Hi) as Hnext;
        cbv zeta; repeat constructor; cbn [List.length]; unfold n; lia.
Qed.

Lemma sphere_ring_length (radius theta : T) (n : Z) :
  List.length (sphere_ring radius theta n) = Z.to_nat (n * 2).
Proof. unfold sphere_ring. rewrite length_map. apply py_range_length. Qed.

Lemma sphere_rings_return (radius : T) (n : Z) (rows : list Z) :
  (of_int n =? #0) = false ->
  exists vs,
    sphere_rings radius n rows = Returned vs
    /\ List.length vs = (List.length rows * Z.to_nat (n * 2))%nat.
Proof.
  intros Hn. induction rows as [|i rows (vs & Hvs & Hlen)].
  - exists []. split; reflexivity.
  - cbn [sphere_rings]. unfold py_div. rewrite Hn. cbn [bind]. rewrite Hvs.
    cbn [bind]. eexists. split; [reflexivity|].
    rewrite length_app, sphere_ring_length, Hlen. cbn [List.length]. lia.
Qed.

(** The number of triangles that the rows below [k] contribute, each row
    with [width] quads: none for the first row of each pole. *)
Lemma sphere_faces_count (n : Z) (width : nat) (k : nat) :
  (Z.of_nat k <= Z.max 0 n)%Z ->
  list_sum
    (map (fun i : Z =>
            (width * ((if (i >? 0)%Z then 1 else 0)
                      + (if (i <? n - 1)%Z then 1 else 0)))%nat)
         (map Z.of_nat (seq 0 k)))
  = (width * ((k - 1) + Nat.min k (Z.to_nat (n - 1))))%nat.
Proof.
  induction k as [|k IH]; intros Hk; [cbn; lia|].
  rewrite seq_S, !map_app, list_sum_app, IH by lia.
  cbn [map Nat.add]. unfold list_sum. cbn [fold_right].
  rewrite Nat.add_0_r, <- Nat.mul_add_distr_l. f_equal.
  destruct (Z.gtb_spec (Z.of_nat k) 0);
    destruct (Z.ltb_spec (Z.of_nat k) (n - 1)); lia.
Qed.

(** [_create_sphere] raises [ZeroDivisionError] for zero subdivisions, where
    the first polar angle divides by zero; for every other number [n] of
    subdivisions (the conversion of [n] to a float being exact) it returns a
    well-formed mesh of (n + 1) * 2n vertices and 4n(n - 1) triangles, the
    empty mesh when [n] is negative. *)
Theorem sphere_mesh (radius : T) (subdivisions : Z) :
  (of_int subdivisions =? #0) = (subdivisions =? 0)%Z ->
  let n := Z.to_nat subdivisions in
  if (subdivisions =? 0)%Z
  then _create_sphere radius subdivisions = Raised ZeroDivisionError
  else exists m,
         _create_sphere radius subdivisions = Returned m
         /\ List.length (vertices m) = (Z.to_nat (subdivisions + 1) * (2 * n))%nat
         /\ List.length (faces m) = (4 * n * (n - 1))%nat
         /\ well_formed m.
Proof.
  intros Hexact n.
  destruct (subdivisions =? 0)%Z eqn:Hzero.
  - apply Z.eqb_eq in Hzero. clear n. subst subdivisions.
    unfold _create_sphere. change (py_range (0 + 1)) with [0%Z].
    cbn [sphere_rings]. unfold py_div. rewrite Hexact. reflexivity.
  - apply Z.eqb_neq in Hzero as Hnonzero.
    destruct (@sphere_rings_return radius subdivisions
                (py_range (subdivisions + 1)) Hexact)
      as (vs & Hvs & Hlen).
    rewrite py_range_length in Hlen.
    unfold _create_sphere. rewrite Hvs. cbn [bind].
    eexists. split; [reflexivity|]. cbn [vertices faces].
    assert (Hwidth : Z.to_nat (subdivisions * 2) = (2 * n)%nat)
      by (unfold n; lia).
    rewrite Hlen, Hwidth. split; [reflexivity|]. split.
    + unfold sphere_faces. rewrite length_flat_map.
      rewrite (map_ext_in _
                 (fun i : Z =>
                    ((2 * n) * ((if (i >? 0)%Z then 1 else 0)
                                + (if (i <? subdivisions - 1)%Z then 1 else 0)))%nat)).
      2:{ intros i _.
          rewrite (flat_map_constant_length
                     (c := ((if (i >? 0)%Z then 1 else 0)
                            + (if (i <? subdivisions - 1)%Z then 1 else 0))%nat)).
          - rewrite py_range_length, Hwidth. reflexivity.
          - intros j _. cbv zeta. rewrite length_app.
            destruct (i >? 0)%Z; destruct (i <? subdivisions - 1)%Z;
              reflexivity. }
      unfold py_range. fold n.
      rewrite (@sphere_faces_count subdivisions (2 * n) n) by (unfold n; lia).
      assert (Hmin : Nat.min n (Z.to_nat (subdivisions - 1)) = (n - 1)%nat)
        by (unfold n; lia).
      rewrite Hmin. nia.
    + unfold well_formed, sphere_faces. cbn [vertices faces].
      rewrite Hlen, Hwidth.
      rewrite Forall_flat_map. apply Forall_forall. intros i Hi.
      rewrite Forall_flat_map. apply Forall_forall. intros j Hj.
      apply py_range_in in Hi, Hj.
      assert (Hnext : (0 <= (j + 1) mod (subdivisions * 2) < subdivisions * 2)%Z)
        by (apply Z.mod_pos_bound; lia).
      assert (Hcount : Z.of_nat (Z.to_nat (subdivisions + 1) * (2 * n))
                       = ((subdivisions + 1) * (subdivisions * 2))%Z)
        by (unfold n; nia).
      rewrite Hcount. cbv zeta.
      destruct (i >? 0)%Z; destruct (i <? subdivisions - 1)%Z;
        cbn [app]; repeat constructor; cbn [List.length]; nia.
Qed.

End Primitives.

(** The sphere of the repository's system test: ten subdivisions. *)
Lemma sphere_mesh_witness :
  exists m,
    @_create_sphere float Run.b64 1%float 10 = Returned m
    /\ List.length (vertices m) = (Z.to_nat (10 + 1) * (2 * Z.to_nat 10))%nat
    /\ List.length (faces m) = (4 * Z.to_nat 10 * (Z.to_nat 10 - 1))%nat
    /\ well_formed m.
Proof.
  apply (@sphere_mesh float Run.b64 1%float 10%Z).
  vm_compute. reflexivity.
Defined.

(* ================================================================== *)
(** ** The bounding box of a mesh, in exact arithmetic *)

Section ExactBounds.

Local Open Scope R_scope.

Lemma exact_minimum (a b : R) :
  exists l, np_minimum (Finite a) (Finite b) = Finite l /\ l <= a /\ l <= b.
Proof.
  unfold np_minimum. cbn [is_nan leb exact_scalar exact_test orb].
  unfold Rleb. destruct (Rle_dec a b); eexists; (split; [reflexivity|]); lra.
Qed.

Lemma exact_maximum (a b : R) :
  exists h, np_maximum (Finite a) (Finite b) = Finite h /\ a <= h /\ b <= h.
Proof.
  unfold np_maximum. cbn [is_nan leb exact_scalar exact_test orb].
  unfold Rleb. destruct (Rle_dec b a); eexists; (split; [reflexivity|]); lra.
Qed.

Lemma min_rows_bound (rest : list (Vec3 (T:=exact))) :
  forall a b c : R,
  Forall (fun v => exists x y z, v = mkVec3 (Finite x) (Finite y) (Finite z))
         rest ->
  exists lx ly lz,
    np_min_rows (mkVec3 (Finite a) (Finite b) (Finite c)) rest
    = mkVec3 (Finite lx) (Finite ly) (Finite lz)
    /\ lx <= a /\ ly <= b /\ lz <= c
    /\ Forall (fun v => exists x y z,
                          v = mkVec3 (Finite x) (Finite y) (Finite z)
                          /\ lx <= x /\ ly <= y /\ lz <= z) rest.
Proof.
  induction rest as [|v rest IH]; intros a b c Hfinite.
  - exists a, b, c. repeat split; try lra. constructor.
  - inversion Hfinite as [|v' rest' (x & y & z & ->) Hrest]; subst.
    unfold np_min_rows. cbn [fold_left vx vy vz].
    destruct (exact_minimum a x) as (la & -> & Hla & Hlx).
    destruct (exact_minimum b y) as (lb & -> & Hlb & Hly).
    destruct (exact_minimum c z) as (lc & -> & Hlc & Hlz).
    destruct (IH la lb lc Hrest) as (lx & ly & lz & Hfold & H1 & H2 & H3 & Hall).
    exists lx, ly, lz. split; [exact Hfold|]. repeat split; try lra.
    constructor; [|exact Hall].
    exists x, y, z. repeat split; lra.
Qed.

Lemma max_rows_bound (rest : list (Vec3 (T:=exact))) :
  forall a b c : R,
  Forall (fun v => exists x y z, v = mkVec3 (Finite x) (Finite y) (Finite z))
         rest ->
  exists hx hy hz,
    np_max_rows (mkVec3 (Finite a) (Finite b) (Finite c)) rest
    = mkVec3 (Finite hx) (Finite hy) (Finite hz)
    /\ a <= hx /\ b <= hy /\ c <= hz
    /\ Forall (fun v => exists x y z,
                          v = mkVec3 (Finite x) (Finite y) (Finite z)
                          /\ x <= hx /\ y <= hy /\ z <= hz) rest.
Proof.
  induction rest as [|v rest IH]; intros a b c Hfinite.
  - exists a, b, c. repeat split; try lra. constructor.
  - inversion Hfinite as [|v' rest' (x & y & z & ->) Hrest]; subst.
    unfold np_max_rows. cbn [fold_left vx vy vz].
    destruct (exact_maximum a x) as (ha & -> & Hha & Hhx).
    destruct (exact_maximum b y) as (hb & -> & Hhb & Hhy).
    destruct (exact_maximum c z) as (hc & -> & Hhc & Hhz).
    destruct (IH ha hb hc Hrest) as (hx & hy & hz & Hfold & H1 & H2 & H3 & Hall).
    exists hx, hy, hz. split; [exact Hfold|]. repeat split; try lra.
    constructor; [|exact Hall].
    exists x, y, z. repeat split; lra.
Qed.

(** In exact arithmetic, for a mesh whose vertex coordinates are numbers of
    magnitude at most 10^100: [get_bounds] returns two corners between which
    every vertex lies, [get_dimensions] returns their difference, which is
    negative in no coordinate, and [get_volume] the product of the three
    dimensions, which is not negative.  (A mesh without vertices has both
    corners at the origin.  Within the bound neither a difference of
    coordinates nor the product of three of them overflows in binary64.) *)
Theorem bounding_box_holds_the_mesh (m : Mesh (T:=exact)) :
  Forall (within (- 10 ^ 100) (- 10 ^ 100) (- 10 ^ 100)
                 (10 ^ 100) (10 ^ 100) (10 ^ 100))
         (vertices m) ->
  exists lx ly lz hx hy hz : R,
    get_bounds m = (mkVec3 (Finite lx) (Finite ly) (Finite lz),
                    mkVec3 (Finite hx) (Finite hy) (Finite hz))
    /\ Forall (within lx ly lz hx hy hz) (vertices m)
    /\ get_dimensions m
       = mkVec3 (Finite (hx - lx)) (Finite (hy - ly)) (Finite (hz - lz))
    /\ 0 <= hx - lx /\ 0 <= hy - ly /\ 0 <= hz - lz
    /\ get_volume m = Finite ((hx - lx) * (hy - ly) * (hz - lz))
    /\ 0 <= (hx - lx) * (hy - ly) * (hz - lz).
Proof.
  intros Hmoderate.
  assert (Hfinite : Forall (fun v => exists x y z,
                              v = mkVec3 (Finite x) (Finite y) (Finite z))
                           (vertices m)).
  { revert Hmoderate. apply Forall_impl.
    intros v (x & y & z & -> & _). exists x, y, z. reflexivity. }
  assert (Hbounds : exists lx ly lz hx hy hz : R,
             get_bounds m = (mkVec3 (Finite lx) (Finite ly) (Finite lz),
                             mkVec3 (Finite hx) (Finite hy) (Finite hz))
             /\ Forall (within lx ly lz hx hy hz) (vertices m)
             /\ lx <= hx /\ ly <= hy /\ lz <= hz).
  { unfold get_bounds. destruct (vertices m) as [|first rest].
    - exists (Q2R 0), (Q2R 0), (Q2R 0), (Q2R 0), (Q2R 0), (Q2R 0).
      split; [reflexivity|]. split; [constructor|]. lra.
    - inversion Hfinite as [|v' rest' (a & b & c & ->) Hrest]; subst.
      destruct (min_rows_bound a b c Hrest)
        as (lx & ly & lz & -> & Hla & Hlb & Hlc & Hlow).
      destruct (max_rows_bound a b c Hrest)
        as (hx & hy & hz & -> & Hha & Hhb & Hhc & Hhigh).
      exists lx, ly, lz, hx, hy, hz. split; [reflexivity|].
      split; [|lra].
      constructor; [exists a, b, c; repeat split; lra|].
      rewrite Forall_forall in *. intros v Hv.
      destruct (Hlow v Hv) as (x & y & z & -> & Hx & Hy & Hz).
      destruct (Hhigh _ Hv) as (x' & y' & z' & Heq & Hx' & Hy' & Hz').
      injection Heq as <- <- <-.
      exists x, y, z. repeat split; lra. }
  destruct Hbounds as (lx & ly & lz & hx & hy & hz & Hb & Hall & Hx & Hy & Hz).
  exists lx, ly, lz, hx, hy, hz.
  split; [exact Hb|]. split; [exact Hall|].
  unfold get_volume, get_dimensions. rewrite Hb.
  cbn [vsub vx vy vz sub mul exact_scalar exact_lift2].
  repeat split; try lra.
  apply Rmult_le_pos; [apply Rmult_le_pos|]; lra.
Qed.

End ExactBounds.

(** The cube of size 2: its box is the cube itself. *)
Lemma bounding_box_holds_the_mesh_witness :
  let m := @_create_cube exact exact_scalar (Finite 2) in
  exists lx ly lz hx hy hz : R,
    get_bounds m = (mkVec3 (Finite lx) (Finite ly) (Finite lz),
                    mkVec3 (Finite hx) (Finite hy) (Finite hz))
    /\ Forall (within lx ly lz hx hy hz) (vertices m)
    /\ get_dimensions m
       = mkVec3 (Finite (hx - lx)) (Finite (hy - ly)) (Finite (hz - lz))
    /\ (0 <= hx - lx)%R /\ (0 <= hy - ly)%R /\ (0 <= hz - lz)%R
    /\ get_volume m = Finite ((hx - lx) * (hy - ly) * (hz - lz))
    /\ (0 <= (hx - lx) * (hy - ly) * (hz - lz))%R.
Proof.
  intros m.
  apply (@bounding_box_holds_the_mesh m).
  unfold m, _create_cube. cbn [vertices div lit opp exact_scalar exact_div].
  rewrite Reqb_false by (unfold Q2R; cbn [Qnum Qden]; lra).
  cbn [exact_lift1].
  pose proof bound_is_large.
  repeat constructor; eexists; eexists; eexists;
    (split; [reflexivity|]); unfold Q2R; cbn [Qnum Qden]; repeat split; lra.
Defined.
